(** * mcp_process_manager: ring buffer, process handler and process manager

    A shallow embedding of [ring_buffer.py], [process_handler.py] and
    [process_manager.py], followed by the properties of the specification
    that were checked against it.

    Conventions.
    - A Python [str] is a list of Unicode code points ([pystr]); its UTF-8
      encoding is written out, so that character counts and byte counts can be
      told apart, as [len(data)] and [len(data.encode('utf-8'))] are in the
      source.
      [str.encode('utf-8')] raises [UnicodeEncodeError] on a string that
      holds a surrogate (U+D800 to U+DFFF): [encode] is the method with its
      exception, [encode_utf8] the bytes it returns when it returns.
    - Python [int]s are [Z]; [None] is [None] of an [option].
    - Objects are records; a method that mutates [self] returns the new
      object next to its result.
    - The regular-expression engine, [fnmatch] and the UTF-8 decoder are the
      Python runtime's, not the repository's: they are the fields of a
      [PyRuntime] the searching and assembling code is parametrised by. *)

From Stdlib Require Import ZArith NArith Lia Bool String Ascii.
From Stdlib Require Import DecimalString DecimalPos DecimalZ.
From stdpp Require Import base decidable list.

Local Open Scope Z_scope.

(** ** Python strings *)

Module Py.

Definition pystr := list N.

(** A literal of the source, as a list of code points. *)
Definition py (s : string) : pystr :=
  List.map N_of_ascii (list_ascii_of_string s).

(** [str(n)] for an [int]. *)
Definition str_of_int (n : Z) : pystr :=
  py (NilZero.string_of_int (Z.to_int n)).

(** The bytes of one code point under UTF-8. *)
Definition utf8_encode_char (c : N) : list N :=
  if (c <? 0x80)%N then [c]
  else if (c <? 0x800)%N then
    [N.lor 0xC0 (N.shiftr c 6); N.lor 0x80 (N.land c 0x3F)]
  else if (c <? 0x10000)%N then
    [N.lor 0xE0 (N.shiftr c 12);
     N.lor 0x80 (N.land (N.shiftr c 6) 0x3F);
     N.lor 0x80 (N.land c 0x3F)]
  else
    [N.lor 0xF0 (N.shiftr c 18);
     N.lor 0x80 (N.land (N.shiftr c 12) 0x3F);
     N.lor 0x80 (N.land (N.shiftr c 6) 0x3F);
     N.lor 0x80 (N.land c 0x3F)].

(** The bytes [s.encode('utf-8')] returns for a string it accepts. *)
Definition encode_utf8 (s : pystr) : list N :=
  List.flat_map utf8_encode_char s.

(** [len(s.encode('utf-8'))], for a string [encode] accepts. *)
Definition byte_len (s : pystr) : Z := Z.of_nat (length (encode_utf8 s)).

(** The code points [str.encode('utf-8')] refuses. *)
Definition is_surrogate (c : N) : bool := ((0xD800 <=? c) && (c <=? 0xDFFF))%N.

(** A string [str.encode('utf-8')] accepts: it holds no surrogate. *)
Definition encodable (s : pystr) : bool :=
  forallb (fun c => negb (is_surrogate c)) s.

Definition hex_digit (d : N) : N := if (d <? 10)%N then (48 + d)%N else (87 + d)%N.

(** The escape of a code point below U+10000 in an error message. *)
Definition escape_u (c : N) : pystr :=
  py "\u" ++ [hex_digit (N.shiftr c 12); hex_digit (N.land (N.shiftr c 8) 15);
              hex_digit (N.land (N.shiftr c 4) 15); hex_digit (N.land c 15)].

(** The surrogates at the head of a string. *)
Fixpoint surrogate_run (s : pystr) : nat :=
  match s with
  | c :: s' => if is_surrogate c then S (surrogate_run s') else O
  | [] => O
  end.

(** [str(e)] of the [UnicodeEncodeError] for the surrogate [c] at position
    [pos], followed by [more] further surrogates. *)
Definition encode_error (pos : nat) (c : N) (more : nat) : pystr :=
  py "'utf-8' codec can't encode " ++
  match more with
  | O => py "character '" ++ escape_u c ++ py "' in position " ++
         str_of_int (Z.of_nat pos)
  | S _ => py "characters in position " ++ str_of_int (Z.of_nat pos) ++ py "-" ++
           str_of_int (Z.of_nat (pos + more))
  end ++ py ": surrogates not allowed".

Fixpoint encode_from (pos : nat) (s : pystr) : pystr + list N :=
  match s with
  | [] => inr []
  | c :: s' =>
      if is_surrogate c then inl (encode_error pos c (surrogate_run s'))
      else match encode_from (S pos) s' with
           | inl e => inl e
           | inr bytes => inr (utf8_encode_char c ++ bytes)
           end
  end.

(** [s.encode('utf-8')]: the bytes, or [inl] of the message of the
    [UnicodeEncodeError] raised at the first surrogate. *)
Definition encode (s : pystr) : pystr + list N := encode_from 0 s.

(** [l[i:]] with Python's treatment of a negative or too large index. *)
Definition slice_from {A} (i : Z) (l : list A) : list A :=
  let n := Z.of_nat (length l) in
  let start := if i <? 0 then Z.max (n + i) 0 else Z.min i n in
  drop (Z.to_nat start) l.

(** [l[-k:]] *)
Definition slice_last {A} (k : Z) (l : list A) : list A := slice_from (- k) l.

(** [l[:k]] with Python's treatment of a negative or too large index. *)
Definition slice_to {A} (k : Z) (l : list A) : list A :=
  let n := Z.of_nat (length l) in
  let stop := if k <? 0 then Z.max (n + k) 0 else Z.min k n in
  take (Z.to_nat stop) l.

(** [s.startswith(p)] *)
Fixpoint startswith (p s : pystr) : bool :=
  match p, s with
  | [], _ => true
  | _ :: _, [] => false
  | a :: p', b :: s' => (a =? b)%N && startswith p' s'
  end.

(** [s.endswith(p)] *)
Definition endswith (p s : pystr) : bool := startswith (rev p) (rev s).

(** [p in s] for two strings. *)
Fixpoint str_in (p s : pystr) : bool :=
  startswith p s ||
  match s with
  | [] => false
  | _ :: s' => str_in p s'
  end.

(** The code points [str.strip()] removes. *)
Definition isspace (c : N) : bool :=
  ((0x09 <=? c) && (c <=? 0x0D) || (0x1C <=? c) && (c <=? 0x20)
   || (c =? 0x85) || (c =? 0xA0) || (c =? 0x1680)
   || (0x2000 <=? c) && (c <=? 0x200A)
   || (c =? 0x2028) || (c =? 0x2029) || (c =? 0x202F) || (c =? 0x205F)
   || (c =? 0x3000))%N.

Fixpoint lstrip (s : pystr) : pystr :=
  match s with
  | c :: s' => if isspace c then lstrip s' else s
  | [] => []
  end.

(** [s.strip()] *)
Definition strip (s : pystr) : pystr := rev (lstrip (rev (lstrip s))).

(** [sep.join(parts)] *)
Fixpoint join (sep : pystr) (parts : list pystr) : pystr :=
  match parts with
  | [] => []
  | [x] => x
  | x :: rest => x ++ sep ++ join sep rest
  end.

(** The values handed to the logging helpers: [None], a string, or a list
    of such values (a command). *)
#[warnings="-register-all"]
Inductive pyval :=
  | VNone
  | VStr (s : pystr)
  | VList (items : list pyval).

(** What the source takes from the Python runtime. *)
Inductive compiled (R : Type) :=
  | Compiled (r : R)
  | ReError (msg : pystr)        (* [re.error] *)
  | CompileFault (msg : pystr).  (* any other exception of [re.compile] *)
Arguments Compiled {R} r.
Arguments ReError {R} msg.
Arguments CompileFault {R} msg.

(** [Pattern.search], [fnmatch.fnmatch] and the decoder are total: on
    strings (and on bytes, for the decoder with [errors='replace']) they
    raise nothing, so the [except] clauses around the comprehensions of the
    searches are reached by a pattern that is not a string only; the one
    such pattern the callers can pass is [None]. *)
Record PyRuntime := {
  regex : Type;
  re_compile : pystr -> compiled regex;
  re_search : regex -> pystr -> bool;
  fnmatch : pystr -> pystr -> bool;
  decode_utf8_replace : list N -> pystr
}.

End Py.
Import Py.

(** ** ring_buffer.py *)

Module RingBuffer.

Record t := {
  max_size_bytes : Z;
  buffer : list pystr;
  current_size : Z
}.

(** [RingBuffer(max_size_bytes)] *)
Definition init (max : Z) : t :=
  {| max_size_bytes := max; buffer := []; current_size := 0 |}.

(** [_truncate_for_logging(value, max_length)] of [RingBuffer]: only a
    string is shortened. *)
Definition truncate_for_logging (value : pyval) (max_length : Z) : pyval :=
  match value with
  | VStr s =>
      if Z.of_nat (length s) >? max_length
      then VStr (slice_to (max_length - 3) s ++ py "...")
      else value
  | _ => value
  end.

(** The loop of [append]:
    [while self.current_size + data_size > self.max_size_bytes and self.buffer]. *)
Fixpoint evict (max data_size : Z) (buf : list pystr) (cur : Z)
  : list pystr * Z :=
  match buf with
  | removed :: rest =>
      if cur + data_size >? max
      then evict max data_size rest (cur - byte_len removed)
      else (buf, cur)
  | [] => ([], cur)
  end.

Definition append (rb : t) (data : pystr) : t :=
  let max := max_size_bytes rb in
  let data_size := byte_len data in
  let '(data, data_size) :=
    if data_size >? max then (slice_last max data, max) else (data, data_size) in
  let '(buf, cur) := evict max data_size (buffer rb) (current_size rb) in
  {| max_size_bytes := max; buffer := buf ++ [data]; current_size := cur + data_size |}.

Definition get_lines (rb : t) (max_lines : Z) : list pystr :=
  if max_lines <=? 0 then buffer rb else slice_last max_lines (buffer rb).

Definition clear (rb : t) : t :=
  {| max_size_bytes := max_size_bytes rb; buffer := []; current_size := 0 |}.

Definition get_size (rb : t) : Z := current_size rb.

(** The tail shared by the three searches:
    [if max_lines <= 0: return matches] / [return matches[-max_lines:]]. *)
Definition last_matches (matches : list pystr) (max_lines : Z) : list pystr :=
  if max_lines <=? 0 then matches else slice_last max_lines matches.

Definition error_line (msg : pystr) : pystr := py "ERROR: " ++ msg.

Section Search.
Context (rt : PyRuntime).

Definition search_string (rb : t) (search_str : option pystr) (max_lines : Z)
  : list pystr :=
  match search_str with
  | None => [error_line (py "Search string cannot be None")]
  | Some s =>
      let matches := List.filter (fun line => str_in s line) (buffer rb) in
      last_matches matches max_lines
  end.

(** With [None] for a pattern the compilation is skipped and
    [regex_pattern.search] raises [AttributeError] at the first line
    examined; with no line to examine nothing is raised. *)
Definition search_regex (rb : t) (regex_pattern : option pystr) (max_lines : Z)
  : list pystr :=
  match regex_pattern with
  | Some p =>
      match re_compile rt p with
      | ReError msg => [error_line (py "Invalid regex pattern: " ++ msg)]
      | CompileFault msg =>
          [error_line (py "Unexpected error compiling regex: " ++ msg)]
      | Compiled r =>
          let matches := List.filter (fun line => re_search rt r line) (buffer rb) in
          last_matches matches max_lines
      end
  | None =>
      match buffer rb with
      | [] => last_matches [] max_lines
      | _ :: _ =>
          [error_line (py "Error during regex search: " ++
                       py "'NoneType' object has no attribute 'search'")]
      end
  end.

Definition search_wildcard (rb : t) (wildcard_pattern : option pystr)
    (max_lines : Z) : list pystr :=
  match wildcard_pattern with
  | None | Some [] => [error_line (py "Empty wildcard pattern provided")]
  | Some p =>
      let matches :=
        List.filter (fun line => fnmatch rt (strip line) p) (buffer rb) in
      last_matches matches max_lines
  end.

End Search.

(** Sum of the UTF-8 byte lengths of the retained lines. *)
Definition stored_bytes (rb : t) : Z :=
  fold_right Z.add 0 (List.map byte_len (buffer rb)).

End RingBuffer.


(** ** The operating system's side of [subprocess.Popen]

    Time is counted in polling intervals: one [sleep_tick] is the
    [time.sleep(0.1)] of [ProcessHandler.kill], and a timeout is the number
    of times its loop may run.  What the environment decides (how a process
    answers SIGKILL, whether [os.kill] raises) is carried by the process
    itself. *)

Module Popen.

Inductive os_status :=
  | Alive
  | Dying (ticks : nat) (code : Z)    (* exits with [code] after [ticks] more ticks *)
  | Exited (code : Z).

Record t := {
  pid : Z;
  returncode : option Z;          (* [Popen.returncode], set by [poll] *)
  os : os_status;
  kill_latency : option nat;      (* ticks from SIGKILL to exit; [None]: it survives *)
  kill_fault : option pystr;      (* [str(e)] of the exception [os.kill] raises, if any *)
  sigkills : nat;                 (* SIGKILLs delivered so far *)
  stdin_closed : bool;
  stdin_data : list N             (* bytes written to the child's stdin *)
}.

Definition set_returncode (rc : option Z) (p : t) : t :=
  {| pid := pid p; returncode := rc; os := os p; kill_latency := kill_latency p;
     kill_fault := kill_fault p; sigkills := sigkills p;
     stdin_closed := stdin_closed p; stdin_data := stdin_data p |}.

Definition set_os (s : os_status) (p : t) : t :=
  {| pid := pid p; returncode := returncode p; os := s; kill_latency := kill_latency p;
     kill_fault := kill_fault p; sigkills := sigkills p;
     stdin_closed := stdin_closed p; stdin_data := stdin_data p |}.

Definition set_sigkills (n : nat) (p : t) : t :=
  {| pid := pid p; returncode := returncode p; os := os p; kill_latency := kill_latency p;
     kill_fault := kill_fault p; sigkills := n;
     stdin_closed := stdin_closed p; stdin_data := stdin_data p |}.

Definition set_stdin (closed : bool) (data : list N) (p : t) : t :=
  {| pid := pid p; returncode := returncode p; os := os p; kill_latency := kill_latency p;
     kill_fault := kill_fault p; sigkills := sigkills p;
     stdin_closed := closed; stdin_data := data |}.

(** [Popen.poll()]: the object, its [returncode] refreshed. *)
Definition poll (p : t) : t :=
  match returncode p, os p with
  | None, Exited c => set_returncode (Some c) p
  | _, _ => p
  end.

(** [time.sleep(0.1)] as the process sees it. *)
Definition sleep_tick (p : t) : t :=
  match os p with
  | Dying 0 c => set_os (Exited c) p
  | Dying (S k) c => set_os (Dying k c) p
  | _ => p
  end.

(** SIGKILL ends a process with return code -9. *)
Definition after_sigkill (latency : option nat) (s : os_status) : os_status :=
  match s, latency with
  | Alive, Some 0%nat => Exited (-9)
  | Alive, Some (S k) => Dying k (-9)
  | _, _ => s
  end.

(** [Popen.kill()]: polls, sends nothing to a process already reaped, and
    otherwise signals it; [inl msg] is an exception raised by [os.kill]. *)
Definition kill (p : t) : pystr + t :=
  let p := poll p in
  match returncode p with
  | Some _ => inr p
  | None =>
      match kill_fault p with
      | Some msg => inl msg
      | None =>
          inr (set_os (after_sigkill (kill_latency p) (os p))
                 (set_sigkills (S (sigkills p)) p))
      end
  end.

(** [stdin.write(data); stdin.flush()] on the unbuffered pipe (a [FileIO],
    as [bufsize=0]): [inl] is [str(e)] of the [ValueError] of a closed file
    or of the [BrokenPipeError] of a pipe whose reader is gone. *)
Definition stdin_write (data : list N) (p : t) : pystr + t :=
  if stdin_closed p then inl (py "I/O operation on closed file")
  else match os p with
       | Exited _ => inl (py "[Errno 32] Broken pipe")
       | _ => inr (set_stdin false (stdin_data p ++ data) p)
       end.

(** [stdin.close()] *)
Definition stdin_close (p : t) : t := set_stdin true (stdin_data p) p.

End Popen.

(** What [subprocess.Popen(command, ...)] may do. *)
Inductive spawn_result :=
  | Spawned (p : Popen.t)
  | FileNotFoundError (e : pystr)
  | IndexError (e : pystr)
  | PermissionError (e : pystr)
  | SubprocessError (e : pystr)
  | OtherException (e : pystr).

Definition is_spawned (r : spawn_result) : bool :=
  match r with Spawned _ => true | _ => false end.

(** ** process_handler.py *)

Module ProcessHandler.

(** What the readers put on [io_queue]: [(source, byte)] or [("error", str(e))]. *)
Inductive io_item :=
  | Data (source : pystr) (byte : N)
  | ErrorMarker (detail : pystr).

(** Where the [_process_output] thread stands between two of its steps:
    before the test of [while not self.stop_event.is_set()], inside
    [self.io_queue.get(timeout=0.1)], or in the [except queue.Empty] clause
    past the flush of the partial line, before the exit check. *)
Inductive processor_point :=
  | AtLoopTest
  | InQueueGet
  | AtExitCheck.

(** [state_log] is not a field of the source: it keeps every value that was
    assigned to [self.state], oldest first.  [current_line],
    [processor_alive] (started and not yet returned) and [processor_at] are
    the local state of the [_process_output] thread. *)
Record t := {
  command : list pystr;
  process : option Popen.t;
  pid : option Z;
  state : pystr;
  error : option pystr;
  buffer : RingBuffer.t;
  io_queue : list io_item;
  stop_event : bool;
  current_line : list N;
  processor_alive : bool;
  processor_at : processor_point;
  state_log : list pystr
}.

Definition set_process (p : option Popen.t) (h : t) : t :=
  {| command := command h; process := p; pid := pid h; state := state h;
     error := error h; buffer := buffer h; io_queue := io_queue h;
     stop_event := stop_event h; current_line := current_line h;
     processor_alive := processor_alive h; processor_at := processor_at h;
     state_log := state_log h |}.

Definition set_pid (n : option Z) (h : t) : t :=
  {| command := command h; process := process h; pid := n; state := state h;
     error := error h; buffer := buffer h; io_queue := io_queue h;
     stop_event := stop_event h; current_line := current_line h;
     processor_alive := processor_alive h; processor_at := processor_at h;
     state_log := state_log h |}.

(** [self.state = s] *)
Definition set_state (s : pystr) (h : t) : t :=
  {| command := command h; process := process h; pid := pid h; state := s;
     error := error h; buffer := buffer h; io_queue := io_queue h;
     stop_event := stop_event h; current_line := current_line h;
     processor_alive := processor_alive h; processor_at := processor_at h;
     state_log := state_log h ++ [s] |}.

Definition set_error (e : option pystr) (h : t) : t :=
  {| command := command h; process := process h; pid := pid h; state := state h;
     error := e; buffer := buffer h; io_queue := io_queue h;
     stop_event := stop_event h; current_line := current_line h;
     processor_alive := processor_alive h; processor_at := processor_at h;
     state_log := state_log h |}.

Definition set_buffer (b : RingBuffer.t) (h : t) : t :=
  {| command := command h; process := process h; pid := pid h; state := state h;
     error := error h; buffer := b; io_queue := io_queue h;
     stop_event := stop_event h; current_line := current_line h;
     processor_alive := processor_alive h; processor_at := processor_at h;
     state_log := state_log h |}.

Definition set_io_queue (q : list io_item) (h : t) : t :=
  {| command := command h; process := process h; pid := pid h; state := state h;
     error := error h; buffer := buffer h; io_queue := q;
     stop_event := stop_event h; current_line := current_line h;
     processor_alive := processor_alive h; processor_at := processor_at h;
     state_log := state_log h |}.

Definition set_stop_event (b : bool) (h : t) : t :=
  {| command := command h; process := process h; pid := pid h; state := state h;
     error := error h; buffer := buffer h; io_queue := io_queue h;
     stop_event := b; current_line := current_line h;
     processor_alive := processor_alive h; processor_at := processor_at h;
     state_log := state_log h |}.

Definition set_current_line (l : list N) (h : t) : t :=
  {| command := command h; process := process h; pid := pid h; state := state h;
     error := error h; buffer := buffer h; io_queue := io_queue h;
     stop_event := stop_event h; current_line := l;
     processor_alive := processor_alive h; processor_at := processor_at h;
     state_log := state_log h |}.

Definition set_processor_alive (b : bool) (h : t) : t :=
  {| command := command h; process := process h; pid := pid h; state := state h;
     error := error h; buffer := buffer h; io_queue := io_queue h;
     stop_event := stop_event h; current_line := current_line h;
     processor_alive := b; processor_at := processor_at h;
     state_log := state_log h |}.

Definition set_processor_at (at_ : processor_point) (h : t) : t :=
  {| command := command h; process := process h; pid := pid h; state := state h;
     error := error h; buffer := buffer h; io_queue := io_queue h;
     stop_event := stop_event h; current_line := current_line h;
     processor_alive := processor_alive h; processor_at := at_;
     state_log := state_log h |}.

(** [ProcessHandler(command)], with the default buffer of 10 MB. *)
Definition init (cmd : list pystr) : t :=
  {| command := cmd; process := None; pid := None; state := py "initialized";
     error := None; buffer := RingBuffer.init (10 * 1024 * 1024); io_queue := [];
     stop_event := false; current_line := []; processor_alive := false;
     processor_at := AtLoopTest; state_log := [py "initialized"] |}.

(** [_truncate_for_logging(value, max_length)] of [ProcessHandler]: a list
    is cut to its first five items, each shortened with the default length
    of 50, and "..." is added when items were dropped.  The items are
    shortened before the list is cut, which gives the same list as the
    source's [for item in value[:5]]. *)
Fixpoint truncate_for_logging (value : pyval) (max_length : Z) : pyval :=
  match value with
  | VStr s =>
      if Z.of_nat (length s) >? max_length
      then VStr (slice_to (max_length - 3) s ++ py "...")
      else value
  | VList items =>
      VList (slice_to 5 (List.map (fun item => truncate_for_logging item 50) items)
             ++ (if Z.of_nat (length items) >? 5 then [VStr (py "...")] else []))
  | VNone => value
  end.

(** The [except] clauses of [start]: state and error are set, the failure
    is returned. *)
Definition spawn_failed (error_msg : pystr) (h : t) : (pystr * option Z) * t :=
  ((py "failed: " ++ error_msg, None),
   set_error (Some error_msg) (set_state (py "error") h)).

(** [self.processor_thread.start()]: the thread begins at the loop test
    with [current_line = bytearray()]. *)
Definition start_processor (h : t) : t :=
  set_current_line [] (set_processor_at AtLoopTest (set_processor_alive true h)).

(** [start]: [os_spawn] is what [subprocess.Popen] does with a command.  The
    three threads are started on success; that [Thread.start] itself could
    raise is left out. *)
Definition start (os_spawn : list pystr -> spawn_result) (h : t)
  : (pystr * option Z) * t :=
  match process h with
  | Some _ => ((py "failed: Process already started", None), h)
  | None =>
      match command h with
      | [] => ((py "failed: Command list cannot be empty", None), h)
      | _ :: _ =>
          match os_spawn (command h) with
          | FileNotFoundError e => spawn_failed (py "Command not found: " ++ e) h
          | IndexError e => spawn_failed (py "Invalid command format: " ++ e) h
          | PermissionError e => spawn_failed (py "Permission denied: " ++ e) h
          | SubprocessError e => spawn_failed (py "Subprocess error: " ++ e) h
          | OtherException e => spawn_failed e h
          | Spawned p =>
              let h := set_process (Some p) h in
              let h := set_pid (Some (Popen.pid p)) h in
              let h := set_state (py "running") h in
              let h := set_stop_event false h in
              let h := start_processor h in
              ((py "success", pid h), h)
          end
      end
  end.

(** One turn of the loop of [_read_output], given what [pipe.read(1)] did. *)
Inductive read_result :=
  | ReadByte (b : N)
  | ReadEOF
  | ReadFault (e : pystr).

(** What a reader does with the outcome of [pipe.read(1)]: [io_queue.put],
    which takes no lock. *)
Definition queue_read (source : pystr) (r : read_result) (h : t) : t :=
  match r with
  | ReadByte b => set_io_queue (io_queue h ++ [Data source b]) h
  | ReadEOF => h
  | ReadFault e => set_io_queue (io_queue h ++ [ErrorMarker e]) h
  end.

(** A turn of a reader taken at once, from the test of [stop_event] on.  A
    reader that passed the test earlier and waited in [pipe.read(1)] does
    [queue_read] whatever [stop_event] has become. *)
Definition read_output_step (source : pystr) (r : read_result) (h : t) : t :=
  if stop_event h then h else queue_read source r h.

(** [f"error: Exit code {exit_code}"] *)
Definition exit_code_state (exit_code : Z) : pystr :=
  py "error: Exit code " ++ str_of_int exit_code.

(** The state written when a running process is seen to have exited. *)
Definition exited_state (exit_code : Z) : pystr :=
  if exit_code =? 0 then py "completed" else exit_code_state exit_code.

Section Assembler.
Context (rt : PyRuntime).

(** [self.buffer.append(current_line.decode('utf-8', errors='replace'))],
    then [current_line = bytearray()]. *)
Definition commit_line (h : t) : t :=
  set_current_line []
    (set_buffer (RingBuffer.append (buffer h)
                   (decode_utf8_replace rt (current_line h))) h).

(** The loop of [_process_output], one step at a time; between two steps
    the other threads may run.

    The body for an item that [get] returned. *)
Definition take_item (item : io_item) (rest : list io_item) (h : t) : t :=
  match item with
  | ErrorMarker data =>
      set_state (py "error") (set_error (Some data) (set_io_queue rest h))
  | Data source data =>
      let h := set_io_queue rest h in
      let h := set_current_line (current_line h ++ [data]) h in
      if (data =? 10)%N then commit_line h else h
  end.

(** [if current_line:] of the [except queue.Empty] clause. *)
Definition flush_partial_line (h : t) : t :=
  match current_line h with
  | [] => h
  | _ :: _ => commit_line h
  end.

(** [with self.lock:] of the [except queue.Empty] clause: the state is
    written first, then [self.io_queue.empty()] is asked, of the queue as
    the readers have left it by then; [break] ends the thread. *)
Definition check_exit (h : t) : t :=
  match process h with
  | None => set_processor_at AtLoopTest h
  | Some p =>
      let p := Popen.poll p in
      let h := set_process (Some p) h in
      match Popen.returncode p with
      | None => set_processor_at AtLoopTest h
      | Some exit_code =>
          let h := if bool_decide (state h = py "running")
                   then set_state (exited_state exit_code) h
                   else h in
          match io_queue h with
          | [] => set_processor_alive false h
          | _ :: _ => set_processor_at AtLoopTest h
          end
      end
  end.

(** One step of the thread.  In [get], an empty queue stands for
    [queue.Empty] after the 0.1 s of waiting.  [stop_event] is read at the
    loop test only.  The decoded lines are lines [encode] accepts, so
    [append] raises nothing and the outer [except] clause is not reached. *)
Definition processor_step (h : t) : t :=
  if negb (processor_alive h) then h
  else
    match processor_at h with
    | AtLoopTest =>
        if stop_event h then set_processor_alive false h
        else set_processor_at InQueueGet h
    | InQueueGet =>
        match io_queue h with
        | item :: rest => set_processor_at AtLoopTest (take_item item rest h)
        | [] => set_processor_at AtExitCheck (flush_partial_line h)
        end
    | AtExitCheck => check_exit h
    end.

(** A whole turn of the loop taken at once, from the loop test on, with no
    step of another thread in between. *)
Definition process_output_step (h : t) : t :=
  if stop_event h || negb (processor_alive h) then set_processor_alive false h
  else
    match io_queue h with
    | ErrorMarker data :: rest =>
        set_state (py "error") (set_error (Some data) (set_io_queue rest h))
    | Data source data :: rest =>
        let h := set_io_queue rest h in
        let h := set_current_line (current_line h ++ [data]) h in
        if (data =? 10)%N then commit_line h else h
    | [] =>
        let h := match current_line h with
                 | [] => h
                 | _ :: _ => commit_line h
                 end in
        match process h with
        | None => h
        | Some p =>
            let p := Popen.poll p in
            let h := set_process (Some p) h in
            match Popen.returncode p with
            | None => h
            | Some exit_code =>
                let h := if bool_decide (state h = py "running")
                         then set_state (exited_state exit_code) h
                         else h in
                match io_queue h with
                | [] => set_processor_alive false h
                | _ :: _ => h
                end
            end
        end
    end.

End Assembler.

Record status := {
  st_command : list pystr;
  st_state : pystr;
  last_five_lines : pystr
}.

Definition get_status (h : t) : status * t :=
  let h :=
    match process h with
    | Some p =>
        if bool_decide (state h = py "running") then
          let p := Popen.poll p in
          let h := set_process (Some p) h in
          match Popen.returncode p with
          | Some exit_code => set_state (exited_state exit_code) h
          | None => h
          end
        else h
    | None => h
    end in
  let last_lines := RingBuffer.get_lines (buffer h) 5 in
  let last_output := concat last_lines in
  let last_output :=
    if Z.of_nat (length last_output) >? 300
    then slice_last 300 last_output else last_output in
  ({| st_command := command h; st_state := state h;
      last_five_lines := last_output |}, h).

(** The loop of [kill]: [timeout] turns of
    [if self.process.poll() is not None: break] / [time.sleep(0.1)]. *)
Fixpoint wait_exit (timeout : nat) (p : Popen.t) : Popen.t :=
  match timeout with
  | O => p
  | S n =>
      let p := Popen.poll p in
      match Popen.returncode p with
      | Some _ => p
      | None => wait_exit n (Popen.sleep_tick p)
      end
  end.

Definition kill (timeout : nat) (h : t) : pystr * t :=
  match process h with
  | None => (py "failed: No process to kill", h)
  | Some p =>
      if negb (bool_decide (state h ∈ [py "running"; py "error"]))
      then (py "failed: Process not running", h)
      else
        match Popen.kill p with
        | inl e => (py "failed: " ++ e, set_process (Some (Popen.poll p)) h)
        | inr p =>
            let p := Popen.poll (wait_exit timeout p) in
            let h := set_process (Some p) h in
            match Popen.returncode p with
            | None => (py "failed: Process did not terminate within timeout", h)
            | Some _ =>
                (py "success", set_stop_event true (set_state (py "completed") h))
            end
        end
  end.

Definition cleanup (h : t) : t :=
  let h :=
    match process h with
    | Some p =>
        let p := Popen.poll p in
        match Popen.returncode p with
        | None =>
            match Popen.kill p with
            | inl _ => set_process (Some p) h
            | inr p => set_process (Some p) h
            end
        | Some _ => set_process (Some p) h
        end
    | None => h
    end in
  let h := set_stop_event true h in
  match process h with
  | Some p => set_process (Some (Popen.stdin_close p)) h
  | None => h
  end.

Definition get_output_lines (h : t) (max_lines : Z) : list pystr :=
  RingBuffer.get_lines (buffer h) max_lines.

Section Search.
Context (rt : PyRuntime).

Definition search_output (h : t) (search_type : pystr) (pattern : option pystr)
    (max_lines : Z) : list pystr :=
  if bool_decide (search_type = py "string") then
    RingBuffer.search_string (buffer h) pattern max_lines
  else if bool_decide (search_type = py "regex") then
    RingBuffer.search_regex rt (buffer h) pattern max_lines
  else if bool_decide (search_type = py "wildcard") then
    RingBuffer.search_wildcard rt (buffer h) pattern max_lines
  else
    [RingBuffer.error_line
       (py "Invalid search type: " ++ search_type ++
        py ". Must be 'string', 'regex', or 'wildcard'")].

End Search.

(** The checks and the write shared by [send_line] and [send_chars]; the
    text is encoded before [stdin.write] is called, and an exception of
    either is returned as the failure. *)
Definition write_stdin (text : pystr) (h : t) : pystr * t :=
  match process h with
  | None => (py "failed: No process running", h)
  | Some p =>
      if negb (bool_decide (state h = py "running"))
      then (py "failed: Process not in running state", h)
      else
        match encode text with
        | inl e => (py "failed: " ++ e, h)
        | inr data =>
            match Popen.stdin_write data p with
            | inl e => (py "failed: " ++ e, h)
            | inr p => (py "success", set_process (Some p) h)
            end
        end
  end.

Definition send_line (line : pystr) (h : t) : pystr * t :=
  let line := if endswith [10%N] line then line else line ++ [10%N] in
  write_stdin line h.

Definition send_chars (chars : pystr) (h : t) : pystr * t :=
  write_stdin chars h.

End ProcessHandler.

(** ** A Python [dict] keyed by process id

    Insertion order is kept, as iteration over [self.processes.items()]
    follows it. *)

Module Dict.

Definition t (V : Type) := list (Z * V).

Section Ops.
Context {V : Type}.

(** [d.get(k)] *)
Fixpoint get (k : Z) (d : t V) : option V :=
  match d with
  | [] => None
  | (k', v) :: d' => if k =? k' then Some v else get k d'
  end.

(** [d[k] = v] *)
Fixpoint set (k : Z) (v : V) (d : t V) : t V :=
  match d with
  | [] => [(k, v)]
  | (k', v') :: d' => if k =? k' then (k, v) :: d' else (k', v') :: set k v d'
  end.

(** [del d[k]] *)
Fixpoint del (k : Z) (d : t V) : t V :=
  match d with
  | [] => []
  | (k', v') :: d' => if k =? k' then d' else (k', v') :: del k d'
  end.

Definition keys (d : t V) : list Z := List.map fst d.

(** Keys are unique in a dictionary. *)
Definition wf (d : t V) : Prop := NoDup (keys d).

End Ops.
End Dict.

(** ** process_manager.py

    The methods run in a state monad over the manager.  The registry lock is
    the depth of the [RLock]; [calls] is not a field of the source: it keeps,
    for every call of a [ProcessHandler] method, the method, the id the
    handler is registered under and the depth of the registry lock at the
    time of the call. *)

Module ProcessManager.

Inductive session_op :=
  | OpStart | OpGetStatus | OpKill | OpCleanup
  | OpGetOutputLines | OpSearchOutput | OpSendLine | OpSendChars.

Record call := {
  call_op : session_op;
  call_pid : option Z;       (* [None]: the handler is not registered *)
  lock_held : nat
}.

Record t := {
  processes : Dict.t ProcessHandler.t;
  lock : nat;
  calls : list call
}.

(** [ProcessManager()] *)
Definition init : t := {| processes := []; lock := 0; calls := [] |}.

Definition M (A : Type) : Type := t -> A * t.

Definition ret {A} (a : A) : M A := fun m => (a, m).

Definition bind {A B} (c : M A) (k : A -> M B) : M B :=
  fun m => let '(a, m') := c m in k a m'.

Notation "x <- c ;; k" := (bind c (fun x => k))
  (at level 100, c at next level, right associativity).
Notation "c ;;; k" := (bind c (fun _ => k))
  (at level 100, right associativity).

Definition acquire : M unit :=
  fun m => (tt, {| processes := processes m; lock := S (lock m); calls := calls m |}).

Definition release : M unit :=
  fun m => (tt, {| processes := processes m; lock := pred (lock m); calls := calls m |}).

(** [with self.lock: body]; a [return] inside the block releases the lock. *)
Definition with_lock {A} (body : M A) : M A :=
  acquire ;;; r <- body ;; release ;;; ret r.

(** [self.processes.get(pid)] *)
Definition lookup (pid : Z) : M (option ProcessHandler.t) :=
  fun m => (Dict.get pid (processes m), m).

(** [self.processes.items()] *)
Definition items : M (list (Z * ProcessHandler.t)) :=
  fun m => (processes m, m).

(** [self.processes[pid] = handler] *)
Definition register (pid : Z) (handler : ProcessHandler.t) : M unit :=
  fun m => (tt, {| processes := Dict.set pid handler (processes m);
                   lock := lock m; calls := calls m |}).

(** [del self.processes[pid]] *)
Definition unregister (pid : Z) : M unit :=
  fun m => (tt, {| processes := Dict.del pid (processes m);
                   lock := lock m; calls := calls m |}).

Definition record_call (op : session_op) (pid : option Z) : M unit :=
  fun m => (tt, {| processes := processes m; lock := lock m;
                   calls := calls m ++
                     [{| call_op := op; call_pid := pid; lock_held := lock m |}] |}).

(** A method call on the handler registered under [pid]: the handler is an
    object shared with the registry, so what the method does to it is seen
    through [self.processes]. *)
Definition call_method {A} (op : session_op) (pid : Z)
    (method : ProcessHandler.t -> A * ProcessHandler.t)
    (handler : ProcessHandler.t) : M A :=
  record_call op (Some pid) ;;;
  let '(r, handler') := method handler in
  (fun m => (r, {| processes :=
                     match Dict.get pid (processes m) with
                     | Some _ => Dict.set pid handler' (processes m)
                     | None => processes m
                     end;
                   lock := lock m; calls := calls m |})).

(** A call of a method that only reads the handler. *)
Definition call_query {A} (op : session_op) (pid : Z) (r : A) : M A :=
  record_call op (Some pid) ;;; ret r.

(** [for x in xs: acc = body(x, acc)] *)
Fixpoint for_each {A S} (xs : list A) (body : A -> S -> M S) (acc : S) : M S :=
  match xs with
  | [] => ret acc
  | x :: xs' => acc' <- body x acc ;; for_each xs' body acc'
  end.

(** [_truncate_for_logging] of [ProcessManager] has the body of the
    handler's. *)
Definition truncate_for_logging (value : pyval) (max_length : Z) : pyval :=
  ProcessHandler.truncate_for_logging value max_length.

Definition process_start (os_spawn : list pystr -> spawn_result)
    (command : list pystr) : M (pystr * option Z) :=
  match command with
  | [] => ret (py "failed: Command list cannot be empty", None)
  | _ :: _ =>
      let handler := ProcessHandler.init command in
      record_call OpStart None ;;;
      let '((status, pid), handler) := ProcessHandler.start os_spawn handler in
      match str_in (py "success") status, pid with
      | true, Some pid' =>
          with_lock (register pid' handler) ;;;
          ret (status, pid)
      | _, _ => ret (status, pid)
      end
  end.

Definition not_found_status : ProcessHandler.status :=
  {| ProcessHandler.st_command := [];
     ProcessHandler.st_state := py "error: Process not found";
     ProcessHandler.last_five_lines := [] |}.

Definition process_status (pid : Z) : M ProcessHandler.status :=
  with_lock (
    handler <- lookup pid ;;
    match handler with
    | None => ret not_found_status
    | Some h => call_method OpGetStatus pid ProcessHandler.get_status h
    end).

Definition process_kill (pid : Z) (timeout : nat) : M pystr :=
  with_lock (
    handler <- lookup pid ;;
    match handler with
    | None => ret (py "failed: Process not found")
    | Some h => call_method OpKill pid (ProcessHandler.kill timeout) h
    end).

Definition process_remove (pid : Z) (timeout : nat) : M pystr :=
  with_lock (
    handler <- lookup pid ;;
    match handler with
    | None => ret (py "failed: Process not found")
    | Some h =>
        h <- (if bool_decide (ProcessHandler.state h = py "running")
              then call_method OpKill pid
                     (fun h => let '(_, h') := ProcessHandler.kill timeout h in (h', h')) h
              else ret h) ;;
        call_method OpCleanup pid (fun h => (tt, ProcessHandler.cleanup h)) h ;;;
        unregister pid ;;;
        ret (py "success")
    end).

Definition process_list : M (list (Z * list pystr * pystr)) :=
  with_lock (
    snapshot <- items ;;
    for_each snapshot (fun '(pid, handler) result =>
      status <- call_method OpGetStatus pid ProcessHandler.get_status handler ;;
      ret (result ++ [(pid, ProcessHandler.st_command status,
                       ProcessHandler.st_state status)])) []).

(** [f"PID {pid}: {text}"] *)
Definition pid_entry (pid : Z) (text : pystr) : pystr :=
  py "PID " ++ str_of_int pid ++ py ": " ++ text.

(** The end of [all_kill] and [all_remove]. *)
Definition aggregate (errors : list pystr) : pystr :=
  match errors with
  | [] => py "success"
  | _ :: _ => py "failed: " ++ join (py "; ") errors
  end.

Definition all_kill (timeout : nat) : M pystr :=
  errors <- with_lock (
    snapshot <- items ;;
    for_each snapshot (fun '(pid, handler) errors =>
      if bool_decide (ProcessHandler.state handler = py "running") then
        result <- call_method OpKill pid (ProcessHandler.kill timeout) handler ;;
        if str_in (py "failed") result
        then ret (errors ++ [pid_entry pid result])
        else ret errors
      else ret errors) []) ;;
  ret (aggregate errors).

Definition all_remove : M pystr :=
  errors <- with_lock (
    snapshot <- items ;;
    for_each snapshot (fun '(pid, handler) (errors : list pystr) =>
      if negb (bool_decide (ProcessHandler.state handler = py "running")) then
        call_method OpCleanup pid (fun h => (tt, ProcessHandler.cleanup h)) handler ;;;
        unregister pid ;;;
        ret errors
      else ret errors) []) ;;
  ret (aggregate errors).

Definition known_search_type (search_type : pystr) : bool :=
  bool_decide (search_type ∈ [py "string"; py "regex"; py "wildcard"]).

Definition invalid_search_type (search_type : pystr) : pystr :=
  RingBuffer.error_line
    (py "Invalid search type: " ++ search_type ++
     py ". Must be 'string', 'regex', or 'wildcard'").

(** [pattern is None or (isinstance(pattern, str) and not pattern)] *)
Definition empty_pattern (pattern : option pystr) : bool :=
  match pattern with
  | None | Some [] => true
  | Some (_ :: _) => false
  end.

(** [matches and isinstance(matches[0], str) and matches[0].startswith("ERROR:")] *)
Definition is_error_result (matches : list pystr) : bool :=
  match matches with
  | first :: _ => startswith (py "ERROR:") first
  | [] => false
  end.

Section Search.
Context (rt : PyRuntime).

Definition all_search (search_type : pystr) (pattern : option pystr)
    (max_lines_per_pid : Z) : M (list (Z * list pystr)) :=
  if negb (known_search_type search_type) then
    ret [(-1, [invalid_search_type search_type])]
  else if empty_pattern pattern then
    ret [(-1, [RingBuffer.error_line (py "Search pattern cannot be empty")])]
  else
    found <- with_lock (
      registered <- items ;;
      for_each registered (fun '(pid, handler) '(result, errors) =>
        matches <- call_query OpSearchOutput pid
          (ProcessHandler.search_output rt handler search_type pattern
             max_lines_per_pid) ;;
        if is_error_result matches
        then ret (result, errors ++ [pid_entry pid (hd [] matches)])
        else match matches with
             | [] => ret (result, errors)
             | _ :: _ => ret (result ++ [(pid, matches)], errors)
             end) ([], [])) ;;
    let '(result, errors) := found in
    match errors with
    | [] => ret result
    | _ :: _ =>
        ret (result ++ [(-1, [RingBuffer.error_line (join (py "; ") errors)])])
    end.

Definition stdio_search_lines (pid : Z) (search_type : pystr)
    (pattern : option pystr) (max_lines : Z) : M (list pystr) :=
  with_lock (
    handler <- lookup pid ;;
    match handler with
    | None =>
        ret [RingBuffer.error_line (py "Process not found: pid=" ++ str_of_int pid)]
    | Some h =>
        if negb (known_search_type search_type) then
          ret [invalid_search_type search_type]
        else if empty_pattern pattern then
          ret [RingBuffer.error_line (py "Search pattern cannot be empty")]
        else
          call_query OpSearchOutput pid
            (ProcessHandler.search_output rt h search_type pattern max_lines)
    end).

End Search.

Definition stdio_get_lines (pid : Z) (max_lines : Z) : M (list pystr) :=
  with_lock (
    handler <- lookup pid ;;
    match handler with
    | None =>
        ret [RingBuffer.error_line (py "Process not found: pid=" ++ str_of_int pid)]
    | Some h =>
        call_query OpGetOutputLines pid (ProcessHandler.get_output_lines h max_lines)
    end).

Definition stdio_send_line (pid : Z) (line : pystr) : M pystr :=
  with_lock (
    handler <- lookup pid ;;
    match handler with
    | None => ret (py "failed: Process not found")
    | Some h => call_method OpSendLine pid (ProcessHandler.send_line line) h
    end).

Definition stdio_send_chars (pid : Z) (chars : pystr) : M pystr :=
  with_lock (
    handler <- lookup pid ;;
    match handler with
    | None => ret (py "failed: Process not found")
    | Some h => call_method OpSendChars pid (ProcessHandler.send_chars chars) h
    end).

End ProcessManager.

(** ** Concrete values for the examples *)

Module Examples.

(** A small runtime to evaluate the searches on: a regular expression is a
    literal to be found anywhere in the line ("(" alone does not compile), a
    wildcard pattern knows [*] and [?], and bytes below 128 decode to
    themselves. *)
Fixpoint glob (p s : pystr) : bool :=
  match p with
  | [] => match s with [] => true | _ :: _ => false end
  | c :: p' =>
      if (c =? 42)%N then
        (fix star (s : pystr) : bool :=
           glob p' s || match s with [] => false | _ :: s' => star s' end) s
      else
        match s with
        | [] => false
        | d :: s' => ((c =? 63) || (c =? d))%N && glob p' s'
        end
  end.

Definition rt : PyRuntime :=
  {| regex := pystr;
     re_compile := fun p =>
       if bool_decide (p = py "(")
       then ReError (py "missing ), unterminated subpattern at position 0")
       else Compiled p;
     re_search := fun r line => str_in r line;
     fnmatch := fun name pat => glob pat name;
     decode_utf8_replace := fun bytes => bytes |}.

(** [sleep 10], just started under pid 7: SIGKILL ends it at once. *)
Definition sleeper_process (pid : Z) (latency : option nat) : Popen.t :=
  {| Popen.pid := pid; Popen.returncode := None; Popen.os := Popen.Alive;
     Popen.kill_latency := latency; Popen.kill_fault := None;
     Popen.sigkills := 0; Popen.stdin_closed := false; Popen.stdin_data := [] |}.

Definition os_sleeper (pid : Z) (latency : option nat) (_ : list pystr)
  : spawn_result := Spawned (sleeper_process pid latency).

Definition os_not_found (command : list pystr) : spawn_result :=
  FileNotFoundError
    (py "[Errno 2] No such file or directory: " ++ hd [] command).

Definition sleep_10 : list pystr := [py "sleep"; py "10"].

(** A handler started on [sleep 10]. *)
Definition sleeper (pid : Z) (latency : option nat) : ProcessHandler.t :=
  snd (ProcessHandler.start (os_sleeper pid latency) (ProcessHandler.init sleep_10)).

(** The same after a reader reported an I/O fault and the assembler took
    the marker off the queue. *)
Definition faulted (pid : Z) : ProcessHandler.t :=
  ProcessHandler.process_output_step rt
    (ProcessHandler.read_output_step (py "stdout")
       (ProcessHandler.ReadFault (py "I/O operation on closed file"))
       (sleeper pid (Some 0%nat))).

(** A handler whose buffer holds the given lines. *)
Definition with_lines (pid : Z) (lines : list pystr) : ProcessHandler.t :=
  ProcessHandler.set_buffer
    (fold_left RingBuffer.append lines (RingBuffer.init (10 * 1024 * 1024)))
    (sleeper pid (Some 0%nat)).

(** A manager with the given handlers registered. *)
Definition manager (d : Dict.t ProcessHandler.t) : ProcessManager.t :=
  {| ProcessManager.processes := d; ProcessManager.lock := 0;
     ProcessManager.calls := [] |}.

End Examples.

(** ** Vocabulary of the statements *)

(** The buffer holds lines [encode] accepts only, as every line [append]
    has stored. *)
Definition encodable_lines (rb : RingBuffer.t) : Prop :=
  Forall (fun line => encodable line = true) (RingBuffer.buffer rb).

(** A string of code points below 128: one byte each. *)
Definition single_byte (s : pystr) : Prop := Forall (fun c => (c < 0x80)%N) s.

(** What the specification asks of a buffer after every mutation; that no
    retained line is empty holds of every line the assembler commits. *)
Definition buffer_invariant (rb : RingBuffer.t) : Prop :=
  RingBuffer.current_size rb = RingBuffer.stored_bytes rb /\
  RingBuffer.current_size rb <= RingBuffer.max_size_bytes rb /\
  Forall (fun line => line <> []) (RingBuffer.buffer rb).

(** [accepts rt mode pattern keep]: the search of that mode takes the
    pattern, and [keep] is its test on a line. *)
Inductive accepts (rt : PyRuntime) : pystr -> option pystr -> (pystr -> bool) -> Prop :=
  | accepts_string s :
      accepts rt (py "string") (Some s) (fun line => str_in s line)
  | accepts_regex p r :
      re_compile rt p = Compiled r ->
      accepts rt (py "regex") (Some p) (fun line => re_search rt r line)
  | accepts_wildcard c p :
      accepts rt (py "wildcard") (Some (c :: p))
        (fun line => fnmatch rt (strip line) (c :: p)).

(** [refuses rt mode pattern msg]: the search of that mode checks the
    pattern and fails on it with the message [msg]. *)
Inductive refuses (rt : PyRuntime) : pystr -> option pystr -> pystr -> Prop :=
  | refuses_string_none :
      refuses rt (py "string") None (py "Search string cannot be None")
  | refuses_regex_error p msg :
      re_compile rt p = ReError msg ->
      refuses rt (py "regex") (Some p) (py "Invalid regex pattern: " ++ msg)
  | refuses_regex_fault p msg :
      re_compile rt p = CompileFault msg ->
      refuses rt (py "regex") (Some p)
        (py "Unexpected error compiling regex: " ++ msg)
  | refuses_wildcard_none :
      refuses rt (py "wildcard") None (py "Empty wildcard pattern provided")
  | refuses_wildcard_empty :
      refuses rt (py "wildcard") (Some []) (py "Empty wildcard pattern provided").

(** What [all_search] makes of the sessions of a registry: the entries of
    the sessions whose search succeeded with at least one line, and the
    descriptions of the sessions whose result reads as a failure. *)
Definition search_hits (rt : PyRuntime) (search_type : pystr)
    (pattern : option pystr) (n : Z) (d : Dict.t ProcessHandler.t)
  : list (Z * list pystr) :=
  flat_map (fun '(pid, h) =>
    let matches := ProcessHandler.search_output rt h search_type pattern n in
    if ProcessManager.is_error_result matches then []
    else match matches with [] => [] | _ :: _ => [(pid, matches)] end) d.

Definition search_failures (rt : PyRuntime) (search_type : pystr)
    (pattern : option pystr) (n : Z) (d : Dict.t ProcessHandler.t)
  : list pystr :=
  flat_map (fun '(pid, h) =>
    let matches := ProcessHandler.search_output rt h search_type pattern n in
    if ProcessManager.is_error_result matches
    then [ProcessManager.pid_entry pid (hd [] matches)] else []) d.

(** What can happen to a session: a turn of a reader (taken at once, or
    only its [put], for a turn whose test of [stop_event] was passed
    earlier), a step of the assembler, or a call of one of its methods that
    may write to it. *)
Inductive action :=
  | Read (source : pystr) (r : ProcessHandler.read_result)
  | ReadInProgress (source : pystr) (r : ProcessHandler.read_result)
  | Assemble
  | Start (os_spawn : list pystr -> spawn_result)
  | GetStatus
  | Kill (timeout : nat)
  | Cleanup
  | SendLine (line : pystr)
  | SendChars (chars : pystr).

Definition perform (rt : PyRuntime) (a : action) (h : ProcessHandler.t)
  : ProcessHandler.t :=
  match a with
  | Read source r => ProcessHandler.read_output_step source r h
  | ReadInProgress source r => ProcessHandler.queue_read source r h
  | Assemble => ProcessHandler.processor_step rt h
  | Start os_spawn => snd (ProcessHandler.start os_spawn h)
  | GetStatus => snd (ProcessHandler.get_status h)
  | Kill timeout => snd (ProcessHandler.kill timeout h)
  | Cleanup => ProcessHandler.cleanup h
  | SendLine line => snd (ProcessHandler.send_line line h)
  | SendChars chars => snd (ProcessHandler.send_chars chars h)
  end.

(** What [self.process.poll()] answers. *)
Definition exit_status_seen (h : ProcessHandler.t) : option Z :=
  match ProcessHandler.process h with
  | Some p => Popen.returncode (Popen.poll p)
  | None => None
  end.

(** The assembler is running and found the queue empty for a polling
    interval. *)
Definition assembler_idle (h : ProcessHandler.t) : Prop :=
  ProcessHandler.stop_event h = false /\
  ProcessHandler.processor_alive h = true /\
  ProcessHandler.io_queue h = [].

(** The assembler found the queue empty for a polling interval, has
    flushed its accumulator and is about to check whether the process has
    exited. *)
Definition assembler_checking (h : ProcessHandler.t) : Prop :=
  ProcessHandler.processor_alive h = true /\
  ProcessHandler.processor_at h = ProcessHandler.AtExitCheck.

(** What the flush leaves in the buffer. *)
Definition flushed (rt : PyRuntime) (h : ProcessHandler.t) : RingBuffer.t :=
  match ProcessHandler.current_line h with
  | [] => ProcessHandler.buffer h
  | _ :: _ =>
      RingBuffer.append (ProcessHandler.buffer h)
        (decode_utf8_replace rt (ProcessHandler.current_line h))
  end.

(** [kill] signalled the process and saw it gone within its timeout. *)
Definition killed_in_time (timeout : nat) (h : ProcessHandler.t) : Prop :=
  exists p p', ProcessHandler.process h = Some p /\
    Popen.kill p = inr p' /\
    Popen.returncode (Popen.poll (ProcessHandler.wait_exit timeout p')) <> None.

(** The ways out of "running": by which action, from which session, to
    which state. *)
Inductive exit_route : action -> ProcessHandler.t -> pystr -> Prop :=
  | route_assembler h c :
      assembler_checking h -> exit_status_seen h = Some c ->
      exit_route Assemble h (ProcessHandler.exited_state c)
  | route_status h c :
      exit_status_seen h = Some c ->
      exit_route GetStatus h (ProcessHandler.exited_state c)
  | route_kill h timeout :
      killed_in_time timeout h ->
      exit_route (Kill timeout) h (py "completed")
  | route_fault h detail rest :
      ProcessHandler.processor_alive h = true ->
      ProcessHandler.processor_at h = ProcessHandler.InQueueGet ->
      ProcessHandler.io_queue h = ProcessHandler.ErrorMarker detail :: rest ->
      exit_route Assemble h (py "error").

(** The session is in state "running". *)
Definition is_running (h : ProcessHandler.t) : bool :=
  bool_decide (ProcessHandler.state h = py "running").

(** The running sessions of a registry whose [kill] does not return
    "success". *)
Definition failing_kills (timeout : nat) (d : Dict.t ProcessHandler.t)
  : Dict.t ProcessHandler.t :=
  List.filter (fun '(pid, h) =>
    is_running h &&
    negb (bool_decide (fst (ProcessHandler.kill timeout h) = py "success"))) d.

(** The description [all_kill] gives of each of them. *)
Definition kill_failures (timeout : nat) (d : Dict.t ProcessHandler.t)
  : list pystr :=
  List.map (fun '(pid, h) =>
    ProcessManager.pid_entry pid (fst (ProcessHandler.kill timeout h)))
    (failing_kills timeout d).

(** The registry once every running session has been through [kill]. *)
Definition after_kill_all (timeout : nat) (d : Dict.t ProcessHandler.t)
  : Dict.t ProcessHandler.t :=
  List.map (fun '(pid, h) =>
    (pid, if is_running h then snd (ProcessHandler.kill timeout h) else h)) d.

(** The calls of [kill] that [all_kill] makes, with the registry lock at
    depth [l]. *)
Definition kill_calls (l : nat) (d : Dict.t ProcessHandler.t)
  : list ProcessManager.call :=
  List.map (fun '(pid, _) =>
    {| ProcessManager.call_op := ProcessManager.OpKill;
       ProcessManager.call_pid := Some pid;
       ProcessManager.lock_held := l |})
    (List.filter (fun '(_, h) => is_running h) d).

(** [n] turns of the assembler loop. *)
Fixpoint run_assembler (rt : PyRuntime) (n : nat) (h : ProcessHandler.t)
  : ProcessHandler.t :=
  match n with
  | O => h
  | S n' => run_assembler rt n' (ProcessHandler.process_output_step rt h)
  end.

(** The actions of the capture pipeline: those of the readers and of the
    assembler. *)
Definition pipeline_action (a : action) : Prop :=
  match a with
  | Read _ _ | ReadInProgress _ _ | Assemble => True
  | _ => False
  end.

(** The assembler is between two turns of its loop, or has returned. *)
Definition between_turns (h : ProcessHandler.t) : Prop :=
  ProcessHandler.processor_alive h = false \/
  ProcessHandler.processor_at h = ProcessHandler.AtLoopTest.

(** The steps the assembler can still take once the stop signal is set. *)
Definition steps_left (h : ProcessHandler.t) : nat :=
  if ProcessHandler.processor_alive h then
    match ProcessHandler.processor_at h with
    | ProcessHandler.AtLoopTest => 1
    | ProcessHandler.AtExitCheck => 2
    | ProcessHandler.InQueueGet => 3
    end
  else 0.

(** The steps of the assembler among some actions. *)
Definition assembler_steps (actions : list action) : nat :=
  length (List.filter (fun a => match a with Assemble => true | _ => false end) actions).

(** A sequence of actions on a session. *)
Definition perform_all (rt : PyRuntime) (actions : list action)
    (h : ProcessHandler.t) : ProcessHandler.t :=
  fold_left (fun h a => perform rt a h) actions h.

(** What the readers queue for the bytes of the two streams. *)
Definition queued (units : list (pystr * N)) : list ProcessHandler.io_item :=
  List.map (fun '(source, byte) => ProcessHandler.Data source byte) units.

(** The entry [append] stores for [data], and the size it books for it. *)
Definition stored_entry (rb : RingBuffer.t) (data : pystr) : pystr :=
  if byte_len data >? RingBuffer.max_size_bytes rb
  then slice_last (RingBuffer.max_size_bytes rb) data else data.

Definition booked_size (rb : RingBuffer.t) (data : pystr) : Z :=
  if byte_len data >? RingBuffer.max_size_bytes rb
  then RingBuffer.max_size_bytes rb else byte_len data.

Definition bytes_of (lines : list pystr) : Z :=
  fold_right Z.add 0 (List.map byte_len lines).

(** The calls of [cleanup] that [all_remove] makes, with the registry lock
    at depth [l]. *)
Definition cleanup_calls (l : nat) (d : Dict.t ProcessHandler.t)
  : list ProcessManager.call :=
  List.map (fun '(pid, _) =>
    {| ProcessManager.call_op := ProcessManager.OpCleanup;
       ProcessManager.call_pid := Some pid;
       ProcessManager.lock_held := l |})
    (List.filter (fun '(_, h) => negb (is_running h)) d).

(** The calls of [get_status] that [process_list] makes. *)
Definition status_calls (l : nat) (d : Dict.t ProcessHandler.t)
  : list ProcessManager.call :=
  List.map (fun '(pid, _) =>
    {| ProcessManager.call_op := ProcessManager.OpGetStatus;
       ProcessManager.call_pid := Some pid;
       ProcessManager.lock_held := l |}) d.

(** A session after its liveness check, and its line in [process_list]. *)
Definition refreshed (h : ProcessHandler.t) : ProcessHandler.t :=
  snd (ProcessHandler.get_status h).

Definition listed (entry : Z * ProcessHandler.t) : Z * list pystr * pystr :=
  (fst entry, ProcessHandler.command (snd entry),
   ProcessHandler.state (refreshed (snd entry))).

(** The length in characters of a logged string; other values count 0. *)
Definition logged_length (v : pyval) : nat :=
  match v with
  | VStr s => length s
  | _ => 0%nat
  end.

(** ** Tactics *)

(** Replaces the literals of the source by their code points. *)
Ltac eval_literals :=
  repeat match goal with
         | |- context [py ?s] =>
             let v := eval vm_compute in (py s) in change (py s) with v
         | H : context [py ?s] |- _ =>
             let v := eval vm_compute in (py s) in change (py s) with v in H
         end.

(** Unfolds a method of the manager down to the state it returns. *)
Ltac run_manager :=
  unfold ProcessManager.process_status, ProcessManager.process_kill,
    ProcessManager.stdio_send_line, ProcessManager.stdio_send_chars,
    ProcessManager.stdio_get_lines, ProcessManager.stdio_search_lines,
    ProcessManager.all_search, ProcessManager.process_start,
    ProcessManager.with_lock, ProcessManager.call_method,
    ProcessManager.call_query, ProcessManager.record_call,
    ProcessManager.register, ProcessManager.lookup, ProcessManager.acquire,
    ProcessManager.release, ProcessManager.bind, ProcessManager.ret;
  simpl.

(** * Properties *)

Example glob_ta :
  List.filter (fun l => Examples.glob (py "*ta") (strip l))
    [py "Alpha"; py "Beta"; py "Gamma"; py "Delta"] = [py "Beta"; py "Delta"].
Proof. reflexivity. Qed.

Example faulted_state :
  ProcessHandler.state (Examples.faulted 7) = py "error".
Proof. reflexivity. Qed.

Example slice_last_0 : slice_last 0 [1;2;3] = [1;2;3].
Proof. reflexivity. Qed.
Example slice_last_2 : slice_last 2 [1;2;3] = [2;3].
Proof. reflexivity. Qed.
Example slice_last_5 : slice_last 5 [1;2;3] = [1;2;3].
Proof. reflexivity. Qed.
Example str_of_int_neg : str_of_int (-9) = py "-9".
Proof. reflexivity. Qed.
Example byte_len_e_acute : byte_len [233%N; 233%N] = 4.
Proof. reflexivity. Qed.

(** ** Strings *)

Lemma startswith_app (p s : pystr) : startswith p (p ++ s) = true.
Proof.
  induction p as [|c p IH]; simpl; [reflexivity|].
  rewrite N.eqb_refl. exact IH.
Qed.

Lemma str_in_prefix (p s : pystr) : str_in p (p ++ s) = true.
Proof.
  destruct (p ++ s) eqn:E; simpl; rewrite <- E, startswith_app; reflexivity.
Qed.

Lemma py_inj (s1 s2 : string) : py s1 = py s2 -> s1 = s2.
Proof.
  unfold py. intros H.
  rewrite <- (string_of_list_ascii_of_string s1),
          <- (string_of_list_ascii_of_string s2).
  f_equal.
  revert H. generalize (list_ascii_of_string s1) (list_ascii_of_string s2).
  induction l as [|a l IH]; intros [|b l'] H; simpl in H; try discriminate;
    [reflexivity|].
  injection H as Hab Hl. f_equal; [|now apply IH].
  rewrite <- (ascii_N_embedding a), <- (ascii_N_embedding b). now rewrite Hab.
Qed.

(** [str] tells integers apart. *)
Lemma str_of_int_inj (a b : Z) : str_of_int a = str_of_int b -> a = b.
Proof.
  unfold str_of_int. intros H. apply py_inj in H.
  assert (Hnil : forall z, Z.to_int z <> Decimal.Pos Decimal.Nil /\
                           Z.to_int z <> Decimal.Neg Decimal.Nil).
  { intros [|q|q]; simpl; split; try discriminate;
      intros [= Hq]; now apply Unsigned.to_uint_nonnil in Hq. }
  apply (f_equal NilZero.int_of_string) in H.
  rewrite !NilZero.isi in H by apply Hnil.
  injection H as H. now apply DecimalZ.to_int_inj.
Qed.

Lemma byte_len_app (s1 s2 : pystr) : byte_len (s1 ++ s2) = byte_len s1 + byte_len s2.
Proof.
  unfold byte_len, encode_utf8.
  rewrite flat_map_app, length_app. lia.
Qed.

Lemma byte_len_nonneg (s : pystr) : 0 <= byte_len s.
Proof. unfold byte_len. lia. Qed.

Lemma encode_single_byte (s : pystr) : single_byte s -> encode_utf8 s = s.
Proof.
  induction 1 as [|c s Hc _ IH]; [reflexivity|].
  unfold encode_utf8 in *. simpl. rewrite IH.
  unfold utf8_encode_char. apply N.ltb_lt in Hc. rewrite Hc. reflexivity.
Qed.

Lemma byte_len_single_byte (s : pystr) :
  single_byte s -> byte_len s = Z.of_nat (length s).
Proof. intros H. unfold byte_len. rewrite encode_single_byte; auto. Qed.

Lemma encodable_app (s1 s2 : pystr) :
  encodable (s1 ++ s2) = encodable s1 && encodable s2.
Proof. unfold encodable. apply forallb_app. Qed.

Lemma encodable_suffix (s1 s2 : pystr) :
  s1 `suffix_of` s2 -> encodable s2 = true -> encodable s1 = true.
Proof.
  intros [pre ->]. rewrite encodable_app. intros H.
  now apply andb_true_iff in H as [_ H].
Qed.

(** [encode] returns the bytes of a string without surrogates and raises on
    any other. *)
Lemma encode_from_encodable (s : pystr) :
  forall pos, encodable s = true -> encode_from pos s = inr (encode_utf8 s).
Proof.
  induction s as [|c s IH]; intros pos H; [reflexivity|].
  cbn in H. apply andb_true_iff in H as [Hc Hs]. apply negb_true_iff in Hc.
  cbn [encode_from]. rewrite Hc, (IH _ Hs). reflexivity.
Qed.

Lemma encode_encodable (s : pystr) :
  encodable s = true -> encode s = inr (encode_utf8 s).
Proof. apply encode_from_encodable. Qed.

Lemma encode_from_refused (s : pystr) :
  forall pos, encodable s = false -> exists e, encode_from pos s = inl e.
Proof.
  induction s as [|c s IH]; intros pos H; [discriminate|].
  cbn in H. cbn [encode_from].
  destruct (is_surrogate c); [eexists; reflexivity|].
  cbn in H. destruct (IH (S pos) H) as [e ->]. now exists e.
Qed.

Lemma encode_refused (s : pystr) :
  encodable s = false -> exists e, encode s = inl e.
Proof. apply encode_from_refused. Qed.

Lemma surrogate_run_newline (s : pystr) :
  surrogate_run (s ++ [10%N]) = surrogate_run s.
Proof.
  induction s as [|c s IH]; [reflexivity|].
  cbn. destruct (is_surrogate c); [now rewrite IH|reflexivity].
Qed.

(** The newline [send_line] adds changes nothing to the failure. *)
Lemma encode_from_newline (s : pystr) :
  forall pos e, encode_from pos s = inl e -> encode_from pos (s ++ [10%N]) = inl e.
Proof.
  induction s as [|c s IH]; intros pos e H; [discriminate|].
  cbn [encode_from app] in *. change ((c :: s) ++ [10%N]) with (c :: (s ++ [10%N])).
  cbn [encode_from].
  destruct (is_surrogate c); [now rewrite surrogate_run_newline|].
  destruct (encode_from (S pos) s) as [e'|bytes] eqn:E; [|discriminate].
  now rewrite (IH _ _ E).
Qed.

Lemma encode_newline (s e : pystr) :
  encode s = inl e -> encode (s ++ [10%N]) = inl e.
Proof. apply encode_from_newline. Qed.

Lemma slice_last_drop {A} (k : Z) (l : list A) :
  0 < k -> slice_last k l = drop (length l - Z.to_nat k) l.
Proof.
  intros Hk. unfold slice_last, slice_from.
  destruct (Z.ltb_spec (- k) 0); [|lia].
  f_equal. lia.
Qed.

Lemma slice_last_suffix {A} (k : Z) (l : list A) : slice_last k l `suffix_of` l.
Proof. unfold slice_last, slice_from. apply suffix_drop. Qed.

Lemma slice_last_length {A} (k : Z) (l : list A) :
  0 < k -> Z.of_nat (length (slice_last k l)) = Z.min k (Z.of_nat (length l)).
Proof.
  intros Hk. rewrite slice_last_drop by exact Hk.
  rewrite length_drop. lia.
Qed.

(** ** RingBuffer.append *)

Lemma byte_len_pos (s : pystr) : s <> [] -> 0 < byte_len s.
Proof.
  destruct s as [|c s]; [congruence|]. intros _.
  unfold byte_len, encode_utf8. simpl. rewrite length_app.
  assert (0 < length (utf8_encode_char c))%nat.
  { unfold utf8_encode_char. repeat case_match; simpl; lia. }
  lia.
Qed.

Lemma stored_bytes_zero (buf : list pystr) :
  Forall (fun line => line <> []) buf ->
  fold_right Z.add 0 (List.map byte_len buf) <= 0 -> buf = [].
Proof.
  destruct 1 as [|line buf Hl Hbuf]; [reflexivity|]. simpl. intros Hsum.
  pose proof (byte_len_pos line Hl).
  assert (0 <= fold_right Z.add 0 (List.map byte_len buf)).
  { clear. induction buf as [|x buf IH]; simpl; [lia|].
    pose proof (byte_len_nonneg x). lia. }
  lia.
Qed.

(** The eviction loop keeps the byte count right and stops as soon as the
    new entry fits. *)
Lemma evict_spec (max data_size : Z) (buf : list pystr) (cur : Z) :
  cur = fold_right Z.add 0 (List.map byte_len buf) ->
  0 <= data_size <= max ->
  forall buf' cur', RingBuffer.evict max data_size buf cur = (buf', cur') ->
    cur' = fold_right Z.add 0 (List.map byte_len buf') /\
    cur' + data_size <= max /\
    buf' `suffix_of` buf.
Proof.
  revert cur. induction buf as [|removed rest IH]; intros cur Hcur Hds buf' cur' E.
  - simpl in *. inversion E; subst. simpl. split; [lia|split; [lia|reflexivity]].
  - simpl in E. destruct (Z.gtb_spec (cur + data_size) max) as [Hgt|Hle].
    + apply IH in E; [|simpl in Hcur; lia|exact Hds].
      destruct E as (E1 & E2 & E3). split; [exact E1|split; [exact E2|]].
      now apply suffix_cons_r.
    + inversion E; subst buf' cur'. split; [exact Hcur|split; [lia|reflexivity]].
Qed.

(** Where bytes and characters coincide, or the entry fits, [append] keeps
    the invariant of the specification, and an entry larger than the
    capacity is left alone in the buffer, cut to its last [max_size_bytes]
    bytes. *)
Lemma append_invariant_single_byte (rb : RingBuffer.t) (data : pystr) :
  buffer_invariant rb ->
  0 < RingBuffer.max_size_bytes rb ->
  data <> [] ->
  single_byte data \/ byte_len data <= RingBuffer.max_size_bytes rb ->
  buffer_invariant (RingBuffer.append rb data) /\
  (RingBuffer.max_size_bytes rb < byte_len data ->
   RingBuffer.buffer (RingBuffer.append rb data) =
     [slice_last (RingBuffer.max_size_bytes rb) data] /\
   encode_utf8 (slice_last (RingBuffer.max_size_bytes rb) data) =
     slice_last (RingBuffer.max_size_bytes rb) (encode_utf8 data) /\
   RingBuffer.current_size (RingBuffer.append rb data) =
     RingBuffer.max_size_bytes rb).
Proof.
  intros (Hsize & Hcap & Hne) Hmax Hdata Hfit.
  unfold RingBuffer.append.
  set (max := RingBuffer.max_size_bytes rb) in *.
  destruct (Z.gtb_spec (byte_len data) max) as [Hbig|Hsmall].
  - destruct Hfit as [Hsb|Hfit]; [|lia].
    assert (Hsb' : single_byte (slice_last max data)).
    { destruct (slice_last_suffix max data) as [pre Hpre].
      unfold single_byte in *. rewrite Hpre in Hsb.
      now apply Forall_app in Hsb. }
    assert (Hlen : byte_len (slice_last max data) = max).
    { rewrite byte_len_single_byte by exact Hsb'.
      rewrite slice_last_length by lia.
      rewrite byte_len_single_byte in Hbig by exact Hsb. lia. }
    destruct (RingBuffer.evict max max (RingBuffer.buffer rb)
                (RingBuffer.current_size rb)) as [buf' cur'] eqn:E.
    eapply evict_spec in E; [|exact Hsize|lia].
    destruct E as (E1 & E2 & E3).
    assert (Hne' : Forall (fun line => line <> []) buf').
    { destruct E3 as [pre Hpre]. rewrite Hpre in Hne. now apply Forall_app in Hne. }
    assert (buf' = []) by (apply stored_bytes_zero; [exact Hne'|lia]).
    subst buf'. simpl in E1. subst cur'.
    split; [|intros _; split; [reflexivity|split]].
    + unfold buffer_invariant, RingBuffer.stored_bytes. simpl.
      repeat split; [lia|lia|].
      constructor; [|constructor].
      intros Hnil. rewrite Hnil in Hlen. unfold byte_len in Hlen. simpl in Hlen. lia.
    + rewrite !encode_single_byte by assumption. reflexivity.
    + simpl. lia.
  - destruct (RingBuffer.evict max (byte_len data) (RingBuffer.buffer rb)
                (RingBuffer.current_size rb)) as [buf' cur'] eqn:E.
    pose proof (byte_len_nonneg data).
    eapply evict_spec in E; [|exact Hsize|lia].
    destruct E as (E1 & E2 & E3).
    split; [|intros; lia].
    unfold buffer_invariant, RingBuffer.stored_bytes. simpl.
    repeat split.
    + rewrite List.map_app, fold_right_app. simpl.
      rewrite E1. clear.
      induction buf' as [|x buf' IH]; simpl; lia.
    + lia.
    + apply Forall_app. split; [|constructor; [exact Hdata|constructor]].
      destruct E3 as [pre Hpre]. rewrite Hpre in Hne. now apply Forall_app in Hne.
Qed.

(** So on every sequence of non-empty lines of one-byte characters, from an
    empty buffer of positive capacity, the invariant holds after each call. *)
Lemma appends_invariant_single_byte (lines : list pystr) :
  forall rb : RingBuffer.t,
  buffer_invariant rb ->
  0 < RingBuffer.max_size_bytes rb ->
  Forall (fun data => data <> [] /\ single_byte data) lines ->
  buffer_invariant (fold_left RingBuffer.append lines rb).
Proof.
  induction lines as [|data lines IH]; intros rb Hinv Hmax Hlines; [exact Hinv|].
  apply Forall_cons in Hlines as [[Hne Hsb] Hlines]. simpl. apply IH.
  - now apply append_invariant_single_byte; auto.
  - unfold RingBuffer.append.
    destruct (byte_len data >? RingBuffer.max_size_bytes rb);
      destruct (RingBuffer.evict _ _ _ _); exact Hmax.
  - exact Hlines.
Qed.

Example append_single_byte_overflow :
  let rb := fold_left RingBuffer.append [py "ab"; py "c"; py "wxyz"] (RingBuffer.init 3) in
  RingBuffer.buffer rb = [py "xyz"] /\ RingBuffer.current_size rb = 3.
Proof. split; reflexivity. Qed.

(** Two more ways out of the invariant, both outside what the assembler
    does: with capacity 0, [data[-0:]] is the whole entry; and an empty
    line, which weighs nothing, stays in front of a truncated entry. *)
Example append_capacity_zero :
  let rb := RingBuffer.append (RingBuffer.init 0) (py "a") in
  RingBuffer.buffer rb = [py "a"] /\ RingBuffer.current_size rb = 0.
Proof. split; reflexivity. Qed.

Example append_after_empty_line :
  let rb := fold_left RingBuffer.append [py "abc"; []; py "wxyz"] (RingBuffer.init 3) in
  RingBuffer.buffer rb = [[]; py "xyz"] /\ RingBuffer.current_size rb = 3.
Proof. split; reflexivity. Qed.

(** C1 (the code departs from it).  A buffer of 3 bytes is given the
    two-character, four-byte string "éé": [append] cuts by characters
    ([data[-3:]] is the whole string) and books 3 bytes, so the buffer holds
    4 bytes, more than its capacity, [current_size] is not the sum of the
    byte lengths, and the retained entry is not the last 3 bytes of the
    input. *)
Lemma append_truncates_by_characters :
  let data := [233; 233]%N in
  let rb := RingBuffer.append (RingBuffer.init 3) data in
  byte_len data = 4 /\
  RingBuffer.buffer rb = [data] /\
  RingBuffer.current_size rb = 3 /\
  RingBuffer.stored_bytes rb = 4 /\
  RingBuffer.stored_bytes rb > RingBuffer.max_size_bytes rb /\
  RingBuffer.current_size rb <> RingBuffer.stored_bytes rb /\
  encode_utf8 data = [195; 169; 195; 169]%N /\
  List.map encode_utf8 (RingBuffer.buffer rb) <> [slice_last 3 (encode_utf8 data)].
Proof. vm_compute. repeat split; congruence. Qed.

(** ** Searching the buffer *)

Lemma filter_sublist {A} (f : A -> bool) (l : list A) :
  List.filter f l `sublist_of` l.
Proof.
  induction l as [|x l IH]; simpl; [constructor|].
  destruct (f x); now constructor.
Qed.

Lemma last_matches_spec (matches : list pystr) (n : Z) :
  RingBuffer.last_matches matches n `suffix_of` matches /\
  (n <= 0 -> RingBuffer.last_matches matches n = matches) /\
  (0 < n ->
   Z.of_nat (length (RingBuffer.last_matches matches n)) =
     Z.min n (Z.of_nat (length matches))).
Proof.
  unfold RingBuffer.last_matches.
  destruct (Z.leb_spec n 0) as [Hn|Hn].
  - split; [reflexivity|]. split; [reflexivity|lia].
  - split; [apply slice_last_suffix|]. split; [lia|].
    intros _. now apply slice_last_length.
Qed.

Lemma search_output_accepted (rt : PyRuntime) (h : ProcessHandler.t)
    (mode : pystr) (pattern : option pystr) (keep : pystr -> bool) (n : Z) :
  accepts rt mode pattern keep ->
  ProcessHandler.search_output rt h mode pattern n =
    RingBuffer.last_matches
      (List.filter keep (RingBuffer.buffer (ProcessHandler.buffer h))) n.
Proof.
  destruct 1 as [s|p r Hc|c p]; unfold ProcessHandler.search_output.
  - reflexivity.
  - rewrite bool_decide_eq_false_2 by (vm_compute; congruence).
    rewrite bool_decide_eq_true_2 by reflexivity.
    unfold RingBuffer.search_regex. rewrite Hc. reflexivity.
  - rewrite bool_decide_eq_false_2 by (vm_compute; congruence).
    rewrite bool_decide_eq_false_2 by (vm_compute; congruence).
    reflexivity.
Qed.

(** C4, the claim as it stands fails: a wildcard search with the empty
    pattern on an empty buffer returns the one-line failure, which is no
    subsequence of the (empty) contents. *)
Lemma search_failure_is_no_subsequence :
  let h := Examples.with_lines 7 [] in
  RingBuffer.buffer (ProcessHandler.buffer h) = [] /\
  ProcessHandler.search_output Examples.rt h (py "wildcard") (Some []) 5 =
    [py "ERROR: Empty wildcard pattern provided"] /\
  ~ (ProcessHandler.search_output Examples.rt h (py "wildcard") (Some []) 5
       `sublist_of` RingBuffer.buffer (ProcessHandler.buffer h)).
Proof.
  split; [reflexivity|]. split; [reflexivity|].
  intros H. apply sublist_nil_r in H. vm_compute in H. discriminate H.
Qed.

(** C4 (amended).  For every mode and every pattern the mode accepts (any
    string for "string", a pattern that compiles for "regex", a non-empty
    one for "wildcard") and every n, the search returns a subsequence of the
    buffer in buffer order: the matching lines when n <= 0, and the last n
    of them (all, if there are fewer) when n > 0.  For a pattern the mode
    refuses ([None] for "string", a pattern that does not compile for
    "regex", [None] or the empty string for "wildcard") the result is one
    line "ERROR: ..." fixed by the mode and the pattern, whatever the buffer
    holds.  [None] is not checked by "regex": the search fails, with one
    line "ERROR: ...", at the first line it examines, and returns the empty
    list on an empty buffer.  Every pattern of a known mode falls under one
    of the three. *)
Theorem search_subsequence (rt : PyRuntime) (h : ProcessHandler.t)
    (mode : pystr) (pattern : option pystr) (n : Z) :
  let contents := RingBuffer.buffer (ProcessHandler.buffer h) in
  let result := ProcessHandler.search_output rt h mode pattern n in
  (forall keep, accepts rt mode pattern keep ->
     let matches := List.filter keep contents in
     result `sublist_of` contents /\
     result `suffix_of` matches /\
     (n <= 0 -> result = matches) /\
     (0 < n -> Z.of_nat (length result) = Z.min n (Z.of_nat (length matches)))) /\
  (forall msg, refuses rt mode pattern msg ->
     result = [RingBuffer.error_line msg]) /\
  (mode = py "regex" -> pattern = None ->
     (contents = [] -> result = []) /\
     (contents <> [] ->
      result = [RingBuffer.error_line
                  (py "Error during regex search: 'NoneType' object has no attribute 'search'")])) /\
  (ProcessManager.known_search_type mode = true ->
     (exists keep, accepts rt mode pattern keep) \/
     (exists msg, refuses rt mode pattern msg) \/
     (mode = py "regex" /\ pattern = None)).
Proof.
  intros contents result. split; [|split; [|split]].
  - intros keep Hacc matches.
    assert (E : result = RingBuffer.last_matches matches n)
      by (apply search_output_accepted; exact Hacc).
    destruct (last_matches_spec matches n) as (Hsuf & Hall & Hlast).
    rewrite E. split; [|auto].
    transitivity matches; [|apply filter_sublist].
    destruct Hsuf as [pre Hpre]. rewrite Hpre at 2. apply sublist_inserts_l. reflexivity.
  - intros msg Href. subst result. unfold ProcessHandler.search_output.
    destruct Href as [|p msg Hc|p msg Hc| |].
    + reflexivity.
    + rewrite bool_decide_eq_false_2 by (vm_compute; congruence).
      rewrite bool_decide_eq_true_2 by reflexivity.
      unfold RingBuffer.search_regex. rewrite Hc. reflexivity.
    + rewrite bool_decide_eq_false_2 by (vm_compute; congruence).
      rewrite bool_decide_eq_true_2 by reflexivity.
      unfold RingBuffer.search_regex. rewrite Hc. reflexivity.
    + rewrite bool_decide_eq_false_2 by (vm_compute; congruence).
      rewrite bool_decide_eq_false_2 by (vm_compute; congruence).
      reflexivity.
    + rewrite bool_decide_eq_false_2 by (vm_compute; congruence).
      rewrite bool_decide_eq_false_2 by (vm_compute; congruence).
      reflexivity.
  - intros -> ->. subst result contents. unfold ProcessHandler.search_output.
    rewrite bool_decide_eq_false_2 by (vm_compute; congruence).
    rewrite bool_decide_eq_true_2 by reflexivity.
    unfold RingBuffer.search_regex, RingBuffer.last_matches.
    destruct (RingBuffer.buffer (ProcessHandler.buffer h)) as [|line lines].
    + split; [|congruence]. intros _. destruct (n <=? 0); [reflexivity|].
      apply suffix_nil_inv, slice_last_suffix.
    + split; [discriminate|]. intros _. reflexivity.
  - intros Hknown. unfold ProcessManager.known_search_type in Hknown.
    apply bool_decide_eq_true_1 in Hknown.
    apply elem_of_cons in Hknown as [->|Hknown];
      [|apply elem_of_cons in Hknown as [->|Hknown];
        [|apply elem_of_cons in Hknown as [->|Hknown];
          [|now apply elem_of_nil in Hknown]]].
    + destruct pattern as [s|].
      * left. eexists. apply accepts_string.
      * right. left. eexists. apply refuses_string_none.
    + destruct pattern as [p|]; [|right; right; now split].
      destruct (re_compile rt p) as [r|msg|msg] eqn:Hc.
      * left. eexists. now apply (accepts_regex rt p r).
      * right. left. eexists. apply refuses_regex_error. exact Hc.
      * right. left. eexists. apply refuses_regex_fault. exact Hc.
    + destruct pattern as [[|c p]|].
      * right. left. eexists. apply refuses_wildcard_empty.
      * left. eexists. apply accepts_wildcard.
      * right. left. eexists. apply refuses_wildcard_none.
Qed.

Lemma search_subsequence_witness :
  let h := Examples.with_lines 7 [py "Alpha"; py "Beta"; py "Gamma"; py "Delta"] in
  accepts Examples.rt (py "wildcard") (Some (py "*ta"))
    (fun line => Examples.glob (py "*ta") (strip line)) /\
  ProcessHandler.search_output Examples.rt h (py "wildcard") (Some (py "*ta")) 1
    `sublist_of` RingBuffer.buffer (ProcessHandler.buffer h).
Proof.
  split; [exact (accepts_wildcard Examples.rt 42%N (py "ta"))|].
  exact (proj1 (proj1 (search_subsequence Examples.rt
                  (Examples.with_lines 7 [py "Alpha"; py "Beta"; py "Gamma"; py "Delta"])
                  (py "wildcard") (Some (py "*ta")) 1) _
                  (accepts_wildcard Examples.rt 42%N (py "ta")))).
Defined.

Example search_regex_not_compiling :
  ProcessHandler.search_output Examples.rt
    (Examples.with_lines 7 [py "Alpha"; py "Beta"]) (py "regex") (Some (py "(")) 5 =
    [py "ERROR: Invalid regex pattern: missing ), unterminated subpattern at position 0"].
Proof. reflexivity. Qed.

Example search_regex_none :
  ProcessHandler.search_output Examples.rt
    (Examples.with_lines 7 [py "Alpha"; py "Beta"]) (py "regex") None 5 =
    [py "ERROR: Error during regex search: 'NoneType' object has no attribute 'search'"] /\
  ProcessHandler.search_output Examples.rt (Examples.with_lines 7 []) (py "regex") None 5 = [].
Proof. split; reflexivity. Qed.

Example search_last_match :
  ProcessHandler.search_output Examples.rt
    (Examples.with_lines 7 [py "Alpha"; py "Beta"; py "Gamma"; py "Delta"])
    (py "wildcard") (Some (py "*ta")) 1 = [py "Delta"].
Proof. reflexivity. Qed.

(** C5, the claim as it stands fails at the buffer and at the session: the
    empty string is found in every line, so an exact search for it returns
    the lines, and a regex search with [None] on an empty buffer returns
    the empty list. *)
Lemma empty_pattern_accepted_by_session :
  let h := Examples.with_lines 7 [py "Alpha"; py "Beta"] in
  RingBuffer.search_string (ProcessHandler.buffer h) (Some []) 5 =
    [py "Alpha"; py "Beta"] /\
  ProcessHandler.search_output Examples.rt h (py "string") (Some []) 5 =
    [py "Alpha"; py "Beta"] /\
  ProcessHandler.search_output Examples.rt (Examples.with_lines 7 [])
    (py "regex") None 5 = [].
Proof. repeat split. Qed.

(** C5 (amended).  At the registry, for a registered id and each of the
    three modes, a search with an empty or [None] pattern returns the
    failure "ERROR: Search pattern cannot be empty", and so does the search
    of all sessions; the session is not called and the manager is left as it
    was.  At the buffer the wildcard search refuses an empty or [None]
    pattern and the string search refuses [None]. *)
Theorem empty_pattern_rejected (rt : PyRuntime) (m : ProcessManager.t)
    (pid : Z) (h : ProcessHandler.t) (search_type : pystr)
    (pattern : option pystr) (n : Z) :
  Dict.get pid (ProcessManager.processes m) = Some h ->
  ProcessManager.known_search_type search_type = true ->
  ProcessManager.empty_pattern pattern = true ->
  ProcessManager.stdio_search_lines rt pid search_type pattern n m =
    ([py "ERROR: Search pattern cannot be empty"], m) /\
  ProcessManager.all_search rt search_type pattern n m =
    ([(-1, [py "ERROR: Search pattern cannot be empty"])], m) /\
  RingBuffer.search_wildcard rt (ProcessHandler.buffer h) pattern n =
    [py "ERROR: Empty wildcard pattern provided"] /\
  (pattern = None ->
   RingBuffer.search_string (ProcessHandler.buffer h) pattern n =
     [py "ERROR: Search string cannot be None"]).
Proof.
  intros Hget Hknown Hempty. destruct m as [d l c]. simpl in Hget.
  split; [|split; [|split]].
  - run_manager. rewrite Hget, Hknown, Hempty. reflexivity.
  - run_manager. rewrite Hknown, Hempty. reflexivity.
  - destruct pattern as [[|? ?]|]; [reflexivity|discriminate Hempty|reflexivity].
  - intros ->. reflexivity.
Qed.

Lemma empty_pattern_rejected_witness :
  let m := Examples.manager [(7, Examples.with_lines 7 [py "Alpha"; py "Beta"])] in
  ProcessManager.stdio_search_lines Examples.rt 7 (py "string") (Some []) 5 m =
    ([py "ERROR: Search pattern cannot be empty"], m).
Proof.
  exact (proj1 (empty_pattern_rejected Examples.rt
                  (Examples.manager [(7, Examples.with_lines 7 [py "Alpha"; py "Beta"])])
                  7 (Examples.with_lines 7 [py "Alpha"; py "Beta"])
                  (py "string") (Some []) 5 eq_refl eq_refl eq_refl)).
Defined.

(** ** Unknown process ids *)

(** C8.  With an id that is not registered, the six per-id operations
    return their not-found failure and leave the manager, and so the
    registry, as it was. *)
Theorem unknown_pid_not_found (rt : PyRuntime) (m : ProcessManager.t) (pid : Z)
    (timeout : nat) (text : pystr) (n : Z) (search_type : pystr)
    (pattern : option pystr) :
  Dict.get pid (ProcessManager.processes m) = None ->
  ProcessManager.process_status pid m = (ProcessManager.not_found_status, m) /\
  ProcessHandler.st_state ProcessManager.not_found_status =
    py "error: Process not found" /\
  ProcessManager.process_kill pid timeout m = (py "failed: Process not found", m) /\
  ProcessManager.stdio_send_line pid text m = (py "failed: Process not found", m) /\
  ProcessManager.stdio_send_chars pid text m = (py "failed: Process not found", m) /\
  ProcessManager.stdio_get_lines pid n m =
    ([py "ERROR: Process not found: pid=" ++ str_of_int pid], m) /\
  ProcessManager.stdio_search_lines rt pid search_type pattern n m =
    ([py "ERROR: Process not found: pid=" ++ str_of_int pid], m).
Proof.
  intros Hget. destruct m as [d l c]. simpl in Hget.
  repeat split; run_manager; rewrite Hget; reflexivity.
Qed.

Lemma unknown_pid_not_found_witness :
  let m := Examples.manager [(7, Examples.sleeper 7 (Some 0%nat))] in
  ProcessManager.process_kill 8 50 m = (py "failed: Process not found", m).
Proof.
  exact (proj1 (proj2 (proj2
    (unknown_pid_not_found Examples.rt
       (Examples.manager [(7, Examples.sleeper 7 (Some 0%nat))])
       8 50 [] 5 (py "string") None eq_refl)))).
Defined.

(** ** Failures signalled in the result *)

Lemma all_search_loop (rt : PyRuntime) (search_type : pystr)
    (pattern : option pystr) (n : Z) (d : Dict.t ProcessHandler.t) :
  forall (result : list (Z * list pystr)) (errors : list pystr) (m : ProcessManager.t),
  fst (ProcessManager.for_each d
         (fun '(pid, handler) '(result, errors) =>
            ProcessManager.bind
              (ProcessManager.call_query ProcessManager.OpSearchOutput pid
                 (ProcessHandler.search_output rt handler search_type pattern n))
              (fun matches =>
                 if ProcessManager.is_error_result matches
                 then ProcessManager.ret
                        (result, errors ++ [ProcessManager.pid_entry pid (hd [] matches)])
                 else match matches with
                      | [] => ProcessManager.ret (result, errors)
                      | _ :: _ => ProcessManager.ret (result ++ [(pid, matches)], errors)
                      end))
         (result, errors) m) =
    (result ++ search_hits rt search_type pattern n d,
     errors ++ search_failures rt search_type pattern n d).
Proof.
  induction d as [|[pid h] d IH]; intros result errors m.
  - simpl. now rewrite !app_nil_r.
  - cbn [ProcessManager.for_each search_hits search_failures flat_map].
    unfold ProcessManager.bind at 1.
    unfold ProcessManager.bind at 1, ProcessManager.call_query,
      ProcessManager.record_call, ProcessManager.ret at 1.
    cbn [ProcessManager.bind].
    set (matches := ProcessHandler.search_output rt h search_type pattern n).
    unfold ProcessManager.bind at 1.
    destruct (ProcessManager.is_error_result matches) eqn:Herr.
    + unfold ProcessManager.ret at 1.
      fold (search_hits rt search_type pattern n d).
      fold (search_failures rt search_type pattern n d).
      rewrite IH. simpl. now rewrite <- app_assoc.
    + destruct matches as [|first rest] eqn:Hm.
      * unfold ProcessManager.ret at 1.
        fold (search_hits rt search_type pattern n d).
        fold (search_failures rt search_type pattern n d).
        rewrite IH. reflexivity.
      * unfold ProcessManager.ret at 1.
        fold (search_hits rt search_type pattern n d).
        fold (search_failures rt search_type pattern n d).
        rewrite IH. simpl. now rewrite <- app_assoc.
Qed.

(** C9.  Results are lists of strings, and a result is a failure exactly
    when its first line starts with "ERROR:": the search of all sessions
    returns the entries of the sessions whose result does not read so and
    has a line, followed, if any result reads as a failure, by one entry
    under id -1 that joins their first lines.  A buffer holding the line
    "ERROR: Search string cannot be None", searched for "None", gives a
    successful search whose result is the very list a failed search (pattern
    [None]) returns; it is classified as a failure, and the search of all
    sessions reports the session in the failure entry, with no entry of its
    own. *)
Theorem error_prefix_is_ambiguous (rt : PyRuntime) (m : ProcessManager.t)
    (search_type : pystr) (pattern : option pystr) (n : Z) :
  ProcessManager.known_search_type search_type = true ->
  ProcessManager.empty_pattern pattern = false ->
  (fst (ProcessManager.all_search rt search_type pattern n m) =
     search_hits rt search_type pattern n (ProcessManager.processes m) ++
     match search_failures rt search_type pattern n (ProcessManager.processes m) with
     | [] => []
     | errors => [(-1, [py "ERROR: " ++ join (py "; ") errors])]
     end) /\
  (forall matches, ProcessManager.is_error_result matches = true <->
     exists first rest, matches = first :: rest /\ startswith (py "ERROR:") first = true) /\
  let line := py "ERROR: Search string cannot be None" in
  let h := Examples.with_lines 7 [py "started"; line] in
  let success := ProcessHandler.search_output Examples.rt h (py "string") (Some (py "None")) 2 in
  let failure := ProcessHandler.search_output Examples.rt h (py "string") None 2 in
  success = [line] /\
  In line (RingBuffer.buffer (ProcessHandler.buffer h)) /\
  str_in (py "None") line = true /\
  failure = success /\
  ProcessManager.is_error_result success = true /\
  fst (ProcessManager.stdio_search_lines Examples.rt 7 (py "string") (Some (py "None")) 2
         (Examples.manager [(7, h)])) = [line] /\
  fst (ProcessManager.all_search Examples.rt (py "string") (Some (py "None")) 2
         (Examples.manager [(7, h)])) =
    [(-1, [py "ERROR: PID 7: ERROR: Search string cannot be None"])].
Proof.
  intros Hknown Hpat. split; [|split].
  - unfold ProcessManager.all_search. rewrite Hknown, Hpat. cbn [negb].
    unfold ProcessManager.with_lock, ProcessManager.items.
    unfold ProcessManager.bind at 1. unfold ProcessManager.bind at 1.
    unfold ProcessManager.acquire. unfold ProcessManager.bind at 1.
    unfold ProcessManager.bind at 1.
    match goal with
    | |- context [ProcessManager.for_each ?d ?body ?acc ?m0] =>
        pose proof (all_search_loop rt search_type pattern n d [] [] m0) as Hloop;
        destruct (ProcessManager.for_each d body acc m0) as [[result errors] m1]
    end.
    simpl in Hloop. inversion Hloop; subst result errors. clear Hloop.
    unfold ProcessManager.bind, ProcessManager.release, ProcessManager.ret.
    destruct (search_failures rt search_type pattern n (ProcessManager.processes m));
      simpl; [now rewrite app_nil_r|reflexivity].
  - intros matches. split.
    + destruct matches as [|first rest]; [discriminate|]. simpl. eauto.
    + intros (first & rest & -> & H). exact H.
  - vm_compute. repeat split; auto.
Qed.

Lemma error_prefix_is_ambiguous_witness :
  let h := Examples.with_lines 7 [py "started"; py "ERROR: Search string cannot be None"] in
  fst (ProcessManager.all_search Examples.rt (py "string") (Some (py "None")) 2
         (Examples.manager [(7, h)])) =
    search_hits Examples.rt (py "string") (Some (py "None")) 2 [(7, h)] ++
    match search_failures Examples.rt (py "string") (Some (py "None")) 2 [(7, h)] with
    | [] => []
    | errors => [(-1, [py "ERROR: " ++ join (py "; ") errors])]
    end.
Proof.
  exact (proj1 (error_prefix_is_ambiguous Examples.rt
    (Examples.manager
       [(7, Examples.with_lines 7 [py "started"; py "ERROR: Search string cannot be None"])])
    (py "string") (Some (py "None")) 2 eq_refl eq_refl)).
Defined.

(** ** The states of a session *)

Lemma exit_code_state_not_running (c : Z) :
  ProcessHandler.exit_code_state c <> py "running".
Proof. unfold ProcessHandler.exit_code_state. eval_literals. simpl. discriminate. Qed.

Lemma exit_code_state_not_error (c : Z) :
  ProcessHandler.exit_code_state c <> py "error".
Proof. unfold ProcessHandler.exit_code_state. eval_literals. simpl. discriminate. Qed.

Lemma exit_code_state_not_completed (c : Z) :
  ProcessHandler.exit_code_state c <> py "completed".
Proof. unfold ProcessHandler.exit_code_state. eval_literals. simpl. discriminate. Qed.

Lemma exited_state_not_running (c : Z) :
  ProcessHandler.exited_state c <> py "running".
Proof.
  unfold ProcessHandler.exited_state. destruct (c =? 0).
  - vm_compute. discriminate.
  - apply exit_code_state_not_running.
Qed.

(** C3, the claim as it stands fails: after a reader's I/O fault the
    session is in state "error" with its process alive, and [kill] signals
    the process and succeeds. *)
Lemma kill_signals_faulted_session :
  let h := Examples.faulted 7 in
  let '(result, h') := ProcessHandler.kill 50 h in
  ProcessHandler.state h = py "error" /\
  option_map Popen.sigkills (ProcessHandler.process h) = Some 0%nat /\
  result = py "success" /\
  option_map Popen.sigkills (ProcessHandler.process h') = Some 1%nat.
Proof. vm_compute. repeat split. Qed.

(** C3 (amended).  A session that is "completed", or in the error state of
    a non-zero exit ("error: Exit code N"), or has no process (never
    started, or failed to spawn) refuses [kill]: the call fails with
    "Process not running" or "No process to kill", nothing is signalled and
    the session is left as it was. *)
Theorem kill_refused_when_terminal (timeout : nat) (h : ProcessHandler.t) :
  ProcessHandler.state h = py "completed" \/
  (exists c, ProcessHandler.state h = ProcessHandler.exit_code_state c) \/
  ProcessHandler.process h = None ->
  (ProcessHandler.kill timeout h = (py "failed: Process not running", h) \/
   ProcessHandler.kill timeout h = (py "failed: No process to kill", h)) /\
  option_map Popen.sigkills (ProcessHandler.process (snd (ProcessHandler.kill timeout h))) =
    option_map Popen.sigkills (ProcessHandler.process h).
Proof.
  intros Hstate.
  assert (H : ProcessHandler.kill timeout h = (py "failed: Process not running", h) \/
              ProcessHandler.kill timeout h = (py "failed: No process to kill", h)).
  { unfold ProcessHandler.kill.
    destruct (ProcessHandler.process h) as [p|] eqn:Hp; [|now right].
    left. rewrite bool_decide_eq_false_2; [reflexivity|].
    intros Hin. apply elem_of_cons in Hin as [Hin|Hin];
      [|apply elem_of_cons in Hin as [Hin|Hin]; [|now apply elem_of_nil in Hin]].
    - destruct Hstate as [Hs|[[c Hs]|Hs]]; [| |discriminate].
      + rewrite Hs in Hin. vm_compute in Hin. discriminate.
      + rewrite Hs in Hin. now apply exit_code_state_not_running in Hin.
    - destruct Hstate as [Hs|[[c Hs]|Hs]]; [| |discriminate].
      + rewrite Hs in Hin. vm_compute in Hin. discriminate.
      + rewrite Hs in Hin. now apply exit_code_state_not_error in Hin. }
  split; [exact H|]. destruct H as [-> | ->]; reflexivity.
Qed.

Lemma kill_refused_when_terminal_witness :
  let h := snd (ProcessHandler.kill 50 (Examples.sleeper 7 (Some 0%nat))) in
  ProcessHandler.state h = py "completed" /\
  (ProcessHandler.kill 50 h = (py "failed: Process not running", h) \/
   ProcessHandler.kill 50 h = (py "failed: No process to kill", h)).
Proof.
  split; [reflexivity|].
  exact (proj1 (kill_refused_when_terminal 50
                  (snd (ProcessHandler.kill 50 (Examples.sleeper 7 (Some 0%nat))))
                  (or_introl eq_refl))).
Defined.

(** C2, the claim as it stands fails: [kill] moves a running session to
    "completed" although the process ended with status -9; [get_status]
    moves a running session whose process exited with status 0 to
    "completed" while a byte of its output is still on the queue; and a
    reader's fault moves a running session to "error" while its process is
    alive. *)
Lemma completed_by_other_routes :
  let h := Examples.sleeper 7 (Some 0%nat) in
  let killed := snd (ProcessHandler.kill 50 h) in
  let pending :=
    ProcessHandler.read_output_step (py "stdout") (ProcessHandler.ReadByte 72) h in
  let exited :=
    ProcessHandler.set_process
      (Some (Popen.set_os (Popen.Exited 0) (Examples.sleeper_process 7 (Some 0%nat))))
      pending in
  let polled := snd (ProcessHandler.get_status exited) in
  ProcessHandler.state h = py "running" /\
  ProcessHandler.state killed = py "completed" /\
  exit_status_seen killed = Some (-9) /\
  ProcessHandler.state exited = py "running" /\
  ProcessHandler.state polled = py "completed" /\
  ProcessHandler.io_queue polled = [ProcessHandler.Data (py "stdout") 72] /\
  RingBuffer.buffer (ProcessHandler.buffer polled) = [] /\
  ProcessHandler.state (Examples.faulted 7) = py "error" /\
  exit_status_seen (Examples.faulted 7) = None.
Proof. vm_compute. repeat split. Qed.

Lemma perform_assemble_running (rt : PyRuntime) (h : ProcessHandler.t) (s : pystr) :
  ProcessHandler.state h = py "running" ->
  ProcessHandler.state (ProcessHandler.processor_step rt h) = s ->
  s <> py "running" ->
  exit_route Assemble h s /\
  (s <> py "error" ->
   assembler_checking h /\
   ProcessHandler.buffer (ProcessHandler.processor_step rt h) = ProcessHandler.buffer h /\
   ProcessHandler.current_line (ProcessHandler.processor_step rt h) =
     ProcessHandler.current_line h /\
   ProcessHandler.io_queue (ProcessHandler.processor_step rt h) =
     ProcessHandler.io_queue h /\
   (ProcessHandler.processor_alive (ProcessHandler.processor_step rt h) = false <->
      ProcessHandler.io_queue h = [])).
Proof.
  intros Hrun Hs Hne. unfold ProcessHandler.processor_step in *.
  destruct (ProcessHandler.processor_alive h) eqn:Halive; cbn [negb] in *;
    [|congruence].
  destruct (ProcessHandler.processor_at h) eqn:Hat.
  - exfalso. apply Hne. rewrite <- Hs, <- Hrun.
    destruct (ProcessHandler.stop_event h); reflexivity.
  - destruct (ProcessHandler.io_queue h) as [|[source data|detail] rest] eqn:Hq.
    + exfalso. apply Hne. rewrite <- Hs, <- Hrun.
      unfold ProcessHandler.flush_partial_line, ProcessHandler.commit_line.
      destruct (ProcessHandler.current_line h); reflexivity.
    + exfalso. apply Hne. rewrite <- Hs, <- Hrun.
      unfold ProcessHandler.take_item, ProcessHandler.commit_line.
      cbv zeta. destruct (data =? 10)%N; reflexivity.
    + simpl in Hs. subst s. split; [|congruence].
      eapply route_fault; eassumption.
  - assert (Hchk : assembler_checking h) by (split; assumption).
    unfold ProcessHandler.check_exit in *. unfold exit_status_seen.
    destruct (ProcessHandler.process h) as [p|] eqn:Hp;
      [|exfalso; apply Hne; rewrite <- Hs, <- Hrun; reflexivity].
    cbv zeta in *.
    destruct (Popen.returncode (Popen.poll p)) as [c|] eqn:Hrc;
      [|exfalso; apply Hne; rewrite <- Hs, <- Hrun; reflexivity].
    cbn [ProcessHandler.state ProcessHandler.set_process] in *.
    rewrite bool_decide_eq_true_2 in * by exact Hrun.
    cbn [ProcessHandler.io_queue ProcessHandler.set_state
         ProcessHandler.set_process] in *.
    destruct (ProcessHandler.io_queue h) as [|item rest] eqn:Hq;
      cbn in Hs; subst s;
      (split; [apply route_assembler; [exact Hchk|];
               unfold exit_status_seen; rewrite Hp; exact Hrc|]);
      intros _; cbn; rewrite ?Hq, ?Halive;
      (split; [exact Hchk|]); repeat split; congruence.
Qed.

Lemma perform_status_running (h : ProcessHandler.t) (s : pystr) :
  ProcessHandler.state h = py "running" ->
  ProcessHandler.state (snd (ProcessHandler.get_status h)) = s ->
  s <> py "running" ->
  exit_route GetStatus h s.
Proof.
  intros Hrun Hs Hne. unfold ProcessHandler.get_status in Hs. simpl in Hs.
  destruct (ProcessHandler.process h) as [p|] eqn:Hp; [|congruence].
  rewrite bool_decide_eq_true_2 in Hs by exact Hrun.
  destruct (Popen.returncode (Popen.poll p)) as [c|] eqn:Hrc; simpl in Hs;
    [|congruence].
  subst s. apply route_status. unfold exit_status_seen. rewrite Hp. exact Hrc.
Qed.

Lemma perform_kill_running (timeout : nat) (h : ProcessHandler.t) (s : pystr) :
  ProcessHandler.state h = py "running" ->
  ProcessHandler.state (snd (ProcessHandler.kill timeout h)) = s ->
  s <> py "running" ->
  s = py "completed" /\ killed_in_time timeout h.
Proof.
  intros Hrun Hs Hne. unfold ProcessHandler.kill in Hs.
  destruct (ProcessHandler.process h) as [p|] eqn:Hp; [|simpl in Hs; congruence].
  destruct (negb _); [simpl in Hs; congruence|].
  destruct (Popen.kill p) as [e|p'] eqn:Hk; [simpl in Hs; congruence|].
  destruct (Popen.returncode (Popen.poll (ProcessHandler.wait_exit timeout p')))
    as [c|] eqn:Hrc; simpl in Hs; [|congruence].
  split; [congruence|].
  exists p, p'. split; [exact Hp|]. split; [exact Hk|]. rewrite Hrc. discriminate.
Qed.

Lemma exit_route_performed (rt : PyRuntime) (a : action) (h : ProcessHandler.t)
    (s : pystr) :
  ProcessHandler.state h = py "running" ->
  exit_route a h s ->
  ProcessHandler.state (perform rt a h) = s /\ s <> py "running".
Proof.
  intros Hrun Hroute.
  destruct Hroute as [h c (Halive & Hat) Hseen|h c Hseen
                     |h timeout (p & p' & Hp & Hk & Hrc)|h detail rest Halive Hat Hq];
    unfold exit_status_seen in *; simpl.
  - destruct (ProcessHandler.process h) as [p|] eqn:Hp; [|discriminate].
    split; [|apply exited_state_not_running].
    unfold ProcessHandler.processor_step, ProcessHandler.check_exit.
    rewrite Halive, Hat, Hp. cbn [negb]. cbv zeta. rewrite Hseen.
    cbn [ProcessHandler.state ProcessHandler.set_process].
    rewrite bool_decide_eq_true_2 by exact Hrun.
    cbn [ProcessHandler.io_queue ProcessHandler.set_state ProcessHandler.set_process].
    destruct (ProcessHandler.io_queue h); reflexivity.
  - destruct (ProcessHandler.process h) as [p|] eqn:Hp; [|discriminate].
    split; [|apply exited_state_not_running].
    unfold ProcessHandler.get_status. simpl. rewrite ?Hp.
    rewrite bool_decide_eq_true_2 by exact Hrun. rewrite Hseen. reflexivity.
  - split; [|vm_compute; discriminate].
    unfold ProcessHandler.kill. rewrite Hp.
    rewrite bool_decide_eq_true_2 by (rewrite Hrun; constructor).
    simpl. rewrite Hk.
    destruct (Popen.returncode (Popen.poll (ProcessHandler.wait_exit timeout p')));
      [reflexivity|congruence].
  - split; [|vm_compute; discriminate].
    unfold ProcessHandler.processor_step. rewrite Halive, Hat, Hq. reflexivity.
Qed.

Lemma exit_code_state_inj (a b : Z) :
  ProcessHandler.exit_code_state a = ProcessHandler.exit_code_state b -> a = b.
Proof.
  unfold ProcessHandler.exit_code_state. intros H.
  apply app_inv_head in H. now apply str_of_int_inj.
Qed.

Lemma exited_state_completed (c : Z) :
  ProcessHandler.exited_state c = py "completed" <-> c = 0.
Proof.
  unfold ProcessHandler.exited_state. destruct (Z.eqb_spec c 0) as [->|Hc].
  - split; reflexivity.
  - split; [|contradiction]. intros H. now apply exit_code_state_not_completed in H.
Qed.

Lemma exited_state_exit_code (c c' : Z) :
  c <> 0 ->
  ProcessHandler.exited_state c' = ProcessHandler.exit_code_state c <-> c' = c.
Proof.
  intros Hc. unfold ProcessHandler.exited_state.
  destruct (Z.eqb_spec c' 0) as [->|Hc'].
  - split; [|congruence]. intros H. symmetry in H.
    now apply exit_code_state_not_completed in H.
  - split; [apply exit_code_state_inj|now intros ->].
Qed.

(** What a method other than [start] leaves of the assembler's own state
    and of the buffer. *)
Lemma write_stdin_keeps (text : pystr) (h : ProcessHandler.t) :
  let h' := snd (ProcessHandler.write_stdin text h) in
  ProcessHandler.state h' = ProcessHandler.state h /\
  ProcessHandler.processor_alive h' = ProcessHandler.processor_alive h /\
  ProcessHandler.processor_at h' = ProcessHandler.processor_at h /\
  ProcessHandler.current_line h' = ProcessHandler.current_line h /\
  ProcessHandler.buffer h' = ProcessHandler.buffer h.
Proof.
  unfold ProcessHandler.write_stdin.
  destruct (ProcessHandler.process h) as [p|]; [|now repeat split].
  destruct (negb _); [now repeat split|].
  destruct (encode text) as [e|data]; [now repeat split|].
  destruct (Popen.stdin_write data p); now repeat split.
Qed.

Lemma kill_keeps (timeout : nat) (h : ProcessHandler.t) :
  let h' := snd (ProcessHandler.kill timeout h) in
  ProcessHandler.processor_alive h' = ProcessHandler.processor_alive h /\
  ProcessHandler.processor_at h' = ProcessHandler.processor_at h /\
  ProcessHandler.current_line h' = ProcessHandler.current_line h /\
  ProcessHandler.buffer h' = ProcessHandler.buffer h.
Proof.
  unfold ProcessHandler.kill.
  destruct (ProcessHandler.process h) as [p|]; [|now repeat split].
  destruct (negb _); [now repeat split|].
  destruct (Popen.kill p) as [e|p']; [now repeat split|].
  cbv zeta.
  destruct (Popen.returncode (Popen.poll (ProcessHandler.wait_exit timeout p')));
    now repeat split.
Qed.

Lemma cleanup_keeps (h : ProcessHandler.t) :
  let h' := ProcessHandler.cleanup h in
  ProcessHandler.state h' = ProcessHandler.state h /\
  ProcessHandler.processor_alive h' = ProcessHandler.processor_alive h /\
  ProcessHandler.processor_at h' = ProcessHandler.processor_at h /\
  ProcessHandler.current_line h' = ProcessHandler.current_line h /\
  ProcessHandler.buffer h' = ProcessHandler.buffer h.
Proof.
  unfold ProcessHandler.cleanup.
  destruct (ProcessHandler.process h) as [p|] eqn:Hp;
    [|cbn; rewrite Hp; now repeat split].
  destruct (Popen.returncode (Popen.poll p)); [cbn; now repeat split|].
  destruct (Popen.kill (Popen.poll p)); cbn; now repeat split.
Qed.

Lemma get_status_keeps (h : ProcessHandler.t) :
  let h' := snd (ProcessHandler.get_status h) in
  ProcessHandler.processor_alive h' = ProcessHandler.processor_alive h /\
  ProcessHandler.processor_at h' = ProcessHandler.processor_at h /\
  ProcessHandler.current_line h' = ProcessHandler.current_line h /\
  ProcessHandler.buffer h' = ProcessHandler.buffer h.
Proof.
  unfold ProcessHandler.get_status. cbn [snd].
  destruct (ProcessHandler.process h) as [p|]; [|now repeat split].
  destruct (bool_decide _); [|now repeat split].
  cbv zeta. destruct (Popen.returncode (Popen.poll p)); now repeat split.
Qed.

Lemma read_keeps (source : pystr) (r : ProcessHandler.read_result)
    (h : ProcessHandler.t) :
  (let h' := ProcessHandler.queue_read source r h in
   ProcessHandler.state h' = ProcessHandler.state h /\
   ProcessHandler.processor_alive h' = ProcessHandler.processor_alive h /\
   ProcessHandler.processor_at h' = ProcessHandler.processor_at h /\
   ProcessHandler.current_line h' = ProcessHandler.current_line h /\
   ProcessHandler.buffer h' = ProcessHandler.buffer h /\
   ProcessHandler.process h' = ProcessHandler.process h /\
   ProcessHandler.stop_event h' = ProcessHandler.stop_event h /\
   exists put, ProcessHandler.io_queue h' = ProcessHandler.io_queue h ++ put) /\
  (let h' := ProcessHandler.read_output_step source r h in
   ProcessHandler.state h' = ProcessHandler.state h /\
   ProcessHandler.processor_alive h' = ProcessHandler.processor_alive h /\
   ProcessHandler.processor_at h' = ProcessHandler.processor_at h /\
   ProcessHandler.current_line h' = ProcessHandler.current_line h /\
   ProcessHandler.buffer h' = ProcessHandler.buffer h /\
   ProcessHandler.process h' = ProcessHandler.process h /\
   ProcessHandler.stop_event h' = ProcessHandler.stop_event h /\
   exists put, ProcessHandler.io_queue h' = ProcessHandler.io_queue h ++ put).
Proof.
  assert (Hq : let h' := ProcessHandler.queue_read source r h in
   ProcessHandler.state h' = ProcessHandler.state h /\
   ProcessHandler.processor_alive h' = ProcessHandler.processor_alive h /\
   ProcessHandler.processor_at h' = ProcessHandler.processor_at h /\
   ProcessHandler.current_line h' = ProcessHandler.current_line h /\
   ProcessHandler.buffer h' = ProcessHandler.buffer h /\
   ProcessHandler.process h' = ProcessHandler.process h /\
   ProcessHandler.stop_event h' = ProcessHandler.stop_event h /\
   exists put, ProcessHandler.io_queue h' = ProcessHandler.io_queue h ++ put).
  { unfold ProcessHandler.queue_read.
    destruct r; cbn; do 7 (split; [reflexivity|]);
      solve [eexists; reflexivity | exists []; now rewrite app_nil_r]. }
  split; [exact Hq|].
  unfold ProcessHandler.read_output_step.
  destruct (ProcessHandler.stop_event h) eqn:Hstop; [|exact Hq].
  clear Hq. cbn. rewrite Hstop. do 7 (split; [reflexivity|]).
  exists []. now rewrite app_nil_r.
Qed.

Lemma perform_keeps_running (rt : PyRuntime) (a : action) (h : ProcessHandler.t)
    (p : Popen.t) (s : pystr) :
  ProcessHandler.state h = py "running" ->
  ProcessHandler.process h = Some p ->
  ProcessHandler.state (perform rt a h) = s ->
  s <> py "running" ->
  exit_route a h s.
Proof.
  intros Hrun Hp Hs Hne.
  destruct a as [source r|source r| |os_spawn| |timeout| |line|chars]; simpl in Hs.
  - exfalso. apply Hne. rewrite <- Hs, <- Hrun.
    apply (proj2 (read_keeps source r h)).
  - exfalso. apply Hne. rewrite <- Hs, <- Hrun.
    apply (proj1 (read_keeps source r h)).
  - now apply (perform_assemble_running rt).
  - exfalso. apply Hne. rewrite <- Hs, <- Hrun.
    unfold ProcessHandler.start. rewrite Hp. reflexivity.
  - now apply perform_status_running.
  - destruct (perform_kill_running timeout h s Hrun Hs Hne) as [-> Hk].
    now apply route_kill.
  - exfalso. apply Hne. rewrite <- Hs, <- Hrun. apply cleanup_keeps.
  - exfalso. apply Hne. rewrite <- Hs, <- Hrun.
    unfold ProcessHandler.send_line. apply write_stdin_keeps.
  - exfalso. apply Hne. rewrite <- Hs, <- Hrun.
    unfold ProcessHandler.send_chars. apply write_stdin_keeps.
Qed.

(** A method or a reader leaves the assembler where it stands, with its
    accumulator and the buffer as they were. *)
Lemma others_keep_assembler (rt : PyRuntime) (a : action) (h : ProcessHandler.t)
    (p : Popen.t) :
  ProcessHandler.process h = Some p ->
  a <> Assemble ->
  let h' := perform rt a h in
  ProcessHandler.processor_alive h' = ProcessHandler.processor_alive h /\
  ProcessHandler.processor_at h' = ProcessHandler.processor_at h /\
  ProcessHandler.current_line h' = ProcessHandler.current_line h /\
  ProcessHandler.buffer h' = ProcessHandler.buffer h.
Proof.
  intros Hp Ha.
  destruct a as [source r|source r| |os_spawn| |timeout| |line|chars];
    cbn [perform]; cbv zeta.
  - pose proof (proj2 (read_keeps source r h)) as H. cbv zeta in H. tauto.
  - pose proof (proj1 (read_keeps source r h)) as H. cbv zeta in H. tauto.
  - congruence.
  - unfold ProcessHandler.start. rewrite Hp. now repeat split.
  - apply get_status_keeps.
  - apply kill_keeps.
  - pose proof (cleanup_keeps h) as H. cbv zeta in H. tauto.
  - pose proof (write_stdin_keeps
                  (if endswith [10%N] line then line else line ++ [10%N]) h) as H.
    cbv zeta in H. unfold ProcessHandler.send_line. tauto.
  - pose proof (write_stdin_keeps chars h) as H.
    cbv zeta in H. unfold ProcessHandler.send_chars. tauto.
Qed.

(** The exit check is reached through the flush and in no other way. *)
Lemma check_entered_by_flush (rt : PyRuntime) (h : ProcessHandler.t) :
  let h' := ProcessHandler.processor_step rt h in
  assembler_checking h' -> ~ assembler_checking h ->
  ProcessHandler.processor_at h = ProcessHandler.InQueueGet /\
  ProcessHandler.io_queue h = [] /\
  ProcessHandler.state h' = ProcessHandler.state h /\
  ProcessHandler.buffer h' = flushed rt h /\
  ProcessHandler.current_line h' = [].
Proof.
  cbv zeta. unfold assembler_checking, ProcessHandler.processor_step, flushed.
  destruct (ProcessHandler.processor_alive h) eqn:Halive; cbn [negb];
    [|intros [H1 H2] Hn; exfalso; apply Hn; split; assumption || congruence].
  destruct (ProcessHandler.processor_at h) eqn:Hat.
  - destruct (ProcessHandler.stop_event h); cbn; intros [? ?]; discriminate.
  - destruct (ProcessHandler.io_queue h) as [|item rest] eqn:Hq.
    + unfold ProcessHandler.flush_partial_line, ProcessHandler.commit_line.
      destruct (ProcessHandler.current_line h) eqn:Hcl; cbn; rewrite ?Hcl;
        intros _ _; now repeat split.
    + cbn. intros [? ?]; discriminate.
  - intros _ Hn. exfalso. apply Hn. now split.
Qed.

(** When the assembler stands at its exit check its accumulator is empty:
    this holds after every action if it held before, and of a new session. *)
Lemma checking_accumulator_step (rt : PyRuntime) (a : action) (h : ProcessHandler.t) :
  (ProcessHandler.processor_at h = ProcessHandler.AtExitCheck ->
   ProcessHandler.current_line h = []) ->
  ProcessHandler.processor_at (perform rt a h) = ProcessHandler.AtExitCheck ->
  ProcessHandler.current_line (perform rt a h) = [].
Proof.
  intros Hinv.
  destruct a as [source r|source r| |os_spawn| |timeout| |line|chars];
    cbn [perform].
  - pose proof (proj2 (read_keeps source r h)) as H. cbv zeta in H.
    destruct H as (_ & _ & -> & -> & _). exact Hinv.
  - pose proof (proj1 (read_keeps source r h)) as H. cbv zeta in H.
    destruct H as (_ & _ & -> & -> & _). exact Hinv.
  - unfold ProcessHandler.processor_step.
    destruct (ProcessHandler.processor_alive h); cbn [negb]; [|exact Hinv].
    destruct (ProcessHandler.processor_at h) eqn:Hat.
    + destruct (ProcessHandler.stop_event h); cbn; [rewrite Hat|]; discriminate.
    + destruct (ProcessHandler.io_queue h) as [|item rest]; [|cbn; discriminate].
      unfold ProcessHandler.flush_partial_line, ProcessHandler.commit_line.
      intros _. destruct (ProcessHandler.current_line h) eqn:Hcl; cbn;
        [exact Hcl|reflexivity].
    + specialize (Hinv eq_refl). unfold ProcessHandler.check_exit.
      destruct (ProcessHandler.process h) as [p|]; [|cbn; discriminate].
      cbv zeta. destruct (Popen.returncode (Popen.poll p)); [|cbn; discriminate].
      cbn [ProcessHandler.state ProcessHandler.set_process].
      destruct (bool_decide _); cbn;
        destruct (ProcessHandler.io_queue h); cbn; intros; exact Hinv || discriminate.
  - unfold ProcessHandler.start.
    destruct (ProcessHandler.process h); [exact Hinv|].
    destruct (ProcessHandler.command h); [exact Hinv|].
    destruct (os_spawn _); cbn; try exact Hinv. discriminate.
  - pose proof (get_status_keeps h) as H. cbv zeta in H.
    destruct H as (_ & -> & -> & _). exact Hinv.
  - pose proof (kill_keeps timeout h) as H. cbv zeta in H.
    destruct H as (_ & -> & -> & _). exact Hinv.
  - pose proof (cleanup_keeps h) as H. cbv zeta in H.
    destruct H as (_ & _ & -> & -> & _). exact Hinv.
  - unfold ProcessHandler.send_line.
    pose proof (write_stdin_keeps
                  (if endswith [10%N] line then line else line ++ [10%N]) h) as H.
    cbv zeta in H. destruct H as (_ & _ & -> & -> & _). exact Hinv.
  - unfold ProcessHandler.send_chars.
    pose proof (write_stdin_keeps chars h) as H.
    cbv zeta in H. destruct H as (_ & _ & -> & -> & _). exact Hinv.
Qed.

Lemma checking_accumulator_empty (rt : PyRuntime) (actions : list action) :
  forall h : ProcessHandler.t,
  (ProcessHandler.processor_at h = ProcessHandler.AtExitCheck ->
   ProcessHandler.current_line h = []) ->
  ProcessHandler.processor_at (perform_all rt actions h) = ProcessHandler.AtExitCheck ->
  ProcessHandler.current_line (perform_all rt actions h) = [].
Proof.
  unfold perform_all.
  induction actions as [|a actions IH]; intros h Hinv; [exact Hinv|].
  cbn [fold_left]. apply IH. now apply checking_accumulator_step.
Qed.

(** C2 (amended).  A running session leaves "running" by these routes and
    no other.  The assembler, standing at its exit check, sees the process
    gone: the state becomes "completed" for exit status 0 and
    "error: Exit code N" for a status N other than 0; the step touches
    neither the buffer nor the accumulator, and the thread ends if the queue
    is empty then and goes on to drain it otherwise.  [get_status] sees the
    process gone: the same two states, whatever is still on the queue.
    [kill] sees the process gone within its timeout: "completed", whatever
    the exit status.  The assembler takes a fault marker off the queue:
    "error".  The exit check is reached in one way only: a wait of the
    assembler on the queue ended with the queue empty, and the step flushed
    the accumulator, appending the pending partial line to the buffer; no
    reader and no method moves the assembler or touches its accumulator or
    the buffer; so in every session, whatever has happened to it since it
    was made, the accumulator is empty when the assembler stands at its exit
    check. *)
Theorem running_leaves_by_routes (rt : PyRuntime) (a : action)
    (h : ProcessHandler.t) (p : Popen.t) :
  ProcessHandler.state h = py "running" ->
  ProcessHandler.process h = Some p ->
  let h' := perform rt a h in
  (forall s, ProcessHandler.state h' = s /\ s <> py "running" <-> exit_route a h s) /\
  (ProcessHandler.state h' = py "completed" <->
     ((a = Assemble /\ assembler_checking h) \/ a = GetStatus) /\
       exit_status_seen h = Some 0 \/
     exists timeout, a = Kill timeout /\ killed_in_time timeout h) /\
  (forall c, c <> 0 ->
     (ProcessHandler.state h' = ProcessHandler.exit_code_state c <->
        ((a = Assemble /\ assembler_checking h) \/ a = GetStatus) /\
          exit_status_seen h = Some c)) /\
  (a = Assemble -> ProcessHandler.state h' <> py "running" ->
     ProcessHandler.state h' <> py "error" ->
     ProcessHandler.buffer h' = ProcessHandler.buffer h /\
     ProcessHandler.current_line h' = ProcessHandler.current_line h /\
     ProcessHandler.io_queue h' = ProcessHandler.io_queue h /\
     (ProcessHandler.processor_alive h' = false <-> ProcessHandler.io_queue h = [])) /\
  (assembler_checking h' -> ~ assembler_checking h ->
     a = Assemble /\
     ProcessHandler.processor_at h = ProcessHandler.InQueueGet /\
     ProcessHandler.io_queue h = [] /\
     ProcessHandler.state h' = py "running" /\
     ProcessHandler.buffer h' = flushed rt h /\
     ProcessHandler.current_line h' = []) /\
  (a <> Assemble ->
     ProcessHandler.processor_alive h' = ProcessHandler.processor_alive h /\
     ProcessHandler.processor_at h' = ProcessHandler.processor_at h /\
     ProcessHandler.current_line h' = ProcessHandler.current_line h /\
     ProcessHandler.buffer h' = ProcessHandler.buffer h) /\
  (forall (actions : list action) (command : list pystr),
     let session := perform_all rt actions (ProcessHandler.init command) in
     ProcessHandler.processor_at session = ProcessHandler.AtExitCheck ->
     ProcessHandler.current_line session = []).
Proof.
  intros Hrun Hp h'.
  assert (Hroutes : forall s, ProcessHandler.state h' = s /\ s <> py "running" <->
                              exit_route a h s).
  { intros s. split.
    - intros [Hs Hne]. now apply (perform_keeps_running rt a h p).
    - now apply exit_route_performed. }
  split; [exact Hroutes|]. split; [|split; [|split; [|split; [|split]]]].
  - split.
    + intros Hs.
      assert (Hr : exit_route a h (py "completed"))
        by (apply Hroutes; split; [exact Hs|vm_compute; discriminate]).
      remember (py "completed") as s eqn:Es.
      destruct Hr as [h0 c Hidle Hseen|h0 c Hseen|h0 timeout Hk|h0 detail rest ? ? ?].
      * apply exited_state_completed in Es. subst c. left. auto.
      * apply exited_state_completed in Es. subst c. left. auto.
      * right. eauto.
      * vm_compute in Es. discriminate.
    + intros [[[[-> Hidle]| ->] Hseen]|(timeout & -> & Hk)]; apply Hroutes.
      * change (py "completed") with (ProcessHandler.exited_state 0).
        now apply route_assembler.
      * change (py "completed") with (ProcessHandler.exited_state 0).
        now apply route_status.
      * now apply route_kill.
  - intros c Hc. split.
    + intros Hs.
      assert (Hr : exit_route a h (ProcessHandler.exit_code_state c))
        by (apply Hroutes; split; [exact Hs|apply exit_code_state_not_running]).
      remember (ProcessHandler.exit_code_state c) as s eqn:Es.
      destruct Hr as [h0 c' Hidle Hseen|h0 c' Hseen|h0 timeout Hk|h0 detail rest ? ? ?].
      * apply exited_state_exit_code in Es; [|exact Hc]. subst c'. auto.
      * apply exited_state_exit_code in Es; [|exact Hc]. subst c'. auto.
      * symmetry in Es. now apply exit_code_state_not_completed in Es.
      * symmetry in Es. now apply exit_code_state_not_error in Es.
    + intros [[[-> Hidle]| ->] Hseen]; apply Hroutes.
      * rewrite <- (proj2 (exited_state_exit_code c c Hc) eq_refl).
        now apply route_assembler.
      * rewrite <- (proj2 (exited_state_exit_code c c Hc) eq_refl).
        now apply route_status.
  - intros -> Hne Herr. subst h'. simpl in *.
    now apply (perform_assemble_running rt h _ Hrun eq_refl Hne).
  - intros Hchk Hnot.
    assert (Ha : a = Assemble \/ a <> Assemble)
      by (destruct a; (left; reflexivity) || (right; discriminate)).
    destruct Ha as [->|Ha].
    + subst h'. cbn [perform] in *.
      destruct (check_entered_by_flush rt h Hchk Hnot) as (H1 & H2 & H3 & H4 & H5).
      rewrite H3. now repeat split.
    + exfalso. apply Hnot.
      destruct (others_keep_assembler rt a h p Hp Ha) as (H1 & H2 & _).
      fold h' in H1, H2. destruct Hchk as [Hc1 Hc2]. split; congruence.
  - intros Ha. now apply (others_keep_assembler rt a h p).
  - intros actions command session. apply checking_accumulator_empty.
    discriminate.
Qed.

Lemma running_leaves_by_routes_witness :
  let h := Examples.sleeper 7 (Some 0%nat) in
  ProcessHandler.state h = py "running" /\
  (ProcessHandler.state (perform Examples.rt (Kill 50) h) = py "completed" <->
     ((Kill 50 = Assemble /\ assembler_checking h) \/ Kill 50 = GetStatus) /\
       exit_status_seen h = Some 0 \/
     exists timeout, Kill 50 = Kill timeout /\ killed_in_time timeout h).
Proof.
  split; [reflexivity|].
  exact (proj1 (proj2
    (running_leaves_by_routes Examples.rt (Kill 50) (Examples.sleeper 7 (Some 0%nat))
       (Examples.sleeper_process 7 (Some 0%nat)) eq_refl eq_refl))).
Defined.

(** ** Starting a process *)

Lemma process_start_unregistered (os_spawn : list pystr -> spawn_result)
    (command : list pystr) (m : ProcessManager.t) (status : pystr)
    (h' : ProcessHandler.t) :
  command <> [] ->
  ProcessHandler.start os_spawn (ProcessHandler.init command) = ((status, None), h') ->
  fst (ProcessManager.process_start os_spawn command m) = (status, None) /\
  ProcessManager.processes (snd (ProcessManager.process_start os_spawn command m)) =
    ProcessManager.processes m.
Proof.
  intros Hcmd Hstart. destruct command as [|arg args]; [congruence|].
  unfold ProcessManager.process_start. rewrite Hstart.
  unfold ProcessManager.bind, ProcessManager.record_call, ProcessManager.ret.
  destruct (str_in (py "success") status); split; reflexivity.
Qed.

Lemma process_start_registered (os_spawn : list pystr -> spawn_result)
    (command : list pystr) (m : ProcessManager.t) (pid : Z)
    (h' : ProcessHandler.t) :
  command <> [] ->
  ProcessHandler.start os_spawn (ProcessHandler.init command) =
    ((py "success", Some pid), h') ->
  fst (ProcessManager.process_start os_spawn command m) = (py "success", Some pid) /\
  ProcessManager.processes (snd (ProcessManager.process_start os_spawn command m)) =
    Dict.set pid h' (ProcessManager.processes m).
Proof.
  intros Hcmd Hstart. destruct command as [|arg args]; [congruence|].
  unfold ProcessManager.process_start. rewrite Hstart.
  split; reflexivity.
Qed.

Lemma start_spawn_failed (os_spawn : list pystr -> spawn_result)
    (command : list pystr) :
  command <> [] ->
  is_spawned (os_spawn command) = false ->
  exists detail,
    ProcessHandler.start os_spawn (ProcessHandler.init command) =
      ((py "failed: " ++ detail, None),
       ProcessHandler.set_error (Some detail)
         (ProcessHandler.set_state (py "error") (ProcessHandler.init command))) /\
    match os_spawn command with
    | Spawned _ => True
    | FileNotFoundError e => detail = py "Command not found: " ++ e
    | IndexError e => detail = py "Invalid command format: " ++ e
    | PermissionError e => detail = py "Permission denied: " ++ e
    | SubprocessError e => detail = py "Subprocess error: " ++ e
    | OtherException e => detail = e
    end.
Proof.
  intros Hcmd Hfail. destruct command as [|arg args]; [congruence|].
  unfold ProcessHandler.start, ProcessHandler.spawn_failed.
  cbn [ProcessHandler.init ProcessHandler.process ProcessHandler.command].
  destruct (os_spawn (arg :: args)) as [p|e|e|e|e|e]; [discriminate|..];
    eexists; split; reflexivity.
Qed.

Lemma start_spawned (os_spawn : list pystr -> spawn_result)
    (command : list pystr) (p : Popen.t) :
  command <> [] ->
  os_spawn command = Spawned p ->
  exists h', ProcessHandler.start os_spawn (ProcessHandler.init command) =
               ((py "success", Some (Popen.pid p)), h') /\
             ProcessHandler.state h' = py "running".
Proof.
  intros Hcmd Hspawn. destruct command as [|arg args]; [congruence|].
  unfold ProcessHandler.start.
  cbn [ProcessHandler.init ProcessHandler.process ProcessHandler.command].
  rewrite Hspawn. eexists. split; reflexivity.
Qed.

(** C6.  When the spawn of a non-empty command fails, [start] on the new
    session returns a failure that names the kind of fault and no pid, the
    session goes from "initialized" to "error" and is never "running", and
    [process_start] returns that failure and leaves the registry as it was.
    When the spawn succeeds [process_start] returns "success" with the pid
    and enters the running session under that pid.  So the registry changes
    only if [start] succeeded. *)
Theorem spawn_failure_never_running (os_spawn : list pystr -> spawn_result)
    (command : list pystr) (m : ProcessManager.t) :
  command <> [] ->
  let started := ProcessHandler.start os_spawn (ProcessHandler.init command) in
  let status := fst (fst started) in
  let h' := snd started in
  let result := ProcessManager.process_start os_spawn command m in
  (is_spawned (os_spawn command) = false ->
     match os_spawn command with
     | Spawned _ => True
     | FileNotFoundError e => status = py "failed: Command not found: " ++ e
     | IndexError e => status = py "failed: Invalid command format: " ++ e
     | PermissionError e => status = py "failed: Permission denied: " ++ e
     | SubprocessError e => status = py "failed: Subprocess error: " ++ e
     | OtherException e => status = py "failed: " ++ e
     end /\
     snd (fst started) = None /\
     ProcessHandler.state h' = py "error" /\
     ProcessHandler.state_log h' = [py "initialized"; py "error"] /\
     ~ In (py "running") (ProcessHandler.state_log h') /\
     fst result = (status, None) /\
     ProcessManager.processes (snd result) = ProcessManager.processes m) /\
  (forall p, os_spawn command = Spawned p ->
     fst result = (py "success", Some (Popen.pid p)) /\
     ProcessHandler.state h' = py "running" /\
     ProcessManager.processes (snd result) =
       Dict.set (Popen.pid p) h' (ProcessManager.processes m)) /\
  (ProcessManager.processes (snd result) <> ProcessManager.processes m ->
     exists pid, fst started = (py "success", Some pid)).
Proof.
  intros Hcmd started status h' result.
  assert (Hfailed : is_spawned (os_spawn command) = false ->
            exists detail, started =
              ((py "failed: " ++ detail, None),
               ProcessHandler.set_error (Some detail)
                 (ProcessHandler.set_state (py "error") (ProcessHandler.init command))) /\
            match os_spawn command with
            | Spawned _ => True
            | FileNotFoundError e => detail = py "Command not found: " ++ e
            | IndexError e => detail = py "Invalid command format: " ++ e
            | PermissionError e => detail = py "Permission denied: " ++ e
            | SubprocessError e => detail = py "Subprocess error: " ++ e
            | OtherException e => detail = e
            end) by (now apply start_spawn_failed).
  split; [|split].
  - intros Hfail. destruct (Hfailed Hfail) as (detail & Hstart & Hkind).
    destruct (process_start_unregistered os_spawn command m _ _ Hcmd Hstart)
      as [Hres Hreg].
    subst status h' result. rewrite Hstart. cbn [fst snd].
    split; [|split; [reflexivity|split; [reflexivity|split; [reflexivity|split]]]].
    + destruct (os_spawn command); try exact I; subst detail; reflexivity.
    + vm_compute. intros [H|[H|[]]]; discriminate H.
    + split; [exact Hres|exact Hreg].
  - intros p Hspawn.
    destruct (start_spawned os_spawn command p Hcmd Hspawn) as (h0 & Hstart & Hrun).
    destruct (process_start_registered os_spawn command m _ _ Hcmd Hstart)
      as [Hres Hreg].
    subst status h' result. fold started in Hstart. rewrite Hstart. cbn [fst snd].
    split; [exact Hres|split; [exact Hrun|exact Hreg]].
  - intros Hchanged. destruct (os_spawn command) as [p|e|e|e|e|e] eqn:Hspawn.
    + destruct (start_spawned os_spawn command p Hcmd Hspawn) as (h0 & Hstart & _).
      exists (Popen.pid p). fold started in Hstart. now rewrite Hstart.
    + exfalso. destruct (Hfailed eq_refl) as (detail & Hstart & _).
      now destruct (process_start_unregistered os_spawn command m _ _ Hcmd Hstart).
    + exfalso. destruct (Hfailed eq_refl) as (detail & Hstart & _).
      now destruct (process_start_unregistered os_spawn command m _ _ Hcmd Hstart).
    + exfalso. destruct (Hfailed eq_refl) as (detail & Hstart & _).
      now destruct (process_start_unregistered os_spawn command m _ _ Hcmd Hstart).
    + exfalso. destruct (Hfailed eq_refl) as (detail & Hstart & _).
      now destruct (process_start_unregistered os_spawn command m _ _ Hcmd Hstart).
    + exfalso. destruct (Hfailed eq_refl) as (detail & Hstart & _).
      now destruct (process_start_unregistered os_spawn command m _ _ Hcmd Hstart).
Qed.

Lemma spawn_failure_never_running_witness :
  let command := [py "no-such-program"] in
  let started := ProcessHandler.start Examples.os_not_found (ProcessHandler.init command) in
  ProcessHandler.state (snd started) = py "error" /\
  ProcessManager.processes
    (snd (ProcessManager.process_start Examples.os_not_found command ProcessManager.init)) = [].
Proof.
  pose proof (proj1 (spawn_failure_never_running Examples.os_not_found
                       [py "no-such-program"] ProcessManager.init
                       ltac:(discriminate)) eq_refl) as H.
  exact (conj (proj1 (proj2 (proj2 H)))
              (proj2 (proj2 (proj2 (proj2 (proj2 (proj2 H))))))).
Defined.

Example start_not_found :
  fst (ProcessManager.process_start Examples.os_not_found [py "no-such-program"]
         ProcessManager.init) =
    (py "failed: Command not found: [Errno 2] No such file or directory: no-such-program",
     None).
Proof. reflexivity. Qed.

(** ** The dictionary *)

Lemma dict_get_app {V} (k : Z) (d1 d2 : Dict.t V) :
  ~ In k (Dict.keys d1) -> Dict.get k (d1 ++ d2) = Dict.get k d2.
Proof.
  induction d1 as [|[k' v'] d1 IH]; simpl; [reflexivity|]. intros Hk.
  destruct (Z.eqb_spec k k') as [->|_]; [tauto|]. apply IH. tauto.
Qed.

Lemma dict_set_app {V} (k : Z) (v : V) (d1 d2 : Dict.t V) :
  ~ In k (Dict.keys d1) -> Dict.set k v (d1 ++ d2) = d1 ++ Dict.set k v d2.
Proof.
  induction d1 as [|[k' v'] d1 IH]; simpl; [reflexivity|]. intros Hk.
  destruct (Z.eqb_spec k k') as [->|_]; [tauto|]. f_equal. apply IH. tauto.
Qed.

Lemma dict_keys_app {V} (d1 d2 : Dict.t V) :
  Dict.keys (d1 ++ d2) = Dict.keys d1 ++ Dict.keys d2.
Proof. apply List.map_app. Qed.

Lemma dict_get_map {V} (f : V -> V) (k : Z) (v : V) (d : Dict.t V) :
  Dict.wf d -> In (k, v) d ->
  Dict.get k (List.map (fun '(k, v) => (k, f v)) d) = Some (f v).
Proof.
  unfold Dict.wf. induction d as [|[k' v'] d IH]; simpl; [tauto|].
  intros Hwf [Hin|Hin].
  - injection Hin as -> ->. now rewrite Z.eqb_refl.
  - apply NoDup_cons in Hwf as [Hk' Hwf].
    destruct (Z.eqb_spec k k') as [->|_]; [|now apply IH].
    exfalso. apply Hk'. apply list_elem_of_In.
    change k' with (fst (k', v)). now apply List.in_map.
Qed.

(** ** Killing every running session *)

Lemma kill_result (timeout : nat) (h : ProcessHandler.t) :
  fst (ProcessHandler.kill timeout h) = py "success" \/
  exists msg, fst (ProcessHandler.kill timeout h) = py "failed: " ++ msg.
Proof.
  unfold ProcessHandler.kill.
  destruct (ProcessHandler.process h) as [p|]; [|right; eexists; reflexivity].
  destruct (negb _); [right; eexists; reflexivity|].
  destruct (Popen.kill p) as [e|p']; [right; eexists; reflexivity|].
  destruct (Popen.returncode _); [now left|right; eexists; reflexivity].
Qed.

(** ["failed" in result] tells a failed [kill] from a successful one. *)
Lemma kill_failed_test (timeout : nat) (h : ProcessHandler.t) :
  str_in (py "failed") (fst (ProcessHandler.kill timeout h)) =
    negb (bool_decide (fst (ProcessHandler.kill timeout h) = py "success")).
Proof.
  destruct (kill_result timeout h) as [->|[msg ->]].
  - reflexivity.
  - rewrite bool_decide_eq_false_2 by (vm_compute; discriminate).
    change (py "failed: " ++ msg) with (py "failed" ++ (py ": " ++ msg)).
    apply str_in_prefix.
Qed.

Lemma all_kill_loop (timeout : nat) (todo : Dict.t ProcessHandler.t) :
  forall (done : Dict.t ProcessHandler.t) (errors : list pystr) (l : nat)
         (c : list ProcessManager.call),
  Dict.wf (done ++ todo) ->
  ProcessManager.for_each todo
    (fun '(pid, handler) errors =>
       if bool_decide (ProcessHandler.state handler = py "running") then
         ProcessManager.bind
           (ProcessManager.call_method ProcessManager.OpKill pid
              (ProcessHandler.kill timeout) handler)
           (fun result =>
              if str_in (py "failed") result
              then ProcessManager.ret (errors ++ [ProcessManager.pid_entry pid result])
              else ProcessManager.ret errors)
       else ProcessManager.ret errors)
    errors
    {| ProcessManager.processes := done ++ todo; ProcessManager.lock := l;
       ProcessManager.calls := c |} =
  (errors ++ kill_failures timeout todo,
   {| ProcessManager.processes := done ++ after_kill_all timeout todo;
      ProcessManager.lock := l;
      ProcessManager.calls := c ++ kill_calls l todo |}).
Proof.
  induction todo as [|[pid h] todo IH]; intros done errors l c Hwf.
  - simpl. unfold ProcessManager.ret, kill_failures, kill_calls. simpl.
    now rewrite !app_nil_r.
  - assert (Hpid : ~ In pid (Dict.keys done)).
    { unfold Dict.wf in Hwf. rewrite dict_keys_app in Hwf.
      apply NoDup_app in Hwf as (_ & Hdisj & _). intros Hin.
      apply (Hdisj pid); [now apply list_elem_of_In|]. simpl. constructor. }
    assert (Hwf' : forall h', Dict.wf ((done ++ [(pid, h')]) ++ todo)).
    { intros h'. unfold Dict.wf in *. rewrite <- app_assoc.
      rewrite dict_keys_app in *. exact Hwf. }
    cbn [ProcessManager.for_each]. unfold ProcessManager.bind at 1.
    unfold kill_failures, failing_kills, kill_calls, after_kill_all.
    cbn [List.filter List.map]. fold (is_running h).
    unfold is_running at 1.
    destruct (bool_decide (ProcessHandler.state h = py "running")) eqn:Hrun.
    + unfold ProcessManager.bind at 1, ProcessManager.call_method,
        ProcessManager.record_call.
      unfold ProcessManager.bind at 1.
      pose proof (kill_failed_test timeout h) as Htest.
      destruct (ProcessHandler.kill timeout h) as [result h'] eqn:Hkill.
      cbn [fst snd ProcessManager.processes ProcessManager.lock ProcessManager.calls]
        in Htest |- *.
      rewrite Htest.
      rewrite dict_get_app by exact Hpid. cbn [Dict.get]. rewrite Z.eqb_refl.
      rewrite dict_set_app by exact Hpid. cbn [Dict.set]. rewrite Z.eqb_refl.
      unfold is_running. rewrite Hrun. cbn [andb].
      change (done ++ (pid, h') :: todo) with (done ++ [(pid, h')] ++ todo).
      rewrite app_assoc.
      destruct (bool_decide (result = py "success")); cbn [negb];
        unfold ProcessManager.ret at 1; rewrite IH by apply Hwf';
        unfold kill_failures, failing_kills, kill_calls, after_kill_all;
        cbn [List.map]; rewrite ?Hkill; cbn [fst snd];
        rewrite <- !app_assoc; reflexivity.
    + unfold ProcessManager.ret at 1.
      unfold is_running. rewrite Hrun. cbn [andb].
      change (done ++ (pid, h) :: todo) with (done ++ [(pid, h)] ++ todo).
      rewrite app_assoc. rewrite IH by apply Hwf'.
      unfold kill_failures, failing_kills, kill_calls, after_kill_all.
      rewrite <- !app_assoc. reflexivity.
Qed.

Lemma all_kill_eq (timeout : nat) (m : ProcessManager.t) :
  Dict.wf (ProcessManager.processes m) ->
  ProcessManager.all_kill timeout m =
    (ProcessManager.aggregate (kill_failures timeout (ProcessManager.processes m)),
     {| ProcessManager.processes := after_kill_all timeout (ProcessManager.processes m);
        ProcessManager.lock := ProcessManager.lock m;
        ProcessManager.calls :=
          ProcessManager.calls m ++
            kill_calls (S (ProcessManager.lock m)) (ProcessManager.processes m) |}).
Proof.
  intros Hwf. destruct m as [d l c]. simpl in Hwf |- *.
  unfold ProcessManager.all_kill, ProcessManager.with_lock, ProcessManager.items.
  unfold ProcessManager.bind at 1. unfold ProcessManager.bind at 1.
  unfold ProcessManager.acquire. unfold ProcessManager.bind at 1.
  unfold ProcessManager.bind at 1.
  cbn [ProcessManager.processes ProcessManager.lock ProcessManager.calls].
  pose proof (all_kill_loop timeout d [] [] (S l) c Hwf) as Hloop.
  cbn [app] in Hloop. rewrite Hloop.
  reflexivity.
Qed.

(** C7.  [all_kill] calls [kill] on every session that is "running",
    whatever the earlier kills returned, and on no other session; it
    returns "success" exactly when none of these kills failed, and otherwise
    "failed: " followed by the descriptions "PID <id>: <failure>" of all the
    sessions whose kill failed, joined by "; ". *)
Theorem all_kill_aggregates (timeout : nat) (m : ProcessManager.t) :
  Dict.wf (ProcessManager.processes m) ->
  let result := fst (ProcessManager.all_kill timeout m) in
  let m' := snd (ProcessManager.all_kill timeout m) in
  let failing := failing_kills timeout (ProcessManager.processes m) in
  (forall pid h, In (pid, h) (ProcessManager.processes m) ->
     ProcessHandler.state h = py "running" ->
     Dict.get pid (ProcessManager.processes m') =
       Some (snd (ProcessHandler.kill timeout h)) /\
     In {| ProcessManager.call_op := ProcessManager.OpKill;
           ProcessManager.call_pid := Some pid;
           ProcessManager.lock_held := S (ProcessManager.lock m) |}
        (ProcessManager.calls m')) /\
  (forall pid h, In (pid, h) (ProcessManager.processes m) ->
     ProcessHandler.state h <> py "running" ->
     Dict.get pid (ProcessManager.processes m') = Some h) /\
  (forall pid h, In (pid, h) failing <->
     In (pid, h) (ProcessManager.processes m) /\
     ProcessHandler.state h = py "running" /\
     fst (ProcessHandler.kill timeout h) <> py "success") /\
  (result = py "success" <-> failing = []) /\
  (failing <> [] ->
     result = py "failed: " ++
       join (py "; ")
         (List.map (fun '(pid, h) =>
            py "PID " ++ str_of_int pid ++ py ": " ++
            fst (ProcessHandler.kill timeout h)) failing)).
Proof.
  intros Hwf result m' failing. subst result m'.
  rewrite all_kill_eq by exact Hwf. cbn [fst snd ProcessManager.processes
    ProcessManager.calls].
  set (d := ProcessManager.processes m) in *.
  assert (Hfailing : forall pid h, In (pid, h) failing <->
            In (pid, h) d /\ ProcessHandler.state h = py "running" /\
            fst (ProcessHandler.kill timeout h) <> py "success").
  { intros pid h. subst failing. unfold failing_kills.
    rewrite List.filter_In, andb_true_iff, negb_true_iff.
    unfold is_running. rewrite bool_decide_eq_true, bool_decide_eq_false.
    tauto. }
  split; [|split; [|split; [exact Hfailing|split]]].
  - intros pid h Hin Hrun. split.
    + unfold after_kill_all.
      rewrite (dict_get_map
                 (fun h => if is_running h then snd (ProcessHandler.kill timeout h) else h)
                 pid h d Hwf Hin).
      unfold is_running. now rewrite bool_decide_eq_true_2.
    + apply List.in_or_app. right. unfold kill_calls.
      apply (List.in_map (fun '(pid, _) =>
               {| ProcessManager.call_op := ProcessManager.OpKill;
                  ProcessManager.call_pid := Some pid;
                  ProcessManager.lock_held := S (ProcessManager.lock m) |})
               _ (pid, h)).
      apply List.filter_In. split; [exact Hin|].
      unfold is_running. now apply bool_decide_eq_true_2.
  - intros pid h Hin Hrun. unfold after_kill_all.
    rewrite (dict_get_map
               (fun h => if is_running h then snd (ProcessHandler.kill timeout h) else h)
               pid h d Hwf Hin).
    unfold is_running. now rewrite bool_decide_eq_false_2.
  - unfold kill_failures. fold failing.
    destruct failing as [|[pid h] rest]; simpl.
    + split; reflexivity.
    + split; [|discriminate]. eval_literals. simpl. discriminate.
  - intros Hne. unfold kill_failures. fold failing.
    destruct failing as [|[pid h] rest]; [congruence|]. reflexivity.
Qed.

Lemma all_kill_aggregates_witness :
  let m := Examples.manager
             [(7, Examples.sleeper 7 (Some 0%nat)); (8, Examples.sleeper 8 None);
              (9, Examples.sleeper 9 (Some 2%nat))] in
  Dict.wf (ProcessManager.processes m) /\
  (fst (ProcessManager.all_kill 5 m) = py "success" <->
   failing_kills 5 (ProcessManager.processes m) = []).
Proof.
  assert (Hwf : Dict.wf [(7, Examples.sleeper 7 (Some 0%nat));
                         (8, Examples.sleeper 8 None);
                         (9, Examples.sleeper 9 (Some 2%nat))]).
  { unfold Dict.wf. simpl. apply (bool_decide_unpack _). vm_compute. exact I. }
  split; [exact Hwf|].
  exact (proj1 (proj2 (proj2 (proj2
    (all_kill_aggregates 5
       (Examples.manager
          [(7, Examples.sleeper 7 (Some 0%nat)); (8, Examples.sleeper 8 None);
           (9, Examples.sleeper 9 (Some 2%nat))]) Hwf))))).
Defined.

Example all_kill_goes_on_after_a_failure :
  let m := Examples.manager
             [(7, Examples.sleeper 7 (Some 0%nat)); (8, Examples.sleeper 8 None);
              (9, Examples.sleeper 9 (Some 2%nat))] in
  fst (ProcessManager.all_kill 5 m) =
    py "failed: PID 8: failed: Process did not terminate within timeout" /\
  List.map (fun '(pid, h) => (pid, ProcessHandler.state h))
    (ProcessManager.processes (snd (ProcessManager.all_kill 5 m))) =
    [(7, py "completed"); (8, py "running"); (9, py "completed")].
Proof. vm_compute. split; reflexivity. Qed.

(** ** The registry lock *)

(** C10, the claim as it stands fails: [process_kill] calls the session's
    [kill] inside [with self.lock]; here the process takes three polling
    intervals to die and the registry lock is held throughout. *)
Lemma process_kill_polls_under_lock :
  let m := Examples.manager [(7, Examples.sleeper 7 (Some 3%nat))] in
  let '(result, m') := ProcessManager.process_kill 7 50 m in
  result = py "success" /\
  ProcessManager.calls m' =
    [{| ProcessManager.call_op := ProcessManager.OpKill;
        ProcessManager.call_pid := Some 7;
        ProcessManager.lock_held := 1 |}] /\
  ~ Forall (fun c => ProcessManager.lock_held c = 0%nat) (ProcessManager.calls m').
Proof.
  vm_compute. repeat split.
  intros H. inversion H; discriminate.
Qed.

(** C10 (amended).  Every per-id operation on a registered id takes the
    registry lock, looks the session up and calls the session's method
    with the lock still held, one level deeper than on entry; the lock is
    back at its entry depth on return.  [all_kill] makes each of its calls
    of [kill] with the lock held in the same way.  Only [process_start]
    calls the session (its [start]) outside the lock. *)
Theorem registry_lock_held_during_delegation (rt : PyRuntime)
    (m : ProcessManager.t) (pid : Z) (h : ProcessHandler.t) (timeout : nat)
    (text : pystr) (n : Z) (search_type : pystr) (pattern : option pystr)
    (os_spawn : list pystr -> spawn_result) (command : list pystr) :
  Dict.wf (ProcessManager.processes m) ->
  Dict.get pid (ProcessManager.processes m) = Some h ->
  ProcessManager.known_search_type search_type = true ->
  ProcessManager.empty_pattern pattern = false ->
  command <> [] ->
  let held op m' :=
    ProcessManager.calls m' =
      ProcessManager.calls m ++
        [{| ProcessManager.call_op := op; ProcessManager.call_pid := Some pid;
            ProcessManager.lock_held := S (ProcessManager.lock m) |}] /\
    ProcessManager.lock m' = ProcessManager.lock m in
  held ProcessManager.OpGetStatus (snd (ProcessManager.process_status pid m)) /\
  held ProcessManager.OpKill (snd (ProcessManager.process_kill pid timeout m)) /\
  held ProcessManager.OpSendLine (snd (ProcessManager.stdio_send_line pid text m)) /\
  held ProcessManager.OpSendChars (snd (ProcessManager.stdio_send_chars pid text m)) /\
  held ProcessManager.OpGetOutputLines (snd (ProcessManager.stdio_get_lines pid n m)) /\
  held ProcessManager.OpSearchOutput
    (snd (ProcessManager.stdio_search_lines rt pid search_type pattern n m)) /\
  (let m' := snd (ProcessManager.all_kill timeout m) in
   ProcessManager.calls m' =
     ProcessManager.calls m ++
       kill_calls (S (ProcessManager.lock m)) (ProcessManager.processes m) /\
   ProcessManager.lock m' = ProcessManager.lock m) /\
  (let m' := snd (ProcessManager.process_start os_spawn command m) in
   ProcessManager.calls m' =
     ProcessManager.calls m ++
       [{| ProcessManager.call_op := ProcessManager.OpStart;
           ProcessManager.call_pid := None;
           ProcessManager.lock_held := ProcessManager.lock m |}] /\
   ProcessManager.lock m' = ProcessManager.lock m).
Proof.
  intros Hwf Hget Hknown Hpat Hcmd held. subst held.
  pose proof (all_kill_eq timeout m Hwf) as Hall.
  destruct m as [d l c]. simpl in Hget. simpl.
  repeat apply conj.
  all: try (rewrite Hall; reflexivity).
  all: try (run_manager; rewrite Hget; simpl;
            try rewrite Hknown, Hpat; simpl;
            repeat (destruct (ProcessHandler.get_status _)
                    || destruct (ProcessHandler.kill _ _)
                    || destruct (ProcessHandler.send_line _ _)
                    || destruct (ProcessHandler.send_chars _ _));
            simpl; reflexivity).
  all: destruct command as [|arg args]; [congruence|];
    run_manager;
    destruct (ProcessHandler.start _ _) as [[status [p|]] h'];
    destruct (str_in _ status); reflexivity.
Qed.

Lemma registry_lock_held_during_delegation_witness :
  let m := Examples.manager [(7, Examples.sleeper 7 (Some 3%nat))] in
  ProcessManager.calls (snd (ProcessManager.process_kill 7 50 m)) =
    ProcessManager.calls m ++
      [{| ProcessManager.call_op := ProcessManager.OpKill;
          ProcessManager.call_pid := Some 7;
          ProcessManager.lock_held := 1 |}] /\
  ProcessManager.lock (snd (ProcessManager.process_kill 7 50 m)) = 0%nat.
Proof.
  exact (proj1 (proj2
    (registry_lock_held_during_delegation Examples.rt
       (Examples.manager [(7, Examples.sleeper 7 (Some 3%nat))])
       7 (Examples.sleeper 7 (Some 3%nat)) 50 [] 5 (py "string") (Some (py "x"))
       (Examples.os_sleeper 8 None) Examples.sleep_10
       ltac:(unfold Dict.wf; simpl; apply (bool_decide_unpack _); vm_compute; exact I)
       eq_refl eq_refl eq_refl ltac:(discriminate)))).
Defined.

(** * Further properties of the code *)

(** ** RingBuffer: eviction and reading *)

Lemma evict_trace (max data_size : Z) (buf : list pystr) :
  forall (cur : Z) (kept : list pystr) (cur' : Z),
  RingBuffer.evict max data_size buf cur = (kept, cur') ->
  exists evicted,
    buf = evicted ++ kept /\
    cur' = cur - bytes_of evicted /\
    (forall pre last, evicted = pre ++ [last] ->
       cur' + byte_len last + data_size > max) /\
    (kept <> [] -> cur' + data_size <= max).
Proof.
  induction buf as [|removed rest IH]; intros cur kept cur' E; simpl in E.
  - inversion E; subst. exists []. unfold bytes_of. simpl.
    repeat split; [lia| |congruence].
    intros pre last H. now destruct pre.
  - destruct (Z.gtb_spec (cur + data_size) max) as [Hgt|Hle].
    + apply IH in E as (evicted & Hbuf & Hcur & Hlast & Hkept).
      exists (removed :: evicted). unfold bytes_of in *. simpl.
      repeat split; [now rewrite Hbuf|lia| |exact Hkept].
      intros pre last Hpre. destruct pre as [|x pre]; simpl in Hpre.
      * injection Hpre as Hr He. subst last evicted. simpl in Hcur. lia.
      * injection Hpre as Hr He. subst x evicted. now apply (Hlast pre).
    + inversion E; subst. exists []. unfold bytes_of. simpl.
      repeat split; [lia| |intros _; lia].
      intros pre last H. now destruct pre.
Qed.

Lemma append_unfold (rb : RingBuffer.t) (data : pystr) :
  RingBuffer.append rb data =
    let '(kept, cur) :=
      RingBuffer.evict (RingBuffer.max_size_bytes rb) (booked_size rb data)
        (RingBuffer.buffer rb) (RingBuffer.current_size rb) in
    {| RingBuffer.max_size_bytes := RingBuffer.max_size_bytes rb;
       RingBuffer.buffer := kept ++ [stored_entry rb data];
       RingBuffer.current_size := cur + booked_size rb data |}.
Proof.
  unfold RingBuffer.append, stored_entry, booked_size.
  destruct (byte_len data >? RingBuffer.max_size_bytes rb); reflexivity.
Qed.

Lemma append_capacity (rb : RingBuffer.t) (data : pystr) :
  RingBuffer.max_size_bytes (RingBuffer.append rb data) = RingBuffer.max_size_bytes rb.
Proof.
  rewrite append_unfold. now destruct (RingBuffer.evict _ _ _ _).
Qed.

Lemma append_encodable (rb : RingBuffer.t) (data : pystr) :
  encodable data = true -> encodable_lines rb ->
  encodable_lines (RingBuffer.append rb data).
Proof.
  intros Hdata Hrb. unfold encodable_lines in *. rewrite append_unfold.
  destruct (RingBuffer.evict _ _ _ _) as [kept cur] eqn:E.
  apply evict_trace in E as (evicted & Hbuf & _). cbn [RingBuffer.buffer].
  rewrite Hbuf in Hrb. apply Forall_app in Hrb as [_ Hkept].
  apply Forall_app. split; [exact Hkept|]. constructor; [|constructor].
  unfold stored_entry. destruct (byte_len data >? RingBuffer.max_size_bytes rb);
    [|exact Hdata].
  eapply encodable_suffix; [apply slice_last_suffix|exact Hdata].
Qed.

(** X1.  For an entry and a buffer of lines that [encode] accepts (the
    byte counts of [append] raise on any other), [append] keeps the
    capacity, drops lines from the old end only and in no other order, and
    leaves the new entry (cut to its last [max_size_bytes] characters when it
    is larger than the buffer) as the newest line: it is what [get_lines(1)]
    returns.  The lines of the new buffer are again lines [encode]
    accepts. *)
Theorem append_keeps_order (rb : RingBuffer.t) (data : pystr) :
  encodable data = true ->
  encodable_lines rb ->
  let rb' := RingBuffer.append rb data in
  RingBuffer.max_size_bytes rb' = RingBuffer.max_size_bytes rb /\
  (exists kept,
     RingBuffer.buffer rb' = kept ++ [stored_entry rb data] /\
     kept `suffix_of` RingBuffer.buffer rb) /\
  RingBuffer.get_lines rb' 1 = [stored_entry rb data] /\
  encodable_lines rb'.
Proof.
  intros Hdata Hrb rb'.
  assert (Henc : encodable_lines rb') by now apply append_encodable.
  revert Henc. subst rb'. rewrite append_unfold.
  destruct (RingBuffer.evict _ _ _ _) as [kept cur] eqn:E.
  apply evict_trace in E as (evicted & Hbuf & _).
  intros Henc. split; [reflexivity|]. split; [|split; [|exact Henc]].
  - exists kept. split; [reflexivity|]. now exists evicted.
  - unfold RingBuffer.get_lines. simpl.
    rewrite slice_last_drop by lia. rewrite length_app. simpl.
    replace (length kept + 1 - Z.to_nat 1)%nat with (length kept) by lia.
    now rewrite drop_app_length.
Qed.

Lemma append_keeps_order_witness :
  let rb := fold_left RingBuffer.append [py "ab"; py "c"] (RingBuffer.init 3) in
  RingBuffer.get_lines (RingBuffer.append rb (py "zz")) 1 = [py "zz"].
Proof.
  exact (proj1 (proj2 (proj2
    (append_keeps_order
       (fold_left RingBuffer.append [py "ab"; py "c"] (RingBuffer.init 3)) (py "zz")
       eq_refl ltac:(unfold encodable_lines; vm_compute; repeat constructor))))).
Defined.

(** X2.  On a buffer whose byte count is right, with an entry and lines
    that [encode] accepts, [append] evicts no more than it must: every line
    it drops was dropped because the lines from it on, together with the
    new entry as booked, would not fit; if older lines are kept, they and
    the new entry fit; and when everything fits nothing is dropped and the
    byte count grows by the size of the entry. *)
Theorem append_evicts_only_as_needed (rb : RingBuffer.t) (data : pystr) :
  encodable data = true ->
  encodable_lines rb ->
  RingBuffer.current_size rb = RingBuffer.stored_bytes rb ->
  let rb' := RingBuffer.append rb data in
  let max := RingBuffer.max_size_bytes rb in
  exists evicted kept,
    RingBuffer.buffer rb = evicted ++ kept /\
    RingBuffer.buffer rb' = kept ++ [stored_entry rb data] /\
    RingBuffer.current_size rb' = bytes_of kept + booked_size rb data /\
    (forall pre last, evicted = pre ++ [last] ->
       bytes_of (last :: kept) + booked_size rb data > max) /\
    (kept <> [] -> bytes_of kept + booked_size rb data <= max) /\
    (RingBuffer.stored_bytes rb + booked_size rb data <= max -> evicted = []).
Proof.
  intros _ _ Hsize rb' max. subst rb'. rewrite append_unfold.
  destruct (RingBuffer.evict _ _ _ _) as [kept cur] eqn:E.
  apply evict_trace in E as (evicted & Hbuf & Hcur & Hlast & Hkept).
  assert (Hsum : RingBuffer.stored_bytes rb = bytes_of evicted + bytes_of kept).
  { unfold RingBuffer.stored_bytes, bytes_of. rewrite Hbuf.
    rewrite List.map_app, fold_right_app.
    generalize (List.map byte_len evicted). intros l.
    induction l as [|x l IHl]; simpl; lia. }
  assert (Hcur' : cur = bytes_of kept) by lia.
  exists evicted, kept. simpl. subst cur. fold max in Hlast, Hkept.
  repeat split; auto.
  - lia.
  - intros pre last Hpre. specialize (Hlast pre last Hpre).
    unfold bytes_of in *. simpl. lia.
  - intros Hne. specialize (Hkept Hne). lia.
  - intros Hfit. destruct evicted as [|x evicted] using rev_ind; [reflexivity|].
    specialize (Hlast evicted x eq_refl).
    assert (0 <= bytes_of evicted).
    { unfold bytes_of. clear. induction evicted as [|y l IHl]; simpl; [lia|].
      pose proof (byte_len_nonneg y). lia. }
    assert (bytes_of (evicted ++ [x]) = bytes_of evicted + byte_len x).
    { unfold bytes_of. rewrite List.map_app, fold_right_app. simpl.
      generalize (List.map byte_len evicted). intros l.
      induction l as [|y l IHl]; simpl; lia. }
    lia.
Qed.

Lemma append_evicts_only_as_needed_witness :
  let rb := fold_left RingBuffer.append [py "ab"; py "c"] (RingBuffer.init 3) in
  RingBuffer.current_size rb = RingBuffer.stored_bytes rb /\
  exists evicted kept,
    RingBuffer.buffer rb = evicted ++ kept /\
    RingBuffer.buffer (RingBuffer.append rb (py "zz")) = kept ++ [stored_entry rb (py "zz")].
Proof.
  split; [reflexivity|].
  destruct (append_evicts_only_as_needed
              (fold_left RingBuffer.append [py "ab"; py "c"] (RingBuffer.init 3))
              (py "zz") eq_refl
              ltac:(unfold encodable_lines; vm_compute; repeat constructor)
              eq_refl) as (evicted & kept & H1 & H2 & _).
  exists evicted, kept. exact (conj H1 H2).
Defined.

Example append_evicts_oldest :
  RingBuffer.buffer
    (fold_left RingBuffer.append [py "ab"; py "c"; py "zz"] (RingBuffer.init 3)) =
    [py "c"; py "zz"].
Proof. reflexivity. Qed.

(** X3.  From a buffer that satisfies the invariant, with a positive
    capacity, every sequence of non-empty lines of one-byte characters
    leaves a buffer that satisfies it: [current_size] is the number of bytes
    held and does not exceed the capacity. *)
Theorem appends_keep_invariant (lines : list pystr) (rb : RingBuffer.t) :
  buffer_invariant rb ->
  0 < RingBuffer.max_size_bytes rb ->
  Forall (fun data => data <> [] /\ single_byte data) lines ->
  let rb' := fold_left RingBuffer.append lines rb in
  RingBuffer.get_size rb' = RingBuffer.stored_bytes rb' /\
  RingBuffer.get_size rb' <= RingBuffer.max_size_bytes rb' /\
  RingBuffer.max_size_bytes rb' = RingBuffer.max_size_bytes rb.
Proof.
  intros Hinv Hmax Hlines rb'.
  destruct (appends_invariant_single_byte lines rb Hinv Hmax Hlines) as (H1 & H2 & _).
  fold rb' in H1, H2. unfold RingBuffer.get_size.
  split; [exact H1|]. split; [exact H2|].
  subst rb'. clear. revert rb.
  induction lines as [|data lines IH]; intros rb; [reflexivity|].
  simpl. rewrite IH. apply append_capacity.
Qed.

Lemma appends_keep_invariant_witness :
  let rb' := fold_left RingBuffer.append [py "ab"; py "c"; py "wxyz"] (RingBuffer.init 3) in
  RingBuffer.get_size rb' = RingBuffer.stored_bytes rb' /\
  RingBuffer.get_size rb' <= RingBuffer.max_size_bytes rb' /\
  RingBuffer.max_size_bytes rb' = 3.
Proof.
  apply (appends_keep_invariant [py "ab"; py "c"; py "wxyz"] (RingBuffer.init 3)).
  - unfold buffer_invariant, RingBuffer.stored_bytes. simpl.
    split; [reflexivity|]. split; [lia|constructor].
  - simpl. lia.
  - repeat constructor; try discriminate; vm_compute; reflexivity.
Defined.

(** ** Reading and searching through the session and the registry *)

Lemma get_lines_spec (rb : RingBuffer.t) (n : Z) :
  RingBuffer.get_lines rb n `suffix_of` RingBuffer.buffer rb /\
  (n <= 0 -> RingBuffer.get_lines rb n = RingBuffer.buffer rb) /\
  (0 < n ->
   Z.of_nat (length (RingBuffer.get_lines rb n)) =
     Z.min n (Z.of_nat (length (RingBuffer.buffer rb)))).
Proof.
  unfold RingBuffer.get_lines. destruct (Z.leb_spec n 0) as [Hn|Hn].
  - split; [reflexivity|]. split; [reflexivity|lia].
  - split; [apply slice_last_suffix|]. split; [lia|].
    intros _. now apply slice_last_length.
Qed.

(** X4.  For a registered id, [stdio_get_lines] returns what the session's
    [get_output_lines] returns: the newest lines of the buffer in buffer
    order, all of them when [max_lines <= 0] and the last [max_lines] (all,
    if there are fewer) otherwise; the registry is left as it was. *)
Theorem stdio_get_lines_returns_last (m : ProcessManager.t) (pid : Z)
    (h : ProcessHandler.t) (n : Z) :
  Dict.get pid (ProcessManager.processes m) = Some h ->
  let lines := fst (ProcessManager.stdio_get_lines pid n m) in
  let contents := RingBuffer.buffer (ProcessHandler.buffer h) in
  lines = ProcessHandler.get_output_lines h n /\
  lines `suffix_of` contents /\
  (n <= 0 -> lines = contents) /\
  (0 < n -> Z.of_nat (length lines) = Z.min n (Z.of_nat (length contents))) /\
  ProcessManager.processes (snd (ProcessManager.stdio_get_lines pid n m)) =
    ProcessManager.processes m.
Proof.
  intros Hget lines contents. subst lines contents.
  destruct m as [d l c]. simpl in Hget.
  run_manager. rewrite Hget. simpl.
  unfold ProcessHandler.get_output_lines.
  destruct (get_lines_spec (ProcessHandler.buffer h) n) as (H1 & H2 & H3).
  repeat split; auto.
Qed.

Lemma stdio_get_lines_returns_last_witness :
  let h := Examples.with_lines 7 [py "Alpha"; py "Beta"; py "Gamma"] in
  fst (ProcessManager.stdio_get_lines 7 2 (Examples.manager [(7, h)])) =
    ProcessHandler.get_output_lines h 2.
Proof.
  exact (proj1 (stdio_get_lines_returns_last
                  (Examples.manager
                     [(7, Examples.with_lines 7 [py "Alpha"; py "Beta"; py "Gamma"])])
                  7 (Examples.with_lines 7 [py "Alpha"; py "Beta"; py "Gamma"]) 2
                  eq_refl)).
Defined.

Example get_last_two_lines :
  fst (ProcessManager.stdio_get_lines 7 2
         (Examples.manager
            [(7, Examples.with_lines 7 [py "Alpha"; py "Beta"; py "Gamma"])])) =
    [py "Beta"; py "Gamma"].
Proof. reflexivity. Qed.

Lemma last_matches_sublist (f : pystr -> bool) (l : list pystr) (n : Z) :
  RingBuffer.last_matches (List.filter f l) n `sublist_of` l.
Proof.
  destruct (last_matches_spec (List.filter f l) n) as ([pre Hpre] & _).
  transitivity (List.filter f l); [|apply filter_sublist].
  rewrite Hpre at 2. apply sublist_inserts_l. reflexivity.
Qed.

(** X5.  Whatever the mode, the pattern and the limit, a session's search
    returns either a one-line result that the "ERROR:" test recognises as a
    failure, or a subsequence of the buffer; nothing else can come out.  An
    unknown mode, a pattern that does not compile, an empty wildcard and a
    missing pattern give the former (a missing regex on an empty buffer
    gives the empty list). *)
Theorem search_output_outcome (rt : PyRuntime) (h : ProcessHandler.t)
    (search_type : pystr) (pattern : option pystr) (n : Z) :
  let result := ProcessHandler.search_output rt h search_type pattern n in
  ProcessManager.is_error_result result = true /\ length result = 1%nat \/
  result `sublist_of` RingBuffer.buffer (ProcessHandler.buffer h).
Proof.
  intros result. subst result. unfold ProcessHandler.search_output.
  destruct (bool_decide (search_type = py "string")).
  { destruct pattern as [s|]; [right; apply last_matches_sublist|now left]. }
  destruct (bool_decide (search_type = py "regex")).
  { unfold RingBuffer.search_regex. destruct pattern as [p|].
    - destruct (re_compile rt p); [right; apply last_matches_sublist|now left..].
    - destruct (RingBuffer.buffer (ProcessHandler.buffer h)) eqn:Hb; [|now left].
      right. apply (last_matches_sublist (fun _ => true) [] n). }
  destruct (bool_decide (search_type = py "wildcard")).
  { destruct pattern as [[|c p]|]; [now left|right; apply last_matches_sublist|now left]. }
  now left.
Qed.

Lemma unknown_search_type (search_type : pystr) :
  ProcessManager.known_search_type search_type = false ->
  search_type <> py "string" /\ search_type <> py "regex" /\
  search_type <> py "wildcard".
Proof.
  unfold ProcessManager.known_search_type. intros H.
  apply bool_decide_eq_false in H.
  repeat split; intros ->; apply H; repeat constructor.
Qed.

(** X6.  A search mode other than "string", "regex" and "wildcard" is
    refused at every level and before the pattern is looked at: the session
    and, for a registered id, the registry return the one-line failure
    "ERROR: Invalid search type: <mode>. Must be ...", the search of all
    sessions returns it under id -1, and the manager is left as it was. *)
Theorem unknown_search_type_refused (rt : PyRuntime) (m : ProcessManager.t)
    (pid : Z) (h : ProcessHandler.t) (search_type : pystr)
    (pattern : option pystr) (n : Z) :
  ProcessManager.known_search_type search_type = false ->
  Dict.get pid (ProcessManager.processes m) = Some h ->
  let failure :=
    py "ERROR: Invalid search type: " ++ search_type ++
    py ". Must be 'string', 'regex', or 'wildcard'" in
  ProcessHandler.search_output rt h search_type pattern n = [failure] /\
  ProcessManager.stdio_search_lines rt pid search_type pattern n m = ([failure], m) /\
  ProcessManager.all_search rt search_type pattern n m = ([(-1, [failure])], m) /\
  ProcessManager.is_error_result [failure] = true.
Proof.
  intros Hknown Hget failure. subst failure.
  destruct (unknown_search_type search_type Hknown) as (H1 & H2 & H3).
  destruct m as [d l c]. simpl in Hget.
  split; [|split; [|split]].
  - unfold ProcessHandler.search_output.
    now rewrite !bool_decide_eq_false_2 by assumption.
  - run_manager. rewrite Hget, Hknown. reflexivity.
  - run_manager. rewrite Hknown. reflexivity.
  - reflexivity.
Qed.

Lemma unknown_search_type_refused_witness :
  let m := Examples.manager [(7, Examples.with_lines 7 [py "Alpha"])] in
  ProcessManager.stdio_search_lines Examples.rt 7 (py "fuzzy") None 5 m =
    ([py "ERROR: Invalid search type: fuzzy. Must be 'string', 'regex', or 'wildcard'"],
     m).
Proof.
  exact (proj1 (proj2 (unknown_search_type_refused Examples.rt
    (Examples.manager [(7, Examples.with_lines 7 [py "Alpha"])])
    7 (Examples.with_lines 7 [py "Alpha"]) (py "fuzzy") None 5 eq_refl eq_refl))).
Defined.

Lemma all_search_loop_state (rt : PyRuntime) (search_type : pystr)
    (pattern : option pystr) (n : Z) (d : Dict.t ProcessHandler.t) :
  forall (acc : list (Z * list pystr) * list pystr) (m : ProcessManager.t),
  exists r c,
    ProcessManager.for_each d
      (fun '(pid, handler) '(result, errors) =>
         ProcessManager.bind
           (ProcessManager.call_query ProcessManager.OpSearchOutput pid
              (ProcessHandler.search_output rt handler search_type pattern n))
           (fun matches =>
              if ProcessManager.is_error_result matches
              then ProcessManager.ret
                     (result, errors ++ [ProcessManager.pid_entry pid (hd [] matches)])
              else match matches with
                   | [] => ProcessManager.ret (result, errors)
                   | _ :: _ => ProcessManager.ret (result ++ [(pid, matches)], errors)
                   end))
      acc m =
    (r, {| ProcessManager.processes := ProcessManager.processes m;
           ProcessManager.lock := ProcessManager.lock m;
           ProcessManager.calls := c |}).
Proof.
  induction d as [|[pid h] d IH]; intros [result errors] m.
  - destruct m as [d0 l0 c0]. now exists (result, errors), c0.
  - cbn [ProcessManager.for_each]. unfold ProcessManager.bind at 1.
    unfold ProcessManager.bind at 1, ProcessManager.call_query,
      ProcessManager.record_call, ProcessManager.ret at 1.
    cbn [ProcessManager.bind].
    unfold ProcessManager.bind at 1.
    set (matches := ProcessHandler.search_output rt h search_type pattern n).
    destruct (ProcessManager.is_error_result matches);
      [|destruct matches]; unfold ProcessManager.ret at 1;
      match goal with
      | |- context [ProcessManager.for_each d ?body ?acc ?m0] =>
          destruct (IH acc m0) as (r & c & E);
          replace (ProcessManager.for_each d body acc m0)
            with (r, {| ProcessManager.processes := ProcessManager.processes m;
                        ProcessManager.lock := ProcessManager.lock m;
                        ProcessManager.calls := c |})
            by (symmetry; exact E)
      end; eauto.
Qed.

Lemma all_search_state (rt : PyRuntime) (m : ProcessManager.t)
    (search_type : pystr) (pattern : option pystr) (n : Z) :
  exists r c,
    ProcessManager.all_search rt search_type pattern n m =
      (r, {| ProcessManager.processes := ProcessManager.processes m;
             ProcessManager.lock := ProcessManager.lock m;
             ProcessManager.calls := c |}).
Proof.
  destruct m as [d l c]. unfold ProcessManager.all_search.
  destruct (ProcessManager.known_search_type search_type);
    [|eexists _, _; reflexivity].
  destruct (ProcessManager.empty_pattern pattern); [eexists _, _; reflexivity|].
  cbn [negb].
  unfold ProcessManager.with_lock, ProcessManager.items.
  unfold ProcessManager.bind at 1. unfold ProcessManager.bind at 1.
  unfold ProcessManager.acquire. unfold ProcessManager.bind at 1.
  unfold ProcessManager.bind at 1.
  match goal with
  | |- context [ProcessManager.for_each ?d0 ?body ?acc ?m0] =>
      destruct (all_search_loop_state rt search_type pattern n d0 acc m0)
        as ([result errors] & c1 & ->)
  end.
  unfold ProcessManager.bind, ProcessManager.release, ProcessManager.ret.
  destruct errors; simpl; eexists _, _; reflexivity.
Qed.

(** X7.  Reading never writes: for every id, mode, pattern and limit,
    [stdio_get_lines], [stdio_search_lines] and [all_search] return a
    manager with the registry they were given, every session as it was, and
    the registry lock back at its depth. *)
Theorem reading_leaves_registry (rt : PyRuntime) (m : ProcessManager.t) (pid : Z)
    (search_type : pystr) (pattern : option pystr) (n : Z) :
  let unchanged m' :=
    ProcessManager.processes m' = ProcessManager.processes m /\
    ProcessManager.lock m' = ProcessManager.lock m in
  unchanged (snd (ProcessManager.stdio_get_lines pid n m)) /\
  unchanged (snd (ProcessManager.stdio_search_lines rt pid search_type pattern n m)) /\
  unchanged (snd (ProcessManager.all_search rt search_type pattern n m)).
Proof.
  intros unchanged. subst unchanged. cbn beta.
  destruct m as [d l c].
  split; [|split].
  - run_manager. destruct (Dict.get pid d); now split.
  - run_manager. destruct (Dict.get pid d); [|now split].
    destruct (ProcessManager.known_search_type search_type); [|now split].
    destruct (ProcessManager.empty_pattern pattern); now split.
  - destruct (all_search_state rt {| ProcessManager.processes := d;
        ProcessManager.lock := l; ProcessManager.calls := c |}
        search_type pattern n) as (r & c1 & ->).
    now split.
Qed.

(** ** ProcessHandler: start, input and kill *)

(** X8.  Once [start] has spawned the process, another [start] on the same
    session is refused, whatever the operating system would do: it returns
    "failed: Process already started" and the session, still running the
    first process, is left as it was. *)
Theorem start_twice_refused (os_spawn os_spawn' : list pystr -> spawn_result)
    (command : list pystr) (p : Popen.t) :
  command <> [] ->
  os_spawn command = Spawned p ->
  let h := snd (ProcessHandler.start os_spawn (ProcessHandler.init command)) in
  ProcessHandler.process h = Some p /\
  ProcessHandler.state h = py "running" /\
  ProcessHandler.start os_spawn' h =
    ((py "failed: Process already started", None), h).
Proof.
  intros Hcmd Hspawn h. subst h.
  destruct command as [|arg args]; [congruence|].
  set (h0 := ProcessHandler.init (arg :: args)).
  assert (E : ProcessHandler.start os_spawn h0 =
              ((py "success", Some (Popen.pid p)),
               ProcessHandler.set_processor_alive true
                 (ProcessHandler.set_stop_event false
                    (ProcessHandler.set_state (py "running")
                       (ProcessHandler.set_pid (Some (Popen.pid p))
                          (ProcessHandler.set_process (Some p) h0)))))).
  { unfold ProcessHandler.start. subst h0.
    cbn [ProcessHandler.init ProcessHandler.process ProcessHandler.command].
    rewrite Hspawn. reflexivity. }
  rewrite E. cbn [snd]. split; [reflexivity|]. split; reflexivity.
Qed.

Lemma start_twice_refused_witness :
  let h := Examples.sleeper 7 (Some 0%nat) in
  ProcessHandler.start Examples.os_not_found h =
    ((py "failed: Process already started", None), h).
Proof.
  exact (proj2 (proj2 (start_twice_refused (Examples.os_sleeper 7 (Some 0%nat))
                         Examples.os_not_found Examples.sleep_10
                         (Examples.sleeper_process 7 (Some 0%nat))
                         ltac:(discriminate) eq_refl))).
Defined.

(** X9.  After a spawn that failed the session has no process, so [start]
    may be called again; if the spawn then succeeds the session goes from
    "error" to "running" under the new pid. *)
Theorem start_retry_after_failure (os_spawn os_spawn' : list pystr -> spawn_result)
    (command : list pystr) (p : Popen.t) :
  command <> [] ->
  is_spawned (os_spawn command) = false ->
  os_spawn' command = Spawned p ->
  let h := snd (ProcessHandler.start os_spawn (ProcessHandler.init command)) in
  let '((status, pid), h') := ProcessHandler.start os_spawn' h in
  status = py "success" /\ pid = Some (Popen.pid p) /\
  ProcessHandler.process h' = Some p /\
  ProcessHandler.state_log h' = [py "initialized"; py "error"; py "running"].
Proof.
  intros Hcmd Hfail Hspawn h. subst h.
  destruct (start_spawn_failed os_spawn command Hcmd Hfail) as (detail & -> & _).
  destruct command as [|arg args]; [congruence|].
  unfold ProcessHandler.start.
  cbn [snd ProcessHandler.init ProcessHandler.process ProcessHandler.command
       ProcessHandler.set_error ProcessHandler.set_state].
  rewrite Hspawn. repeat split.
Qed.

Lemma start_retry_after_failure_witness :
  let h := snd (ProcessHandler.start Examples.os_not_found
                  (ProcessHandler.init Examples.sleep_10)) in
  ProcessHandler.state h = py "error" /\
  fst (ProcessHandler.start (Examples.os_sleeper 7 None) h) = (py "success", Some 7).
Proof.
  split; [reflexivity|].
  pose proof (start_retry_after_failure Examples.os_not_found
                (Examples.os_sleeper 7 None) Examples.sleep_10
                (Examples.sleeper_process 7 None)
                ltac:(discriminate) eq_refl eq_refl) as H.
  cbv zeta in H.
  destruct (ProcessHandler.start (Examples.os_sleeper 7 None)
              (snd (ProcessHandler.start Examples.os_not_found
                      (ProcessHandler.init Examples.sleep_10))))
    as [[status pid] h'].
  destruct H as (-> & -> & _). reflexivity.
Defined.

(** X10.  Input is refused unless the session is running: with no process,
    or in any state other than "running", [send_line] and [send_chars]
    return a failure and nothing is written; the session is left as it
    was. *)
Theorem send_refused_unless_running (text : pystr) (h : ProcessHandler.t) :
  ProcessHandler.process h = None \/ ProcessHandler.state h <> py "running" ->
  let refused r :=
    r = (py "failed: No process running", h) \/
    r = (py "failed: Process not in running state", h) in
  refused (ProcessHandler.send_line text h) /\
  refused (ProcessHandler.send_chars text h).
Proof.
  intros Hcond refused. subst refused. cbn beta.
  unfold ProcessHandler.send_line, ProcessHandler.send_chars, ProcessHandler.write_stdin.
  destruct (ProcessHandler.process h) as [p|]; [|split; now left].
  destruct Hcond as [Hcond|Hcond]; [discriminate|].
  rewrite bool_decide_eq_false_2 by exact Hcond. split; now right.
Qed.

Lemma send_refused_unless_running_witness :
  let h := ProcessHandler.init Examples.sleep_10 in
  ProcessHandler.send_line (py "hello") h = (py "failed: No process running", h) \/
  ProcessHandler.send_line (py "hello") h =
    (py "failed: Process not in running state", h).
Proof.
  exact (proj1 (send_refused_unless_running (py "hello")
                  (ProcessHandler.init Examples.sleep_10) (or_introl eq_refl))).
Defined.

Lemma encode_utf8_app (s1 s2 : pystr) :
  encode_utf8 (s1 ++ s2) = encode_utf8 s1 ++ encode_utf8 s2.
Proof. unfold encode_utf8. apply flat_map_app. Qed.

Lemma endswith_newline (line : pystr) :
  endswith [10%N] line = true -> exists l, line = l ++ [10%N].
Proof.
  unfold endswith. change (rev [10%N]) with [10%N].
  destruct (rev line) as [|c r] eqn:Hrev; cbn [startswith]; [discriminate|].
  intros H. apply andb_true_iff in H as [H _]. apply N.eqb_eq in H. subst c.
  exists (rev r). rewrite <- (rev_involutive line), Hrev. reflexivity.
Qed.

(** X11.  On a running session whose process is alive and whose stdin is
    open, for a text [encode] accepts, [send_chars] writes exactly the
    UTF-8 bytes of the text, and [send_line] writes them followed by a
    newline unless the text already ends with one, so that what [send_line]
    writes always ends with a newline; both return "success" and change
    nothing else.  For a text that holds a surrogate both fail with the
    message of the [UnicodeEncodeError], and nothing is written. *)
Theorem send_line_writes_line (text : pystr) (h : ProcessHandler.t) (p : Popen.t) :
  ProcessHandler.process h = Some p ->
  ProcessHandler.state h = py "running" ->
  Popen.stdin_closed p = false ->
  Popen.os p = Popen.Alive ->
  let wrote bytes r :=
    r = (py "success",
         ProcessHandler.set_process
           (Some (Popen.set_stdin false (Popen.stdin_data p ++ bytes) p)) h) in
  (encodable text = true ->
   wrote (encode_utf8 text) (ProcessHandler.send_chars text h) /\
   wrote (encode_utf8 text ++ (if endswith [10%N] text then [] else [10%N]))
         (ProcessHandler.send_line text h) /\
   last (encode_utf8 text ++ (if endswith [10%N] text then [] else [10%N])) =
     Some 10%N) /\
  (encodable text = false ->
   exists e, encode text = inl e /\
     ProcessHandler.send_chars text h = (py "failed: " ++ e, h) /\
     ProcessHandler.send_line text h = (py "failed: " ++ e, h)).
Proof.
  intros Hp Hrun Hopen Halive wrote. subst wrote. cbn beta.
  unfold ProcessHandler.send_line, ProcessHandler.send_chars, ProcessHandler.write_stdin.
  rewrite Hp. rewrite bool_decide_eq_true_2 by exact Hrun. cbn [negb].
  split.
  - intros Henc.
    assert (Hline : encodable (if endswith [10%N] text then text else text ++ [10%N])
                    = true).
    { destruct (endswith [10%N] text); [exact Henc|].
      rewrite encodable_app, Henc. reflexivity. }
    rewrite (encode_encodable _ Henc), (encode_encodable _ Hline).
    unfold Popen.stdin_write. rewrite Hopen, Halive.
    split; [reflexivity|].
    destruct (endswith [10%N] text) eqn:Hend.
    + rewrite app_nil_r. split; [reflexivity|].
      apply endswith_newline in Hend as [l ->].
      rewrite encode_utf8_app. change (encode_utf8 [10%N]) with [10%N].
      apply last_snoc.
    + rewrite encode_utf8_app. split; [reflexivity|]. apply last_snoc.
  - intros Henc. destruct (encode_refused _ Henc) as [e He].
    exists e. split; [exact He|]. rewrite He. split; [reflexivity|].
    destruct (endswith [10%N] text); [now rewrite He|].
    now rewrite (encode_newline _ _ He).
Qed.

Lemma send_line_writes_line_witness :
  ProcessHandler.send_line (py "hello") (Examples.sleeper 7 None) =
    (py "success",
     ProcessHandler.set_process
       (Some (Popen.set_stdin false
                (encode_utf8 (py "hello") ++ [10%N]) (Examples.sleeper_process 7 None)))
       (Examples.sleeper 7 None)).
Proof.
  exact (proj1 (proj2 (proj1 (send_line_writes_line (py "hello") (Examples.sleeper 7 None)
                                (Examples.sleeper_process 7 None)
                                eq_refl eq_refl eq_refl eq_refl) eq_refl))).
Defined.

Example send_chars_lone_surrogate :
  ProcessHandler.send_chars [97; 0xDC80]%N (Examples.sleeper 7 None) =
    (py "failed: 'utf-8' codec can't encode character '\udc80' in position 1: surrogates not allowed",
     Examples.sleeper 7 None).
Proof. reflexivity. Qed.

Example encode_surrogate_run :
  encode (py "0123456789" ++ [0xDEAD; 0xDEAD]%N) =
    inl (py "'utf-8' codec can't encode characters in position 10-11: surrogates not allowed").
Proof. reflexivity. Qed.

Lemma poll_exited (p : Popen.t) (c : Z) :
  Popen.os p = Popen.Exited c -> Popen.returncode p = None ->
  Popen.returncode (Popen.poll p) = Some c /\ Popen.os (Popen.poll p) = Popen.Exited c.
Proof. intros Hos Hrc. unfold Popen.poll. rewrite Hrc, Hos. now split. Qed.

Lemma poll_not_exited (p : Popen.t) :
  (forall c, Popen.os p <> Popen.Exited c) -> Popen.poll p = p.
Proof.
  intros Hos. unfold Popen.poll. destruct (Popen.returncode p); [reflexivity|].
  destruct (Popen.os p) eqn:E; try reflexivity. now destruct (Hos code).
Qed.

Lemma poll_idempotent (p : Popen.t) : Popen.poll (Popen.poll p) = Popen.poll p.
Proof.
  unfold Popen.poll at 2. destruct (Popen.returncode p) eqn:Hrc.
  - unfold Popen.poll. now rewrite Hrc.
  - destruct (Popen.os p) eqn:Hos; try (unfold Popen.poll; now rewrite Hrc, Hos).
    all: reflexivity.
Qed.

(** The polling loop of [kill] on a process that is gone, going or staying. *)
Lemma wait_exit_exited (timeout : nat) (p : Popen.t) (c : Z) :
  Popen.os p = Popen.Exited c -> Popen.returncode p = None ->
  Popen.returncode (Popen.poll (ProcessHandler.wait_exit timeout p)) = Some c.
Proof.
  intros Hos Hrc. destruct (poll_exited p c Hos Hrc) as [Hp _].
  destruct timeout as [|n]; simpl; [exact Hp|].
  rewrite Hp. rewrite poll_idempotent. exact Hp.
Qed.

Lemma wait_exit_dying (timeout : nat) :
  forall (p : Popen.t) (k : nat) (c : Z),
  Popen.os p = Popen.Dying k c -> Popen.returncode p = None ->
  Popen.returncode (Popen.poll (ProcessHandler.wait_exit timeout p)) =
    if (k <? timeout)%nat then Some c else None.
Proof.
  induction timeout as [|n IH]; intros p k c Hos Hrc.
  - simpl. rewrite (poll_not_exited p) by (intros c'; rewrite Hos; discriminate).
    exact Hrc.
  - cbn [ProcessHandler.wait_exit].
    rewrite (poll_not_exited p) by (intros c'; rewrite Hos; discriminate).
    rewrite Hrc. unfold Popen.sleep_tick. rewrite Hos.
    destruct k as [|k'].
    + now apply wait_exit_exited.
    + rewrite (IH _ k' c) by (try reflexivity; exact Hrc).
      reflexivity.
Qed.

Lemma wait_exit_alive (timeout : nat) :
  forall p : Popen.t,
  Popen.os p = Popen.Alive -> Popen.returncode p = None ->
  Popen.returncode (Popen.poll (ProcessHandler.wait_exit timeout p)) = None.
Proof.
  induction timeout as [|n IH]; intros p Hos Hrc.
  - simpl. rewrite (poll_not_exited p) by (intros c'; rewrite Hos; discriminate).
    exact Hrc.
  - cbn [ProcessHandler.wait_exit].
    rewrite (poll_not_exited p) by (intros c'; rewrite Hos; discriminate).
    rewrite Hrc. unfold Popen.sleep_tick. rewrite Hos. now apply IH.
Qed.

(** X12.  With timeouts counted in polls of 0.1 s: [kill] on a session in
    state "running" or "error" whose process is alive signals it once and
    returns "success" exactly when the process is gone within [timeout]
    polls of the signal, and "failed: Process did not terminate within
    timeout" otherwise.  The exit is looked for once more after the loop, so
    a process that dies at once is reported killed even with timeout 0. *)
Theorem kill_succeeds_iff_dies_in_time (timeout : nat) (h : ProcessHandler.t)
    (p : Popen.t) :
  ProcessHandler.process h = Some p ->
  ProcessHandler.state h = py "running" \/ ProcessHandler.state h = py "error" ->
  Popen.os p = Popen.Alive ->
  Popen.returncode p = None ->
  Popen.kill_fault p = None ->
  let result := fst (ProcessHandler.kill timeout h) in
  let h' := snd (ProcessHandler.kill timeout h) in
  (result = py "success" <->
     exists k, Popen.kill_latency p = Some k /\ (k <= timeout)%nat) /\
  (result = py "success" \/
   result = py "failed: Process did not terminate within timeout") /\
  option_map Popen.sigkills (ProcessHandler.process h') = Some (S (Popen.sigkills p)).
Proof.
  intros Hp Hstate Halive Hrc Hfault result h'. subst result h'.
  unfold ProcessHandler.kill. rewrite Hp.
  rewrite bool_decide_eq_true_2
    by (destruct Hstate as [-> | ->]; repeat constructor).
  cbn [negb]. unfold Popen.kill.
  rewrite (poll_not_exited p) by (intros c; rewrite Halive; discriminate).
  rewrite Hrc, Hfault, Halive.
  set (p0 := Popen.set_sigkills (S (Popen.sigkills p)) p).
  assert (Hsig : forall s t,
            Popen.sigkills (Popen.poll (ProcessHandler.wait_exit t (Popen.set_os s p0))) =
              S (Popen.sigkills p)).
  { intros s t. revert s. induction t as [|n IH]; intros s.
    - simpl. unfold Popen.poll. simpl. rewrite Hrc. now destruct s.
    - cbn [ProcessHandler.wait_exit].
      destruct (Popen.returncode (Popen.poll (Popen.set_os s p0))) eqn:E.
      + rewrite poll_idempotent. unfold Popen.poll. simpl. rewrite Hrc. now destruct s.
      + assert (Hpoll : Popen.poll (Popen.set_os s p0) = Popen.set_os s p0).
        { unfold Popen.poll in *. simpl in *. rewrite Hrc in *.
          destruct s; try reflexivity. discriminate. }
        rewrite Hpoll. unfold Popen.sleep_tick. simpl.
        destruct s as [|[|k] c|c]; try apply IH.
        all: apply (IH _). }
  destruct (Popen.kill_latency p) as [[|k]|] eqn:Hlat; cbn [Popen.after_sigkill].
  - rewrite (wait_exit_exited timeout _ (-9)) by (try reflexivity; exact Hrc). cbn [fst snd].
    split; [|split].
    + split; [intros _; exists 0%nat; split; [reflexivity|lia]|reflexivity].
    + now left.
    + cbn [ProcessHandler.process ProcessHandler.set_stop_event
           ProcessHandler.set_state ProcessHandler.set_process option_map].
      f_equal. apply Hsig.
  - rewrite (wait_exit_dying timeout _ k (-9)) by (try reflexivity; exact Hrc).
    destruct (Nat.ltb_spec k timeout) as [Hlt|Hge]; cbn [fst snd].
    + split; [|split].
      * split; [intros _; exists (S k); split; [reflexivity|lia]|reflexivity].
      * now left.
      * cbn [ProcessHandler.process ProcessHandler.set_stop_event
             ProcessHandler.set_state ProcessHandler.set_process option_map].
        f_equal. apply Hsig.
    + split; [|split].
      * split; [intros H; vm_compute in H; discriminate|].
        intros (k' & [= <-] & Hk). lia.
      * now right.
      * cbn [ProcessHandler.process ProcessHandler.set_process option_map].
        f_equal. apply Hsig.
  - rewrite (wait_exit_alive timeout) by (try reflexivity; exact Hrc). cbn [fst snd].
    split; [|split].
    + split; [intros H; vm_compute in H; discriminate|].
      intros (k' & [=] & _).
    + now right.
    + cbn [ProcessHandler.process ProcessHandler.set_process option_map].
      f_equal. apply Hsig.
Qed.

Lemma kill_succeeds_iff_dies_in_time_witness :
  let h := Examples.sleeper 7 (Some 3%nat) in
  fst (ProcessHandler.kill 2 h) = py "success" <->
  exists k, Some 3%nat = Some k /\ (k <= 2)%nat.
Proof.
  exact (proj1 (kill_succeeds_iff_dies_in_time 2 (Examples.sleeper 7 (Some 3%nat))
                  (Examples.sleeper_process 7 (Some 3%nat))
                  eq_refl (or_introl eq_refl) eq_refl eq_refl eq_refl)).
Defined.

Example kill_too_short :
  fst (ProcessHandler.kill 2 (Examples.sleeper 7 (Some 3%nat))) =
    py "failed: Process did not terminate within timeout" /\
  fst (ProcessHandler.kill 3 (Examples.sleeper 7 (Some 3%nat))) = py "success" /\
  fst (ProcessHandler.kill 0 (Examples.sleeper 7 (Some 0%nat))) = py "success".
Proof. repeat split. Qed.

(** X13.  [kill] changes the state of a session only when it succeeds.  It
    returns either "success", and then the state is "completed", the stop
    signal is set and the process has been seen to exit; or a failure
    "failed: ...", and then the state, the stop signal, the buffer, the
    queue and the history of states are as they were, so that the caller may
    try again. *)
Theorem kill_changes_state_only_on_success (timeout : nat) (h : ProcessHandler.t) :
  let result := fst (ProcessHandler.kill timeout h) in
  let h' := snd (ProcessHandler.kill timeout h) in
  result = py "success" /\
    ProcessHandler.state h' = py "completed" /\
    ProcessHandler.stop_event h' = true /\
    exit_status_seen h' <> None /\
    ProcessHandler.buffer h' = ProcessHandler.buffer h
  \/
  (exists msg, result = py "failed: " ++ msg) /\
    ProcessHandler.state h' = ProcessHandler.state h /\
    ProcessHandler.stop_event h' = ProcessHandler.stop_event h /\
    ProcessHandler.buffer h' = ProcessHandler.buffer h /\
    ProcessHandler.io_queue h' = ProcessHandler.io_queue h /\
    ProcessHandler.state_log h' = ProcessHandler.state_log h.
Proof.
  intros result h'. subst result h'. unfold ProcessHandler.kill.
  destruct (ProcessHandler.process h) as [p|];
    [|right; split; [eexists; reflexivity|repeat split]].
  destruct (negb _); [right; split; [eexists; reflexivity|repeat split]|].
  destruct (Popen.kill p) as [e|p'];
    [right; split; [eexists; reflexivity|repeat split]|].
  destruct (Popen.returncode (Popen.poll (ProcessHandler.wait_exit timeout p')))
    as [c|] eqn:Hrc; [|right; split; [eexists; reflexivity|repeat split]].
  left. cbn [fst snd]. repeat split.
  unfold exit_status_seen. simpl. rewrite poll_idempotent, Hrc. discriminate.
Qed.

(** ** ProcessHandler: the capture pipeline *)

(** A turn taken at once is the steps of the thread from the loop test
    back to it (or to its end), with nothing in between. *)
Lemma turn_is_steps (rt : PyRuntime) (h : ProcessHandler.t) :
  ProcessHandler.processor_at h = ProcessHandler.AtLoopTest ->
  let h1 := ProcessHandler.processor_step rt h in
  let h2 := ProcessHandler.processor_step rt h1 in
  let h3 := match ProcessHandler.processor_at h2 with
            | ProcessHandler.AtExitCheck => ProcessHandler.processor_step rt h2
            | _ => h2
            end in
  ProcessHandler.process_output_step rt h =
    ProcessHandler.set_processor_at ProcessHandler.AtLoopTest h3.
Proof.
  destruct h as [cmd proc pid st err buf q stop cl alive pc log].
  cbn [ProcessHandler.processor_at]. intros ->. cbv zeta.
  unfold ProcessHandler.process_output_step, ProcessHandler.processor_step,
    ProcessHandler.check_exit, ProcessHandler.flush_partial_line,
    ProcessHandler.take_item, ProcessHandler.commit_line.
  destruct alive, stop; cbn -[py]; try reflexivity.
  destruct q as [|[source data|detail] rest]; cbn -[py].
  - destruct cl; cbn -[py]; (destruct proc as [p|]; cbn -[py]; [|reflexivity]);
      (destruct (Popen.returncode (Popen.poll p)); cbn -[py]; [|reflexivity]);
      destruct (bool_decide (st = py "running")); reflexivity.
  - destruct (data =? 10)%N; reflexivity.
  - reflexivity.
Qed.

Lemma steps_left_between_turns (h : ProcessHandler.t) :
  between_turns h <-> (steps_left h <= 1)%nat.
Proof.
  unfold between_turns, steps_left.
  destruct (ProcessHandler.processor_alive h), (ProcessHandler.processor_at h);
    split; intros H; try lia; try (now left); try (now right);
    destruct H; discriminate.
Qed.

Lemma steps_left_returned (h : ProcessHandler.t) :
  (steps_left h <= 0)%nat -> ProcessHandler.processor_alive h = false.
Proof.
  unfold steps_left. destruct (ProcessHandler.processor_alive h); [|reflexivity].
  destruct (ProcessHandler.processor_at h); lia.
Qed.

Lemma steps_left_bound (h : ProcessHandler.t) : (steps_left h <= 3)%nat.
Proof.
  unfold steps_left.
  destruct (ProcessHandler.processor_alive h), (ProcessHandler.processor_at h); lia.
Qed.

(** One action of the pipeline on a session whose stop signal is set. *)
Lemma stopped_step (rt : PyRuntime) (a : action) (h : ProcessHandler.t) :
  ProcessHandler.stop_event h = true ->
  pipeline_action a ->
  let h' := perform rt a h in
  ProcessHandler.stop_event h' = true /\
  (steps_left h' <= steps_left h - assembler_steps [a])%nat /\
  ((steps_left h <= 2)%nat -> ProcessHandler.buffer h' = ProcessHandler.buffer h) /\
  (ProcessHandler.buffer h' = ProcessHandler.buffer h \/
   exists line, ProcessHandler.buffer h' =
                  RingBuffer.append (ProcessHandler.buffer h) line) /\
  ((steps_left h <= 1)%nat ->
   ProcessHandler.state h' = ProcessHandler.state h /\
   ProcessHandler.current_line h' = ProcessHandler.current_line h /\
   ProcessHandler.process h' = ProcessHandler.process h /\
   exists put, ProcessHandler.io_queue h' = ProcessHandler.io_queue h ++ put).
Proof.
  intros Hstop Ha.
  assert (Hread : forall h1 : ProcessHandler.t,
    ProcessHandler.state h1 = ProcessHandler.state h /\
    ProcessHandler.processor_alive h1 = ProcessHandler.processor_alive h /\
    ProcessHandler.processor_at h1 = ProcessHandler.processor_at h /\
    ProcessHandler.current_line h1 = ProcessHandler.current_line h /\
    ProcessHandler.buffer h1 = ProcessHandler.buffer h /\
    ProcessHandler.process h1 = ProcessHandler.process h /\
    ProcessHandler.stop_event h1 = ProcessHandler.stop_event h /\
    (exists put, ProcessHandler.io_queue h1 = ProcessHandler.io_queue h ++ put) ->
    ProcessHandler.stop_event h1 = true /\
    (steps_left h1 <= steps_left h - 0)%nat /\
    ((steps_left h <= 2)%nat -> ProcessHandler.buffer h1 = ProcessHandler.buffer h) /\
    (ProcessHandler.buffer h1 = ProcessHandler.buffer h \/
     exists line, ProcessHandler.buffer h1 =
                    RingBuffer.append (ProcessHandler.buffer h) line) /\
    ((steps_left h <= 1)%nat ->
     ProcessHandler.state h1 = ProcessHandler.state h /\
     ProcessHandler.current_line h1 = ProcessHandler.current_line h /\
     ProcessHandler.process h1 = ProcessHandler.process h /\
     exists put, ProcessHandler.io_queue h1 = ProcessHandler.io_queue h ++ put)).
  { intros h1 (R1 & R2 & R3 & R4 & R5 & R6 & R7 & R8).
    split; [congruence|]. split; [unfold steps_left; rewrite R2, R3; lia|].
    split; [intros _; exact R5|]. split; [left; exact R5|].
    intros _. now repeat split. }
  destruct a as [source r|source r| |os_spawn| |timeout| |line|chars];
    try contradiction; cbn [perform]; cbv zeta.
  - apply Hread. exact (proj2 (read_keeps source r h)).
  - apply Hread. exact (proj1 (read_keeps source r h)).
  - change (assembler_steps [Assemble]) with 1%nat.
    unfold ProcessHandler.processor_step, steps_left.
    destruct (ProcessHandler.processor_alive h) eqn:Halive; cbn [negb].
    + destruct (ProcessHandler.processor_at h) eqn:Hat.
      * rewrite Hstop. cbn. rewrite Hstop.
        split; [reflexivity|]. split; [lia|]. split; [reflexivity|].
        split; [now left|]. intros _. do 3 (split; [reflexivity|]).
        exists []. now rewrite app_nil_r.
      * destruct (ProcessHandler.io_queue h) as [|[source data|detail] rest] eqn:Hq.
        -- unfold ProcessHandler.flush_partial_line, ProcessHandler.commit_line.
           destruct (ProcessHandler.current_line h) eqn:Hcl; cbn;
             rewrite ?Halive, ?Hstop;
             (split; [reflexivity|]); (split; [lia|]); (split; [lia|]);
             (split; [|lia]); [now left|right; eexists; reflexivity].
        -- unfold ProcessHandler.take_item, ProcessHandler.commit_line. cbv zeta.
           destruct (data =? 10)%N; cbn; rewrite ?Halive, ?Hstop;
             (split; [reflexivity|]); (split; [lia|]); (split; [lia|]);
             (split; [|lia]); [right; eexists; reflexivity|now left].
        -- cbn. rewrite ?Halive, ?Hstop.
           split; [reflexivity|]. split; [lia|]. split; [lia|].
           split; [now left|lia].
      * unfold ProcessHandler.check_exit.
        destruct (ProcessHandler.process h) as [p|] eqn:Hp.
        -- cbv zeta. destruct (Popen.returncode (Popen.poll p)).
           ++ cbn [ProcessHandler.state ProcessHandler.set_process].
              destruct (bool_decide _);
                cbn [ProcessHandler.io_queue ProcessHandler.set_state
                     ProcessHandler.set_process];
                destruct (ProcessHandler.io_queue h); cbn; rewrite ?Halive, ?Hstop;
                (split; [reflexivity|]); (split; [lia|]);
                (split; [reflexivity|]); (split; [now left|lia]).
           ++ cbn. rewrite ?Halive, ?Hstop.
              split; [reflexivity|]. split; [lia|].
              split; [reflexivity|]. split; [now left|lia].
        -- cbn. rewrite ?Halive, ?Hstop.
           split; [reflexivity|]. split; [lia|].
           split; [reflexivity|]. split; [now left|lia].
    + rewrite Halive. split; [exact Hstop|]. split; [lia|].
      split; [reflexivity|]. split; [now left|].
      intros _. do 3 (split; [reflexivity|]). exists []. now rewrite app_nil_r.
Qed.

Lemma stopped_run (rt : PyRuntime) (actions : list action) :
  forall h : ProcessHandler.t,
  ProcessHandler.stop_event h = true ->
  Forall pipeline_action actions ->
  let h' := perform_all rt actions h in
  ProcessHandler.stop_event h' = true /\
  (steps_left h' <= steps_left h - assembler_steps actions)%nat /\
  ((steps_left h <= 2)%nat -> ProcessHandler.buffer h' = ProcessHandler.buffer h) /\
  (ProcessHandler.buffer h' = ProcessHandler.buffer h \/
   exists line, ProcessHandler.buffer h' =
                  RingBuffer.append (ProcessHandler.buffer h) line) /\
  ((steps_left h <= 1)%nat ->
   ProcessHandler.state h' = ProcessHandler.state h /\
   ProcessHandler.current_line h' = ProcessHandler.current_line h /\
   ProcessHandler.process h' = ProcessHandler.process h /\
   exists put, ProcessHandler.io_queue h' = ProcessHandler.io_queue h ++ put).
Proof.
  unfold perform_all.
  induction actions as [|a actions IH]; intros h Hstop Hpipe.
  - cbn. split; [exact Hstop|]. split; [lia|]. split; [reflexivity|].
    split; [now left|]. intros _. do 3 (split; [reflexivity|]).
    exists []. now rewrite app_nil_r.
  - apply Forall_cons in Hpipe as [Ha Hpipe]. cbn [fold_left].
    destruct (stopped_step rt a h Hstop Ha) as (S1 & S2 & S3 & S4 & S5).
    cbv zeta in S1, S2, S3, S4, S5.
    destruct (IH (perform rt a h) S1 Hpipe) as (I1 & I2 & I3 & I4 & I5).
    cbv zeta in I1, I2, I3, I4, I5.
    assert (Hsteps : assembler_steps (a :: actions) =
                     (assembler_steps [a] + assembler_steps actions)%nat).
    { unfold assembler_steps. cbn [List.filter].
      destruct a; cbn [length]; lia. }
    assert (Hone : (assembler_steps [a] <= 1)%nat)
      by (unfold assembler_steps; destruct a; cbn; lia).
    split; [exact I1|]. split; [lia|]. split; [|split].
    + intros H2. rewrite I3 by lia. now apply S3.
    + destruct (Nat.le_gt_cases (steps_left h) 2) as [H2|H3].
      * left. rewrite I3 by lia. now apply S3.
      * destruct a; try contradiction.
        -- destruct (proj2 (read_keeps source r h)) as (_ & _ & _ & _ & Hb & _).
           cbn [perform] in I4. cbv zeta in Hb. rewrite Hb in I4. exact I4.
        -- destruct (proj1 (read_keeps source r h)) as (_ & _ & _ & _ & Hb & _).
           cbn [perform] in I4. cbv zeta in Hb. rewrite Hb in I4. exact I4.
        -- change (assembler_steps [Assemble]) with 1%nat in S2.
           pose proof (steps_left_bound h).
           rewrite I3 by lia. exact S4.
    + intros H1. destruct (S5 H1) as (T1 & T2 & T3 & [put1 T4]).
      destruct I5 as (U1 & U2 & U3 & [put2 U4]); [lia|].
      split; [congruence|]. split; [congruence|]. split; [congruence|].
      exists (put1 ++ put2). rewrite U4, T4. now rewrite app_assoc.
Qed.

(** X14.  Once the stop signal is set (by a successful [kill] or by
    [cleanup]) the assembler finishes at most the turn it is in.  If it
    stands between two turns, or has returned: whatever the readers still
    put on the queue and however often the assembler is run, the buffer, the
    state, the pending partial line and the process stay as they were, what
    is on the queue is never taken off it, and the first step of the
    assembler ends the thread.  If the signal was set while it was inside a
    turn, that turn may still commit one line, no more, and the thread ends
    within three steps. *)
Theorem stopped_pipeline_captures_nothing (rt : PyRuntime) (actions : list action)
    (h : ProcessHandler.t) :
  ProcessHandler.stop_event h = true ->
  Forall pipeline_action actions ->
  let h' := perform_all rt actions h in
  ProcessHandler.stop_event h' = true /\
  (between_turns h ->
   ProcessHandler.buffer h' = ProcessHandler.buffer h /\
   ProcessHandler.state h' = ProcessHandler.state h /\
   ProcessHandler.current_line h' = ProcessHandler.current_line h /\
   ProcessHandler.process h' = ProcessHandler.process h /\
   (exists put, ProcessHandler.io_queue h' = ProcessHandler.io_queue h ++ put) /\
   ((1 <= assembler_steps actions)%nat -> ProcessHandler.processor_alive h' = false)) /\
  (ProcessHandler.buffer h' = ProcessHandler.buffer h \/
   exists line, ProcessHandler.buffer h' =
                  RingBuffer.append (ProcessHandler.buffer h) line) /\
  ((3 <= assembler_steps actions)%nat -> ProcessHandler.processor_alive h' = false).
Proof.
  intros Hstop Hpipe h'.
  destruct (stopped_run rt actions h Hstop Hpipe) as (R1 & R2 & R3 & R4 & R5).
  fold h' in R1, R2, R3, R4, R5.
  split; [exact R1|]. split; [|split; [exact R4|]].
  - intros Hb. apply steps_left_between_turns in Hb.
    destruct (R5 Hb) as (T1 & T2 & T3 & T4).
    split; [apply R3; lia|]. do 4 (split; [assumption|]).
    intros Hn. apply steps_left_returned. lia.
  - intros Hn. apply steps_left_returned. pose proof (steps_left_bound h). lia.
Qed.

Lemma stopped_pipeline_captures_nothing_witness :
  let h := ProcessHandler.set_stop_event true
             (ProcessHandler.read_output_step (py "stdout")
                (ProcessHandler.ReadByte 72) (Examples.sleeper 7 None)) in
  let actions :=
    [Assemble; ReadInProgress (py "stdout") (ProcessHandler.ReadByte 105); Assemble] in
  ProcessHandler.buffer (perform_all Examples.rt actions h) = ProcessHandler.buffer h.
Proof.
  exact (proj1 (proj1 (proj2 (stopped_pipeline_captures_nothing Examples.rt
    [Assemble; ReadInProgress (py "stdout") (ProcessHandler.ReadByte 105); Assemble]
    (ProcessHandler.set_stop_event true
       (ProcessHandler.read_output_step (py "stdout")
          (ProcessHandler.ReadByte 72) (Examples.sleeper 7 None)))
    eq_refl
    ltac:(repeat constructor))) (or_intror eq_refl))).
Defined.

(** The turn in progress: the assembler has taken "x" and waits on the
    queue when [cleanup] kills the process and sets the stop signal; it
    still flushes the partial line and writes the exit state. *)
Example stop_during_turn :
  let h := perform_all Examples.rt
             [Read (py "stdout") (ProcessHandler.ReadByte 120);
              Assemble; Assemble; Assemble]
             (Examples.sleeper 7 (Some 0%nat)) in
  let h' := perform_all Examples.rt [Cleanup; Assemble; Assemble] h in
  ProcessHandler.processor_at h = ProcessHandler.InQueueGet /\
  ProcessHandler.current_line h = [120%N] /\
  ProcessHandler.stop_event (perform Examples.rt Cleanup h) = true /\
  ProcessHandler.state (perform Examples.rt Cleanup h) = py "running" /\
  RingBuffer.buffer (ProcessHandler.buffer h') = [py "x"] /\
  ProcessHandler.state h' = py "error: Exit code -9" /\
  ProcessHandler.processor_alive h' = false.
Proof. vm_compute. repeat split. Qed.

(** X15.  The assembler turns the bytes of the queue, in the order of their
    arrival and whatever stream each came from, into lines: with bytes
    other than newline followed by a newline at the head of the queue, as
    many turns as there are bytes commit one line to the buffer, the
    decoding of the pending partial line followed by these bytes, newline
    included; the accumulator is empty again, the rest of the queue is
    untouched and the state is unchanged. *)
Theorem assembler_commits_line (rt : PyRuntime) (body : list (pystr * N)) :
  forall (h : ProcessHandler.t) (source : pystr) (rest : list ProcessHandler.io_item),
  ProcessHandler.stop_event h = false ->
  ProcessHandler.processor_alive h = true ->
  Forall (fun unit => snd unit <> 10%N) body ->
  ProcessHandler.io_queue h = queued body ++ ProcessHandler.Data source 10 :: rest ->
  let h' := run_assembler rt (S (length body)) h in
  ProcessHandler.buffer h' =
    RingBuffer.append (ProcessHandler.buffer h)
      (decode_utf8_replace rt
         (ProcessHandler.current_line h ++ List.map snd body ++ [10%N])) /\
  ProcessHandler.current_line h' = [] /\
  ProcessHandler.io_queue h' = rest /\
  ProcessHandler.state h' = ProcessHandler.state h /\
  ProcessHandler.processor_alive h' = true /\
  ProcessHandler.stop_event h' = false.
Proof.
  induction body as [|[src b] body IH]; intros h source rest Hstop Halive Hbody Hq h';
    subst h'.
  - cbn [length run_assembler]. unfold ProcessHandler.process_output_step.
    rewrite Hstop, Halive. cbn [orb negb]. simpl in Hq. rewrite Hq.
    cbn. repeat split; assumption.
  - apply Forall_cons in Hbody as [Hb Hbody]. cbn [snd] in Hb.
    change (run_assembler rt (S (length ((src, b) :: body))) h)
      with (run_assembler rt (S (length body)) (ProcessHandler.process_output_step rt h)).
    set (h1 := ProcessHandler.process_output_step rt h).
    assert (Hh1 : h1 = ProcessHandler.set_current_line
                         (ProcessHandler.current_line h ++ [b])
                         (ProcessHandler.set_io_queue
                            (queued body ++ ProcessHandler.Data source 10 :: rest) h)).
    { subst h1. unfold ProcessHandler.process_output_step.
      rewrite Hstop, Halive. cbn [orb negb]. simpl in Hq. rewrite Hq.
      cbv zeta. apply N.eqb_neq in Hb. cbn [ProcessHandler.current_line
        ProcessHandler.set_io_queue]. now rewrite Hb. }
    assert (Hstop1 : ProcessHandler.stop_event h1 = false)
      by (rewrite Hh1; exact Hstop).
    assert (Halive1 : ProcessHandler.processor_alive h1 = true)
      by (rewrite Hh1; exact Halive).
    assert (Hq1 : ProcessHandler.io_queue h1 =
                  queued body ++ ProcessHandler.Data source 10 :: rest)
      by (rewrite Hh1; reflexivity).
    pose proof (IH h1 source rest Hstop1 Halive1 Hbody Hq1) as HI.
    cbv zeta in HI. destruct HI as (I1 & I2 & I3 & I4 & I5 & I6).
    rewrite I1, I2, I3, I4, I5, I6. rewrite Hh1.
    cbn [ProcessHandler.buffer ProcessHandler.current_line ProcessHandler.state
         ProcessHandler.set_current_line ProcessHandler.set_io_queue List.map snd].
    rewrite <- app_assoc. repeat split.
Qed.

Lemma assembler_commits_line_witness :
  let h := fold_left (fun h r => ProcessHandler.read_output_step (py "stdout") r h)
             [ProcessHandler.ReadByte 72; ProcessHandler.ReadByte 105;
              ProcessHandler.ReadByte 10]
             (Examples.sleeper 7 None) in
  RingBuffer.buffer (ProcessHandler.buffer (run_assembler Examples.rt 3 h)) = [py "Hi" ++ [10%N]].
Proof.
  pose proof (assembler_commits_line Examples.rt
                [(py "stdout", 72%N); (py "stdout", 105%N)]
                (fold_left (fun h r => ProcessHandler.read_output_step (py "stdout") r h)
                   [ProcessHandler.ReadByte 72; ProcessHandler.ReadByte 105;
                    ProcessHandler.ReadByte 10]
                   (Examples.sleeper 7 None))
                (py "stdout") [] eq_refl eq_refl
                ltac:(repeat constructor; discriminate) eq_refl) as H.
  cbv zeta in H. destruct H as [H _].
  cbn [length] in H. cbv zeta. rewrite H. reflexivity.
Defined.

(** X16.  A turn of the assembler that finds the queue empty while the
    process is alive commits the pending partial line, if there is one, as
    a line of its own (a prompt without newline becomes visible), and
    commits nothing otherwise; the session stays in its state and the
    assembler goes on. *)
Theorem idle_turn_flushes_partial_line (rt : PyRuntime) (h : ProcessHandler.t)
    (p : Popen.t) :
  assembler_idle h ->
  ProcessHandler.process h = Some p ->
  Popen.returncode (Popen.poll p) = None ->
  let h' := ProcessHandler.process_output_step rt h in
  ProcessHandler.buffer h' =
    match ProcessHandler.current_line h with
    | [] => ProcessHandler.buffer h
    | _ :: _ =>
        RingBuffer.append (ProcessHandler.buffer h)
          (decode_utf8_replace rt (ProcessHandler.current_line h))
    end /\
  ProcessHandler.current_line h' = [] /\
  ProcessHandler.state h' = ProcessHandler.state h /\
  ProcessHandler.io_queue h' = [] /\
  ProcessHandler.processor_alive h' = true.
Proof.
  intros (Hstop & Halive & Hq) Hp Hrc h'. subst h'.
  unfold ProcessHandler.process_output_step, ProcessHandler.commit_line.
  rewrite Hstop, Halive, Hq. cbn [orb negb].
  destruct (ProcessHandler.current_line h) eqn:Hcl; cbn; rewrite Hp; cbn;
    rewrite Hrc; cbn; repeat split; assumption.
Qed.

Lemma idle_turn_flushes_partial_line_witness :
  let h := run_assembler Examples.rt 2
             (fold_left (fun h r => ProcessHandler.read_output_step (py "stdout") r h)
                [ProcessHandler.ReadByte 62; ProcessHandler.ReadByte 32]
                (Examples.sleeper 7 None)) in
  RingBuffer.buffer (ProcessHandler.buffer (ProcessHandler.process_output_step Examples.rt h)) =
    [py "> "].
Proof.
  pose proof (idle_turn_flushes_partial_line Examples.rt
                (run_assembler Examples.rt 2
                   (fold_left (fun h r => ProcessHandler.read_output_step (py "stdout") r h)
                      [ProcessHandler.ReadByte 62; ProcessHandler.ReadByte 32]
                      (Examples.sleeper 7 None)))
                (Examples.sleeper_process 7 None)
                (conj eq_refl (conj eq_refl eq_refl)) eq_refl eq_refl) as H.
  cbv zeta in H. destruct H as [H _]. cbv zeta. rewrite H. reflexivity.
Defined.

(** ** ProcessHandler: status and cleanup *)

Lemma get_status_unfold (h : ProcessHandler.t) :
  exists h1,
    ProcessHandler.buffer h1 = ProcessHandler.buffer h /\
    ProcessHandler.command h1 = ProcessHandler.command h /\
    ProcessHandler.io_queue h1 = ProcessHandler.io_queue h /\
    ProcessHandler.get_status h =
      ({| ProcessHandler.st_command := ProcessHandler.command h1;
          ProcessHandler.st_state := ProcessHandler.state h1;
          ProcessHandler.last_five_lines :=
            let last_output := concat (RingBuffer.get_lines (ProcessHandler.buffer h1) 5) in
            if Z.of_nat (length last_output) >? 300
            then slice_last 300 last_output else last_output |}, h1).
Proof.
  unfold ProcessHandler.get_status.
  destruct (ProcessHandler.process h) as [p|]; [|now exists h].
  destruct (bool_decide (ProcessHandler.state h = py "running")); [|now exists h].
  destruct (Popen.returncode (Popen.poll p)) as [c|].
  - now exists (ProcessHandler.set_state (ProcessHandler.exited_state c)
                  (ProcessHandler.set_process (Some (Popen.poll p)) h)).
  - now exists (ProcessHandler.set_process (Some (Popen.poll p)) h).
Qed.

(** X17.  The status of a session reports its command, its state as it is
    after the liveness check, and a summary that is the end of the output:
    at most 300 characters, the tail of the last five lines of the buffer
    joined together.  The buffer and the queue are not touched. *)
Theorem status_summary_bounded (h : ProcessHandler.t) :
  let st := fst (ProcessHandler.get_status h) in
  let h' := snd (ProcessHandler.get_status h) in
  let contents := RingBuffer.buffer (ProcessHandler.buffer h) in
  ProcessHandler.st_command st = ProcessHandler.command h /\
  ProcessHandler.st_state st = ProcessHandler.state h' /\
  (length (ProcessHandler.last_five_lines st) <= 300)%nat /\
  ProcessHandler.last_five_lines st `suffix_of`
    concat (RingBuffer.get_lines (ProcessHandler.buffer h) 5) /\
  ProcessHandler.last_five_lines st `suffix_of` concat contents /\
  (length (RingBuffer.get_lines (ProcessHandler.buffer h) 5) <= 5)%nat /\
  ProcessHandler.buffer h' = ProcessHandler.buffer h /\
  ProcessHandler.io_queue h' = ProcessHandler.io_queue h.
Proof.
  intros st h' contents. subst st h' contents.
  destruct (get_status_unfold h) as (h1 & Hb & Hc & Hq & ->). cbn [fst snd].
  cbn [ProcessHandler.st_command ProcessHandler.st_state ProcessHandler.last_five_lines].
  rewrite Hb. set (rb := ProcessHandler.buffer h).
  set (out := concat (RingBuffer.get_lines rb 5)).
  destruct (get_lines_spec rb 5) as ([pre Hpre] & _ & Hlen).
  assert (Hsum : (if Z.of_nat (length out) >? 300 then slice_last 300 out else out)
                   `suffix_of` out).
  { destruct (Z.of_nat (length out) >? 300); [apply slice_last_suffix|reflexivity]. }
  split; [exact Hc|]. split; [reflexivity|]. split; [|split; [exact Hsum|split]].
  - cbv zeta. destruct (Z.gtb_spec (Z.of_nat (length out)) 300) as [Hgt|Hle]; [|lia].
    pose proof (slice_last_length 300 out ltac:(lia)). lia.
  - transitivity out; [exact Hsum|].
    exists (concat pre). unfold out. rewrite Hpre at 1. apply concat_app.
  - split; [|split; [reflexivity|exact Hq]].
    specialize (Hlen ltac:(lia)). lia.
Qed.

(** X18.  Asking for the status again, with nothing having happened in
    between, changes nothing: the second call returns the status of the
    first and leaves the session as the first left it.  In particular a
    state that has left "running" is not written again. *)
Theorem get_status_stable (h : ProcessHandler.t) :
  ProcessHandler.get_status (snd (ProcessHandler.get_status h)) =
    ProcessHandler.get_status h.
Proof.
  destruct h as [cmd proc pid st err buf q stop cl alive pc log].
  unfold ProcessHandler.get_status.
  cbn [ProcessHandler.process ProcessHandler.state].
  destruct proc as [p|]; [|reflexivity].
  destruct (bool_decide (st = py "running")) eqn:Hrun;
    [|cbn [snd ProcessHandler.process ProcessHandler.state]; rewrite Hrun; reflexivity].
  destruct (Popen.returncode (Popen.poll p)) as [c|] eqn:Hrc;
    cbn [snd ProcessHandler.process ProcessHandler.state ProcessHandler.set_state
         ProcessHandler.set_process ProcessHandler.command ProcessHandler.buffer
         ProcessHandler.pid ProcessHandler.error ProcessHandler.io_queue
         ProcessHandler.stop_event ProcessHandler.current_line
         ProcessHandler.processor_alive ProcessHandler.processor_at
         ProcessHandler.state_log].
  - rewrite bool_decide_eq_false_2 by apply exited_state_not_running. reflexivity.
  - rewrite Hrun, poll_idempotent, Hrc. reflexivity.
Qed.

(** X19.  [cleanup] may be called in any state: it leaves the state, the
    buffer and the queue alone, sets the stop signal, and closes the stdin
    of the process if there is one, keeping what was written to it.  After
    it no input can be sent: [send_line] and [send_chars] fail and leave
    the session as it is. *)
Theorem cleanup_closes_session (text : pystr) (h : ProcessHandler.t) :
  let h' := ProcessHandler.cleanup h in
  ProcessHandler.state h' = ProcessHandler.state h /\
  ProcessHandler.buffer h' = ProcessHandler.buffer h /\
  ProcessHandler.io_queue h' = ProcessHandler.io_queue h /\
  ProcessHandler.state_log h' = ProcessHandler.state_log h /\
  ProcessHandler.stop_event h' = true /\
  match ProcessHandler.process h, ProcessHandler.process h' with
  | Some p, Some p' =>
      Popen.stdin_closed p' = true /\ Popen.stdin_data p' = Popen.stdin_data p /\
      Popen.pid p' = Popen.pid p
  | None, None => True
  | _, _ => False
  end /\
  (exists msg, ProcessHandler.send_line text h' = (py "failed: " ++ msg, h')) /\
  (exists msg, ProcessHandler.send_chars text h' = (py "failed: " ++ msg, h')).
Proof.
  intros h'.
  assert (Hsend : forall h0 : ProcessHandler.t,
            match ProcessHandler.process h0 with
            | Some p0 => Popen.stdin_closed p0 = true
            | None => True
            end ->
            forall t, exists msg,
              ProcessHandler.write_stdin t h0 = (py "failed: " ++ msg, h0)).
  { intros h0 Hclosed t. unfold ProcessHandler.write_stdin.
    destruct (ProcessHandler.process h0) as [p0|]; [|eexists; reflexivity].
    destruct (negb _); [eexists; reflexivity|].
    destruct (encode t); [eexists; reflexivity|].
    unfold Popen.stdin_write. rewrite Hclosed. eexists; reflexivity. }
  assert (Hpoll : forall p, Popen.stdin_data (Popen.poll p) = Popen.stdin_data p /\
                            Popen.pid (Popen.poll p) = Popen.pid p).
  { intros p. unfold Popen.poll. destruct (Popen.returncode p); [now split|].
    destruct (Popen.os p); now split. }
  assert (Hkill : forall p p', Popen.kill p = inr p' ->
                    Popen.stdin_data p' = Popen.stdin_data p /\
                    Popen.pid p' = Popen.pid p).
  { intros p p'. unfold Popen.kill.
    destruct (Hpoll p) as [H1 H2].
    destruct (Popen.returncode (Popen.poll p)); [intros [= <-]; now split|].
    destruct (Popen.kill_fault (Popen.poll p)); [discriminate|].
    intros [= <-]. now split. }
  assert (Hmain :
    ProcessHandler.state h' = ProcessHandler.state h /\
    ProcessHandler.buffer h' = ProcessHandler.buffer h /\
    ProcessHandler.io_queue h' = ProcessHandler.io_queue h /\
    ProcessHandler.state_log h' = ProcessHandler.state_log h /\
    ProcessHandler.stop_event h' = true /\
    match ProcessHandler.process h, ProcessHandler.process h' with
    | Some p, Some p' =>
        Popen.stdin_closed p' = true /\ Popen.stdin_data p' = Popen.stdin_data p /\
        Popen.pid p' = Popen.pid p
    | None, None => True
    | _, _ => False
    end).
  { subst h'. clear Hsend.
    destruct h as [cmd proc pid st err buf q stop cl alive pc log].
    unfold ProcessHandler.cleanup. cbn [ProcessHandler.process].
    destruct proc as [p|]; [|cbn; now repeat split].
    destruct (Hpoll p) as [P1 P2].
    destruct (Popen.returncode (Popen.poll p)).
    - cbn. repeat split; assumption.
    - destruct (Popen.kill (Popen.poll p)) as [e|p'] eqn:Hk.
      + cbn. repeat split; assumption.
      + destruct (Hkill _ _ Hk) as [K1 K2]. cbn. repeat split; congruence. }
  destruct Hmain as (M1 & M2 & M3 & M4 & M5 & M6).
  repeat (split; [assumption|]).
  assert (Hclosed : match ProcessHandler.process h' with
                    | Some p0 => Popen.stdin_closed p0 = true
                    | None => True
                    end).
  { destruct (ProcessHandler.process h), (ProcessHandler.process h');
      try exact I; try contradiction. now destruct M6. }
  split.
  - unfold ProcessHandler.send_line. apply Hsend, Hclosed.
  - unfold ProcessHandler.send_chars. apply Hsend, Hclosed.
Qed.

(** ** ProcessManager: the registry *)

Lemma dict_get_set_same {V} (k : Z) (v : V) (d : Dict.t V) :
  Dict.get k (Dict.set k v d) = Some v.
Proof.
  induction d as [|[k' v'] d IH]; simpl.
  - now rewrite Z.eqb_refl.
  - destruct (Z.eqb_spec k k') as [->|Hne]; simpl.
    + now rewrite Z.eqb_refl.
    + destruct (Z.eqb_spec k k'); [contradiction|exact IH].
Qed.

Lemma dict_get_set_other {V} (k k' : Z) (v : V) (d : Dict.t V) :
  k' <> k -> Dict.get k' (Dict.set k v d) = Dict.get k' d.
Proof.
  intros Hne. induction d as [|[k0 v0] d IH]; simpl.
  - destruct (Z.eqb_spec k' k); [contradiction|reflexivity].
  - destruct (Z.eqb_spec k k0) as [->|Hk]; simpl.
    + destruct (Z.eqb_spec k' k0); [contradiction|reflexivity].
    + destruct (Z.eqb_spec k' k0); [reflexivity|exact IH].
Qed.

Lemma dict_get_del_other {V} (k k' : Z) (d : Dict.t V) :
  k' <> k -> Dict.get k' (Dict.del k d) = Dict.get k' d.
Proof.
  intros Hne. induction d as [|[k0 v0] d IH]; simpl; [reflexivity|].
  destruct (Z.eqb_spec k k0) as [->|Hk]; simpl.
  - destruct (Z.eqb_spec k' k0); [contradiction|reflexivity].
  - destruct (Z.eqb_spec k' k0); [reflexivity|exact IH].
Qed.

Lemma dict_get_notin {V} (k : Z) (d : Dict.t V) :
  ~ In k (Dict.keys d) -> Dict.get k d = None.
Proof.
  induction d as [|[k0 v0] d IH]; simpl; [reflexivity|]. intros Hk.
  destruct (Z.eqb_spec k k0) as [->|_]; [tauto|]. apply IH. tauto.
Qed.

Lemma dict_get_del_same {V} (k : Z) (d : Dict.t V) :
  Dict.wf d -> Dict.get k (Dict.del k d) = None.
Proof.
  unfold Dict.wf. induction d as [|[k0 v0] d IH]; simpl; [reflexivity|].
  intros Hwf. apply NoDup_cons in Hwf as [Hk0 Hwf].
  destruct (Z.eqb_spec k k0) as [->|Hne]; simpl.
  - apply dict_get_notin. intros Hin. apply Hk0. now apply list_elem_of_In.
  - destruct (Z.eqb_spec k k0); [contradiction|]. now apply IH.
Qed.

Lemma dict_keys_set_present {V} (k : Z) (v v0 : V) (d : Dict.t V) :
  Dict.get k d = Some v0 -> Dict.keys (Dict.set k v d) = Dict.keys d.
Proof.
  revert v0. induction d as [|[k' v'] d IH]; simpl; intros v0; [discriminate|].
  destruct (Z.eqb_spec k k') as [->|Hne]; simpl; [reflexivity|].
  intros H. f_equal. now apply (IH v0).
Qed.

Lemma dict_del_app {V} (k : Z) (d1 d2 : Dict.t V) :
  ~ In k (Dict.keys d1) -> Dict.del k (d1 ++ d2) = d1 ++ Dict.del k d2.
Proof.
  induction d1 as [|[k' v'] d1 IH]; simpl; [reflexivity|]. intros Hk.
  destruct (Z.eqb_spec k k') as [->|_]; [tauto|]. f_equal. apply IH. tauto.
Qed.

Lemma kill_success (timeout : nat) (h : ProcessHandler.t) :
  fst (ProcessHandler.kill timeout h) = py "success" ->
  ProcessHandler.state (snd (ProcessHandler.kill timeout h)) = py "completed" /\
  ProcessHandler.command (snd (ProcessHandler.kill timeout h)) = ProcessHandler.command h /\
  ProcessHandler.process (snd (ProcessHandler.kill timeout h)) <> None.
Proof.
  unfold ProcessHandler.kill.
  destruct (ProcessHandler.process h) as [p|]; [|intros H; vm_compute in H; discriminate].
  destruct (negb _); [intros H; vm_compute in H; discriminate|].
  destruct (Popen.kill p) as [e|p'];
    [intros H; cbn [fst] in H; eval_literals; simpl in H; discriminate|].
  destruct (Popen.returncode _); [|intros H; vm_compute in H; discriminate].
  intros _. now repeat split.
Qed.

Lemma call_registered {A} (op : ProcessManager.session_op) (pid : Z)
    (method : ProcessHandler.t -> A * ProcessHandler.t) (not_found : A)
    (m : ProcessManager.t) (h : ProcessHandler.t) :
  Dict.get pid (ProcessManager.processes m) = Some h ->
  ProcessManager.with_lock
    (ProcessManager.bind (ProcessManager.lookup pid)
       (fun handler =>
          match handler with
          | None => ProcessManager.ret not_found
          | Some h => ProcessManager.call_method op pid method h
          end)) m =
    (fst (method h),
     {| ProcessManager.processes :=
          Dict.set pid (snd (method h)) (ProcessManager.processes m);
        ProcessManager.lock := ProcessManager.lock m;
        ProcessManager.calls :=
          ProcessManager.calls m ++
            [{| ProcessManager.call_op := op; ProcessManager.call_pid := Some pid;
                ProcessManager.lock_held := S (ProcessManager.lock m) |}] |}).
Proof.
  intros Hget. destruct m as [d l c]. simpl in Hget.
  unfold ProcessManager.with_lock, ProcessManager.call_method,
    ProcessManager.record_call, ProcessManager.lookup, ProcessManager.acquire,
    ProcessManager.release, ProcessManager.bind, ProcessManager.ret.
  cbn [ProcessManager.processes ProcessManager.lock ProcessManager.calls].
  rewrite Hget. destruct (method h) as [r h'].
  cbn [fst snd ProcessManager.processes ProcessManager.lock ProcessManager.calls].
  rewrite Hget. reflexivity.
Qed.

Lemma process_kill_registered (m : ProcessManager.t) (pid : Z)
    (h : ProcessHandler.t) (timeout : nat) :
  Dict.get pid (ProcessManager.processes m) = Some h ->
  ProcessManager.process_kill pid timeout m =
    (fst (ProcessHandler.kill timeout h),
     {| ProcessManager.processes :=
          Dict.set pid (snd (ProcessHandler.kill timeout h)) (ProcessManager.processes m);
        ProcessManager.lock := ProcessManager.lock m;
        ProcessManager.calls :=
          ProcessManager.calls m ++
            [{| ProcessManager.call_op := ProcessManager.OpKill;
                ProcessManager.call_pid := Some pid;
                ProcessManager.lock_held := S (ProcessManager.lock m) |}] |}).
Proof. intros Hget. unfold ProcessManager.process_kill. now apply call_registered. Qed.

Lemma process_status_registered (m : ProcessManager.t) (pid : Z)
    (h : ProcessHandler.t) :
  Dict.get pid (ProcessManager.processes m) = Some h ->
  ProcessManager.process_status pid m =
    (fst (ProcessHandler.get_status h),
     {| ProcessManager.processes :=
          Dict.set pid (snd (ProcessHandler.get_status h)) (ProcessManager.processes m);
        ProcessManager.lock := ProcessManager.lock m;
        ProcessManager.calls :=
          ProcessManager.calls m ++
            [{| ProcessManager.call_op := ProcessManager.OpGetStatus;
                ProcessManager.call_pid := Some pid;
                ProcessManager.lock_held := S (ProcessManager.lock m) |}] |}).
Proof. intros Hget. unfold ProcessManager.process_status. now apply call_registered. Qed.

(** X20.  Killing a registered session through the registry and then
    asking for its status: when the session's [kill] succeeds,
    [process_kill] returns "success", the status that follows shows
    "completed" and the session's command, and a second [process_kill] is
    refused with "failed: Process not running". *)
Theorem killed_session_is_completed (m : ProcessManager.t) (pid : Z)
    (h : ProcessHandler.t) (timeout timeout' : nat) :
  Dict.get pid (ProcessManager.processes m) = Some h ->
  fst (ProcessHandler.kill timeout h) = py "success" ->
  let m' := snd (ProcessManager.process_kill pid timeout m) in
  let status := fst (ProcessManager.process_status pid m') in
  fst (ProcessManager.process_kill pid timeout m) = py "success" /\
  ProcessHandler.st_state status = py "completed" /\
  ProcessHandler.st_command status = ProcessHandler.command h /\
  fst (ProcessManager.process_kill pid timeout' m') = py "failed: Process not running".
Proof.
  intros Hget Hok m' status. subst status m'.
  destruct (kill_success timeout h Hok) as (Hst & Hcmd & Hproc).
  rewrite (process_kill_registered m pid h timeout Hget). cbn [fst snd].
  set (hk := snd (ProcessHandler.kill timeout h)) in *.
  set (m1 := {| ProcessManager.processes := Dict.set pid hk (ProcessManager.processes m);
                ProcessManager.lock := ProcessManager.lock m;
                ProcessManager.calls := _ |}).
  assert (Hget1 : Dict.get pid (ProcessManager.processes m1) = Some hk)
    by apply dict_get_set_same.
  rewrite (process_status_registered m1 pid hk Hget1).
  rewrite (process_kill_registered m1 pid hk timeout' Hget1). cbn [fst snd].
  split; [exact Hok|].
  assert (Hstatus : ProcessHandler.st_state (fst (ProcessHandler.get_status hk)) =
                      py "completed" /\
                    ProcessHandler.st_command (fst (ProcessHandler.get_status hk)) =
                      ProcessHandler.command h).
  { unfold ProcessHandler.get_status.
    destruct (ProcessHandler.process hk); [|now rewrite Hst, Hcmd].
    rewrite bool_decide_eq_false_2 by (rewrite Hst; vm_compute; discriminate).
    now rewrite Hst, Hcmd. }
  destruct Hstatus as (Hs2 & Hs3).
  split; [exact Hs2|]. split; [exact Hs3|].
  unfold ProcessHandler.kill.
  destruct (ProcessHandler.process hk); [|contradiction].
  rewrite bool_decide_eq_false_2; [reflexivity|].
  rewrite Hst. intros Hin.
  apply elem_of_cons in Hin as [Hin|Hin];
    [|apply elem_of_cons in Hin as [Hin|Hin]; [|now apply elem_of_nil in Hin]];
    vm_compute in Hin; discriminate.
Qed.

Lemma killed_session_is_completed_witness :
  let m := Examples.manager [(7, Examples.sleeper 7 (Some 0%nat))] in
  ProcessHandler.st_state
    (fst (ProcessManager.process_status 7
            (snd (ProcessManager.process_kill 7 50 m)))) = py "completed".
Proof.
  exact (proj1 (proj2 (killed_session_is_completed
    (Examples.manager [(7, Examples.sleeper 7 (Some 0%nat))])
    7 (Examples.sleeper 7 (Some 0%nat)) 50 50 eq_refl eq_refl))).
Defined.

Lemma start_spawned_handler (os_spawn : list pystr -> spawn_result)
    (command : list pystr) (p : Popen.t) :
  command <> [] ->
  os_spawn command = Spawned p ->
  ProcessHandler.start os_spawn (ProcessHandler.init command) =
    ((py "success", Some (Popen.pid p)),
     ProcessHandler.set_processor_alive true
       (ProcessHandler.set_stop_event false
          (ProcessHandler.set_state (py "running")
             (ProcessHandler.set_pid (Some (Popen.pid p))
                (ProcessHandler.set_process (Some p) (ProcessHandler.init command)))))).
Proof.
  intros Hcmd Hspawn. destruct command as [|arg args]; [congruence|].
  unfold ProcessHandler.start.
  cbn [ProcessHandler.init ProcessHandler.process ProcessHandler.command].
  rewrite Hspawn. reflexivity.
Qed.

(** X21.  After a [process_start] whose spawn succeeded, the session is
    found under the pid returned: its status shows the command it was
    started with, [stdio_get_lines] returns no line yet and not the
    not-found failure, and every other id is registered as before.  If the
    pid was registered already, the entry now holds the new session. *)
Theorem started_session_is_registered (os_spawn : list pystr -> spawn_result)
    (command : list pystr) (p : Popen.t) (m : ProcessManager.t) (n : Z) :
  command <> [] ->
  os_spawn command = Spawned p ->
  let pid := Popen.pid p in
  let m' := snd (ProcessManager.process_start os_spawn command m) in
  fst (ProcessManager.process_start os_spawn command m) = (py "success", Some pid) /\
  (exists h', Dict.get pid (ProcessManager.processes m') = Some h' /\
     ProcessHandler.command h' = command /\
     ProcessHandler.process h' = Some p /\
     ProcessHandler.state h' = py "running") /\
  (forall pid', pid' <> pid ->
     Dict.get pid' (ProcessManager.processes m') =
       Dict.get pid' (ProcessManager.processes m)) /\
  ProcessHandler.st_command (fst (ProcessManager.process_status pid m')) = command /\
  fst (ProcessManager.stdio_get_lines pid n m') = [].
Proof.
  intros Hcmd Hspawn pid m'. subst pid m'.
  pose proof (start_spawned_handler os_spawn command p Hcmd Hspawn) as Hstart.
  destruct (process_start_registered os_spawn command m _ _ Hcmd Hstart) as [Hres Hreg].
  set (h' := ProcessHandler.set_processor_alive true _) in *.
  set (m' := snd (ProcessManager.process_start os_spawn command m)) in *.
  assert (Hget : Dict.get (Popen.pid p) (ProcessManager.processes m') = Some h')
    by (rewrite Hreg; apply dict_get_set_same).
  split; [exact Hres|]. split; [|split; [|split]].
  - exists h'. split; [exact Hget|]. unfold h'. repeat split.
  - intros pid' Hne. rewrite Hreg. now apply dict_get_set_other.
  - rewrite (process_status_registered m' _ h' Hget). cbn [fst].
    destruct (get_status_unfold h') as (h1 & _ & Hc & _ & ->). cbn [fst].
    exact Hc.
  - destruct m' as [d l c]. simpl in Hget.
    unfold ProcessManager.stdio_get_lines, ProcessManager.with_lock,
      ProcessManager.call_query, ProcessManager.record_call, ProcessManager.lookup,
      ProcessManager.acquire, ProcessManager.release, ProcessManager.bind,
      ProcessManager.ret.
    cbn [ProcessManager.processes ProcessManager.lock ProcessManager.calls].
    rewrite Hget. cbn [fst].
    unfold ProcessHandler.get_output_lines, RingBuffer.get_lines.
    unfold h'.
    cbn [ProcessHandler.buffer ProcessHandler.set_processor_alive
         ProcessHandler.set_stop_event ProcessHandler.set_state ProcessHandler.set_pid
         ProcessHandler.set_process ProcessHandler.init RingBuffer.buffer RingBuffer.init].
    destruct (n <=? 0); [reflexivity|].
    apply suffix_nil_inv, slice_last_suffix.
Qed.

Lemma started_session_is_registered_witness :
  let m' := snd (ProcessManager.process_start (Examples.os_sleeper 7 None)
                   Examples.sleep_10 ProcessManager.init) in
  ProcessHandler.st_command (fst (ProcessManager.process_status 7 m')) = Examples.sleep_10.
Proof.
  exact (proj1 (proj2 (proj2 (proj2
    (started_session_is_registered (Examples.os_sleeper 7 None) Examples.sleep_10
       (Examples.sleeper_process 7 None) ProcessManager.init 5
       ltac:(discriminate) eq_refl))))).
Defined.

Lemma process_remove_eq (m : ProcessManager.t) (pid : Z) (h : ProcessHandler.t)
    (timeout : nat) :
  Dict.get pid (ProcessManager.processes m) = Some h ->
  exists d1 c1,
    ProcessManager.process_remove pid timeout m =
      (py "success",
       {| ProcessManager.processes := Dict.del pid d1;
          ProcessManager.lock := ProcessManager.lock m;
          ProcessManager.calls :=
            c1 ++ [{| ProcessManager.call_op := ProcessManager.OpCleanup;
                      ProcessManager.call_pid := Some pid;
                      ProcessManager.lock_held := S (ProcessManager.lock m) |}] |}) /\
    Dict.keys d1 = Dict.keys (ProcessManager.processes m) /\
    (forall pid', pid' <> pid ->
       Dict.get pid' d1 = Dict.get pid' (ProcessManager.processes m)) /\
    (c1 = ProcessManager.calls m /\ ProcessHandler.state h <> py "running" \/
     c1 = ProcessManager.calls m ++
            [{| ProcessManager.call_op := ProcessManager.OpKill;
                ProcessManager.call_pid := Some pid;
                ProcessManager.lock_held := S (ProcessManager.lock m) |}] /\
     ProcessHandler.state h = py "running").
Proof.
  intros Hget. destruct m as [d l c]. simpl in Hget.
  unfold ProcessManager.process_remove, ProcessManager.with_lock,
    ProcessManager.lookup, ProcessManager.acquire.
  unfold ProcessManager.bind at 1. unfold ProcessManager.bind at 1.
  unfold ProcessManager.bind at 1.
  cbn [ProcessManager.processes ProcessManager.lock ProcessManager.calls].
  rewrite Hget.
  destruct (bool_decide (ProcessHandler.state h = py "running")) eqn:Hrun.
  - apply bool_decide_eq_true in Hrun.
    unfold ProcessManager.call_method, ProcessManager.record_call,
      ProcessManager.unregister, ProcessManager.release, ProcessManager.bind,
      ProcessManager.ret.
    cbn [ProcessManager.processes ProcessManager.lock ProcessManager.calls].
    destruct (ProcessHandler.kill timeout h) as [r hk].
    cbn [ProcessManager.processes ProcessManager.lock ProcessManager.calls].
    rewrite Hget.
    cbn [ProcessManager.processes ProcessManager.lock ProcessManager.calls].
    rewrite dict_get_set_same.
    eexists _, _. split; [reflexivity|]. split; [|split].
    + rewrite (dict_keys_set_present pid _ hk) by apply dict_get_set_same.
      now apply (dict_keys_set_present pid _ h).
    + intros pid' Hne. now rewrite !dict_get_set_other.
    + right. now split.
  - apply bool_decide_eq_false in Hrun.
    unfold ProcessManager.call_method, ProcessManager.record_call,
      ProcessManager.unregister, ProcessManager.release, ProcessManager.bind,
      ProcessManager.ret.
    cbn [ProcessManager.processes ProcessManager.lock ProcessManager.calls].
    rewrite Hget.
    eexists _, _. split; [reflexivity|]. split; [|split].
    + now apply (dict_keys_set_present pid _ h).
    + intros pid' Hne. now rewrite dict_get_set_other.
    + left. now split.
Qed.

(** X22.  [process_remove] on a registered id always returns "success",
    also when the kill of a running session fails: [cleanup] is called on
    the session (after [kill], if it was running), the id is no longer
    registered, so that a following per-id operation answers not found, and
    the other entries of the registry are untouched. *)
Theorem process_remove_unregisters (m : ProcessManager.t) (pid : Z)
    (h : ProcessHandler.t) (timeout : nat) :
  Dict.wf (ProcessManager.processes m) ->
  Dict.get pid (ProcessManager.processes m) = Some h ->
  let m' := snd (ProcessManager.process_remove pid timeout m) in
  fst (ProcessManager.process_remove pid timeout m) = py "success" /\
  Dict.get pid (ProcessManager.processes m') = None /\
  (forall pid', pid' <> pid ->
     Dict.get pid' (ProcessManager.processes m') =
       Dict.get pid' (ProcessManager.processes m)) /\
  ProcessManager.lock m' = ProcessManager.lock m /\
  In {| ProcessManager.call_op := ProcessManager.OpCleanup;
        ProcessManager.call_pid := Some pid;
        ProcessManager.lock_held := S (ProcessManager.lock m) |}
     (ProcessManager.calls m') /\
  fst (ProcessManager.process_kill pid timeout m') = py "failed: Process not found".
Proof.
  intros Hwf Hget m'. subst m'.
  destruct (process_remove_eq m pid h timeout Hget) as (d1 & c1 & -> & Hkeys & Hother & _).
  cbn [fst snd ProcessManager.processes ProcessManager.lock ProcessManager.calls].
  assert (Hgone : Dict.get pid (Dict.del pid d1) = None).
  { apply dict_get_del_same. unfold Dict.wf in *. now rewrite Hkeys. }
  split; [reflexivity|]. split; [exact Hgone|]. split; [|split; [reflexivity|split]].
  - intros pid' Hne. rewrite dict_get_del_other by exact Hne. now apply Hother.
  - apply List.in_or_app. right. now left.
  - unfold ProcessManager.process_kill, ProcessManager.with_lock, ProcessManager.lookup,
      ProcessManager.acquire, ProcessManager.release, ProcessManager.bind,
      ProcessManager.ret.
    cbn [ProcessManager.processes]. now rewrite Hgone.
Qed.

Lemma process_remove_unregisters_witness :
  let m := Examples.manager
             [(7, Examples.sleeper 7 None); (8, Examples.sleeper 8 (Some 0%nat))] in
  fst (ProcessManager.process_remove 7 2 m) = py "success" /\
  Dict.get 7 (ProcessManager.processes (snd (ProcessManager.process_remove 7 2 m))) = None.
Proof.
  pose proof (process_remove_unregisters
                (Examples.manager
                   [(7, Examples.sleeper 7 None); (8, Examples.sleeper 8 (Some 0%nat))])
                7 (Examples.sleeper 7 None) 2
                ltac:(unfold Dict.wf; simpl; apply (bool_decide_unpack _); vm_compute; exact I)
                eq_refl) as H.
  exact (conj (proj1 H) (proj1 (proj2 H))).
Defined.

Lemma dict_keys_filter {V} (f : Z * V -> bool) (k : Z) (d : Dict.t V) :
  In k (Dict.keys (List.filter f d)) -> In k (Dict.keys d).
Proof.
  unfold Dict.keys. rewrite !List.in_map_iff.
  intros (e & He & Hin). exists e. split; [exact He|].
  now apply List.filter_In in Hin.
Qed.

Lemma dict_get_filter {V} (f : Z * V -> bool) (k : Z) (d : Dict.t V) :
  Dict.wf d ->
  Dict.get k (List.filter f d) =
    match Dict.get k d with
    | Some v => if f (k, v) then Some v else None
    | None => None
    end.
Proof.
  unfold Dict.wf. induction d as [|[k0 v0] d IH]; simpl; [reflexivity|].
  intros Hwf. apply NoDup_cons in Hwf as [Hk0 Hwf].
  destruct (Z.eqb_spec k k0) as [->|Hne].
  - destruct (f (k0, v0)); simpl; [now rewrite Z.eqb_refl|].
    apply dict_get_notin. intros Hin. apply Hk0.
    apply list_elem_of_In. now apply (dict_keys_filter f).
  - destruct (f (k0, v0)); simpl; [|now apply IH].
    destruct (Z.eqb_spec k k0); [contradiction|now apply IH].
Qed.

Lemma all_remove_loop (todo : Dict.t ProcessHandler.t) :
  forall (done : Dict.t ProcessHandler.t) (errors : list pystr) (l : nat)
         (c : list ProcessManager.call),
  Dict.wf (done ++ todo) ->
  ProcessManager.for_each todo
    (fun '(pid, handler) (errors : list pystr) =>
       if negb (bool_decide (ProcessHandler.state handler = py "running")) then
         ProcessManager.bind
           (ProcessManager.call_method ProcessManager.OpCleanup pid
              (fun h => (tt, ProcessHandler.cleanup h)) handler)
           (fun _ =>
              ProcessManager.bind (ProcessManager.unregister pid)
                (fun _ => ProcessManager.ret errors))
       else ProcessManager.ret errors)
    errors
    {| ProcessManager.processes := done ++ todo; ProcessManager.lock := l;
       ProcessManager.calls := c |} =
  (errors,
   {| ProcessManager.processes := done ++ List.filter (fun '(_, h) => is_running h) todo;
      ProcessManager.lock := l;
      ProcessManager.calls := c ++ cleanup_calls l todo |}).
Proof.
  induction todo as [|[pid h] todo IH]; intros done errors l c Hwf.
  - simpl. unfold ProcessManager.ret, cleanup_calls. simpl. now rewrite !app_nil_r.
  - assert (Hpid : ~ In pid (Dict.keys done)).
    { unfold Dict.wf in Hwf. rewrite dict_keys_app in Hwf.
      apply NoDup_app in Hwf as (_ & Hdisj & _). intros Hin.
      apply (Hdisj pid); [now apply list_elem_of_In|]. simpl. constructor. }
    cbn [ProcessManager.for_each]. unfold ProcessManager.bind at 1.
    unfold cleanup_calls. cbn [List.filter List.map].
    unfold is_running.
    destruct (bool_decide (ProcessHandler.state h = py "running")) eqn:Hrun;
      cbn [negb List.map].
    + unfold ProcessManager.ret at 1.
      change (done ++ (pid, h) :: todo) with (done ++ [(pid, h)] ++ todo).
      rewrite app_assoc. rewrite IH.
      * unfold cleanup_calls, is_running. now rewrite <- !app_assoc.
      * unfold Dict.wf in *. now rewrite <- app_assoc.
    + unfold ProcessManager.bind at 1, ProcessManager.call_method,
        ProcessManager.record_call.
      unfold ProcessManager.bind at 1.
      cbn [ProcessManager.processes ProcessManager.lock ProcessManager.calls].
      rewrite dict_get_app by exact Hpid. cbn [Dict.get]. rewrite Z.eqb_refl.
      rewrite dict_set_app by exact Hpid. cbn [Dict.set]. rewrite Z.eqb_refl.
      unfold ProcessManager.bind at 1, ProcessManager.unregister.
      cbn [ProcessManager.processes ProcessManager.lock ProcessManager.calls].
      rewrite dict_del_app by exact Hpid. cbn [Dict.del]. rewrite Z.eqb_refl.
      unfold ProcessManager.ret at 1. rewrite IH.
      * unfold cleanup_calls, is_running. now rewrite <- !app_assoc.
      * unfold Dict.wf in *. rewrite dict_keys_app in *. simpl in Hwf.
        apply NoDup_app in Hwf as (Hd & Hdisj & Ht).
        apply NoDup_cons in Ht as [_ Ht].
        apply NoDup_app. split; [exact Hd|]. split; [|exact Ht].
        intros x Hx Hin. apply (Hdisj x Hx). now constructor.
Qed.

(** X23.  [all_remove] returns "success" and leaves in the registry exactly
    the sessions that were "running", each as it was and in the order they
    had: an id is registered afterwards if and only if it was registered
    with a running session.  [cleanup] is called, under the registry lock,
    on every session it removes and on no other. *)
Theorem all_remove_keeps_running (m : ProcessManager.t) :
  Dict.wf (ProcessManager.processes m) ->
  let m' := snd (ProcessManager.all_remove m) in
  fst (ProcessManager.all_remove m) = py "success" /\
  ProcessManager.processes m' =
    List.filter (fun '(_, h) => is_running h) (ProcessManager.processes m) /\
  (forall pid,
     Dict.get pid (ProcessManager.processes m') =
       match Dict.get pid (ProcessManager.processes m) with
       | Some h => if is_running h then Some h else None
       | None => None
       end) /\
  ProcessManager.lock m' = ProcessManager.lock m /\
  ProcessManager.calls m' =
    ProcessManager.calls m ++
      cleanup_calls (S (ProcessManager.lock m)) (ProcessManager.processes m).
Proof.
  intros Hwf m'.
  assert (E : ProcessManager.all_remove m =
              (py "success",
               {| ProcessManager.processes :=
                    List.filter (fun '(_, h) => is_running h) (ProcessManager.processes m);
                  ProcessManager.lock := ProcessManager.lock m;
                  ProcessManager.calls :=
                    ProcessManager.calls m ++
                      cleanup_calls (S (ProcessManager.lock m))
                        (ProcessManager.processes m) |})).
  { destruct m as [d l c]. simpl in Hwf |- *.
    unfold ProcessManager.all_remove, ProcessManager.with_lock, ProcessManager.items.
    unfold ProcessManager.bind at 1. unfold ProcessManager.bind at 1.
    unfold ProcessManager.acquire. unfold ProcessManager.bind at 1.
    unfold ProcessManager.bind at 1.
    cbn [ProcessManager.processes ProcessManager.lock ProcessManager.calls].
    pose proof (all_remove_loop d [] [] (S l) c Hwf) as Hloop.
    cbn [app] in Hloop. rewrite Hloop. reflexivity. }
  subst m'. rewrite E. cbn [fst snd ProcessManager.processes ProcessManager.lock
    ProcessManager.calls].
  repeat split.
  intros pid.
  apply (dict_get_filter (fun '(_, h) => is_running h) pid _ Hwf).
Qed.

Lemma all_remove_keeps_running_witness :
  let m := Examples.manager
             [(7, Examples.faulted 7); (8, Examples.sleeper 8 None);
              (9, snd (ProcessHandler.kill 5 (Examples.sleeper 9 (Some 0%nat))))] in
  Dict.keys (ProcessManager.processes (snd (ProcessManager.all_remove m))) = [8].
Proof.
  pose proof (all_remove_keeps_running
                (Examples.manager
                   [(7, Examples.faulted 7); (8, Examples.sleeper 8 None);
                    (9, snd (ProcessHandler.kill 5 (Examples.sleeper 9 (Some 0%nat))))])
                ltac:(unfold Dict.wf; simpl; apply (bool_decide_unpack _); vm_compute; exact I))
    as H.
  cbv zeta in H. destruct H as (_ & H & _). cbv zeta. rewrite H. reflexivity.
Defined.

Lemma process_list_loop (todo : Dict.t ProcessHandler.t) :
  forall (done : Dict.t ProcessHandler.t) (result : list (Z * list pystr * pystr))
         (l : nat) (c : list ProcessManager.call),
  Dict.wf (done ++ todo) ->
  ProcessManager.for_each todo
    (fun '(pid, handler) result =>
       ProcessManager.bind
         (ProcessManager.call_method ProcessManager.OpGetStatus pid
            ProcessHandler.get_status handler)
         (fun status =>
            ProcessManager.ret
              (result ++ [(pid, ProcessHandler.st_command status,
                           ProcessHandler.st_state status)])))
    result
    {| ProcessManager.processes := done ++ todo; ProcessManager.lock := l;
       ProcessManager.calls := c |} =
  (result ++ List.map listed todo,
   {| ProcessManager.processes :=
        done ++ List.map (fun '(pid, h) => (pid, refreshed h)) todo;
      ProcessManager.lock := l;
      ProcessManager.calls := c ++ status_calls l todo |}).
Proof.
  induction todo as [|[pid h] todo IH]; intros done result l c Hwf.
  - simpl. unfold ProcessManager.ret, status_calls. simpl. now rewrite !app_nil_r.
  - assert (Hpid : ~ In pid (Dict.keys done)).
    { unfold Dict.wf in Hwf. rewrite dict_keys_app in Hwf.
      apply NoDup_app in Hwf as (_ & Hdisj & _). intros Hin.
      apply (Hdisj pid); [now apply list_elem_of_In|]. simpl. constructor. }
    cbn [ProcessManager.for_each]. unfold ProcessManager.bind at 1.
    unfold ProcessManager.bind at 1, ProcessManager.call_method,
      ProcessManager.record_call.
    unfold ProcessManager.bind at 1.
    unfold status_calls, listed, refreshed. cbn [List.map fst snd].
    destruct (get_status_unfold h) as (h1 & _ & Hc & _ & ->).
    cbn [fst snd ProcessManager.processes ProcessManager.lock ProcessManager.calls
         ProcessHandler.st_command ProcessHandler.st_state].
    rewrite dict_get_app by exact Hpid. cbn [Dict.get]. rewrite Z.eqb_refl.
    rewrite dict_set_app by exact Hpid. cbn [Dict.set]. rewrite Z.eqb_refl.
    unfold ProcessManager.ret at 1.
    change (done ++ (pid, h1) :: todo) with (done ++ [(pid, h1)] ++ todo).
    rewrite app_assoc. rewrite IH.
    + unfold status_calls, listed, refreshed. rewrite Hc.
      now rewrite <- !app_assoc.
    + unfold Dict.wf in *. rewrite <- app_assoc. rewrite dict_keys_app in *.
      exact Hwf.
Qed.

(** X24.  [process_list] returns one line per registered session, in the
    order of the registry: the id, the command and the state the session
    has after its liveness check.  The registry keeps its ids; each session
    is left as [get_status] leaves it, so that a session whose process has
    exited is listed, and from then on registered, in its final state. *)
Theorem process_list_lists_every_session (m : ProcessManager.t) :
  Dict.wf (ProcessManager.processes m) ->
  let m' := snd (ProcessManager.process_list m) in
  fst (ProcessManager.process_list m) = List.map listed (ProcessManager.processes m) /\
  ProcessManager.processes m' =
    List.map (fun '(pid, h) => (pid, refreshed h)) (ProcessManager.processes m) /\
  Dict.keys (ProcessManager.processes m') = Dict.keys (ProcessManager.processes m) /\
  List.map (fun line => snd line) (fst (ProcessManager.process_list m)) =
    List.map (fun '(_, h) => ProcessHandler.state h) (ProcessManager.processes m') /\
  ProcessManager.lock m' = ProcessManager.lock m.
Proof.
  intros Hwf m'.
  assert (E : ProcessManager.process_list m =
              (List.map listed (ProcessManager.processes m),
               {| ProcessManager.processes :=
                    List.map (fun '(pid, h) => (pid, refreshed h))
                      (ProcessManager.processes m);
                  ProcessManager.lock := ProcessManager.lock m;
                  ProcessManager.calls :=
                    ProcessManager.calls m ++
                      status_calls (S (ProcessManager.lock m))
                        (ProcessManager.processes m) |})).
  { destruct m as [d l c]. simpl in Hwf |- *.
    unfold ProcessManager.process_list, ProcessManager.with_lock, ProcessManager.items.
    unfold ProcessManager.bind at 1. unfold ProcessManager.bind at 1.
    unfold ProcessManager.acquire. unfold ProcessManager.bind at 1.
    cbn [ProcessManager.processes ProcessManager.lock ProcessManager.calls].
    pose proof (process_list_loop d [] [] (S l) c Hwf) as Hloop.
    cbn [app] in Hloop. rewrite Hloop. reflexivity. }
  subst m'. rewrite E. cbn [fst snd ProcessManager.processes ProcessManager.lock].
  split; [reflexivity|]. split; [reflexivity|]. split; [|split; [|reflexivity]].
  - unfold Dict.keys. rewrite List.map_map. apply List.map_ext. now intros [pid h].
  - rewrite !List.map_map. apply List.map_ext. now intros [pid h].
Qed.

Lemma process_list_lists_every_session_witness :
  let m := Examples.manager
             [(7, Examples.sleeper 7 None); (8, Examples.faulted 8)] in
  fst (ProcessManager.process_list m) =
    [(7, Examples.sleep_10, py "running"); (8, Examples.sleep_10, py "error")].
Proof.
  pose proof (process_list_lists_every_session
                (Examples.manager [(7, Examples.sleeper 7 None); (8, Examples.faulted 8)])
                ltac:(unfold Dict.wf; simpl; apply (bool_decide_unpack _); vm_compute; exact I))
    as H.
  cbv zeta in H. destruct H as (H & _). cbv zeta. rewrite H. reflexivity.
Defined.

(** ** The logging helpers *)

Lemma slice_to_take {A} (k : Z) (l : list A) :
  0 <= k -> slice_to k l = take (Z.to_nat k) l.
Proof.
  intros Hk. unfold slice_to. destruct (Z.ltb_spec k 0); [lia|].
  destruct (Z.le_gt_cases k (Z.of_nat (length l))) as [Hle|Hgt].
  - now rewrite Z.min_l.
  - rewrite Z.min_r by lia. rewrite Nat2Z.id.
    rewrite !take_ge by lia. reflexivity.
Qed.

Lemma take_map {A B} (f : A -> B) (n : nat) (l : list A) :
  take n (List.map f l) = List.map f (take n l).
Proof.
  revert n. induction l as [|x l IH]; intros [|n]; simpl; try reflexivity.
  now rewrite IH.
Qed.

Lemma truncate_str (s : pystr) (max_length : Z) :
  3 <= max_length ->
  exists r,
    ProcessHandler.truncate_for_logging (VStr s) max_length = VStr r /\
    Z.of_nat (length r) <= max_length /\
    (Z.of_nat (length s) <= max_length -> r = s) /\
    (max_length < Z.of_nat (length s) ->
     r = take (Z.to_nat (max_length - 3)) s ++ py "..." /\
     Z.of_nat (length r) = max_length).
Proof.
  intros Hmax. cbn [ProcessHandler.truncate_for_logging].
  destruct (Z.gtb_spec (Z.of_nat (length s)) max_length) as [Hgt|Hle].
  - rewrite slice_to_take by lia.
    assert (Hlen : Z.of_nat (length (take (Z.to_nat (max_length - 3)) s ++ py "...")) =
                   max_length).
    { rewrite length_app, length_take. change (length (py "...")) with 3%nat. lia. }
    eexists. split; [reflexivity|]. split; [lia|]. split; [lia|]. now split.
  - exists s. split; [reflexivity|]. split; [exact Hle|]. split; [reflexivity|lia].
Qed.

(** X25.  With [max_length] at least 3 (every call in the source uses the
    default 50), the logging helper of the three classes returns a string
    of at most [max_length] characters: the string itself when it is no
    longer than that, and otherwise its first [max_length - 3] characters
    followed by "...", [max_length] characters in all. *)
Theorem truncate_for_logging_bounds (s : pystr) (max_length : Z) :
  3 <= max_length ->
  let r := RingBuffer.truncate_for_logging (VStr s) max_length in
  ProcessHandler.truncate_for_logging (VStr s) max_length = r /\
  ProcessManager.truncate_for_logging (VStr s) max_length = r /\
  Z.of_nat (logged_length r) <= max_length /\
  (Z.of_nat (length s) <= max_length -> r = VStr s) /\
  (max_length < Z.of_nat (length s) ->
   r = VStr (take (Z.to_nat (max_length - 3)) s ++ py "...") /\
   Z.of_nat (logged_length r) = max_length).
Proof.
  intros Hmax r.
  assert (E : ProcessHandler.truncate_for_logging (VStr s) max_length = r) by reflexivity.
  destruct (truncate_str s max_length Hmax) as (t & Ht & Hlen & Hshort & Hlong).
  rewrite E in Ht. clearbody r.
  split; [exact E|]. split; [exact E|].
  rewrite Ht. cbn [logged_length].
  split; [exact Hlen|]. split.
  - intros H. now rewrite (Hshort H).
  - intros H. destruct (Hlong H) as [-> Hl]. now split.
Qed.

Lemma truncate_for_logging_bounds_witness :
  RingBuffer.truncate_for_logging (VStr (py "a line of output that is long")) 10 =
    VStr (py "a line ...").
Proof.
  destruct (truncate_for_logging_bounds (py "a line of output that is long") 10
              ltac:(lia)) as (_ & _ & _ & _ & H).
  cbv zeta in H. destruct (H ltac:(vm_compute; reflexivity)) as [-> _].
  reflexivity.
Defined.

(** Below 3 the helper lengthens what it is given: [value[:max_length - 3]]
    then counts from the end. *)
Example truncate_for_logging_short_limit :
  RingBuffer.truncate_for_logging (VStr (py "abcd")) 2 = VStr (py "abc...").
Proof. reflexivity. Qed.

(** X26.  A command given to the logging helper of [ProcessHandler] and
    [ProcessManager] comes back as its first five arguments, each shortened
    to at most 50 characters whatever [max_length] is (the items are
    shortened with the default), followed by "..." when arguments were
    dropped: at most six strings of at most 50 characters. *)
Theorem truncate_for_logging_command (items : list pystr) (max_length : Z) :
  let r := ProcessHandler.truncate_for_logging (VList (List.map VStr items)) max_length in
  ProcessManager.truncate_for_logging (VList (List.map VStr items)) max_length = r /\
  r = VList (List.map (fun s => ProcessHandler.truncate_for_logging (VStr s) 50)
               (take 5 items)
             ++ (if Z.of_nat (length items) >? 5 then [VStr (py "...")] else [])) /\
  exists rs, r = VList rs /\ (length rs <= 6)%nat /\
    Forall (fun v => (logged_length v <= 50)%nat /\ exists t, v = VStr t) rs.
Proof.
  intros r. split; [reflexivity|].
  assert (E : r = VList (List.map (fun s => ProcessHandler.truncate_for_logging (VStr s) 50)
                           (take 5 items)
                         ++ (if Z.of_nat (length items) >? 5 then [VStr (py "...")] else []))).
  { subst r. cbn [ProcessHandler.truncate_for_logging].
    rewrite slice_to_take by lia. rewrite List.map_map, take_map.
    rewrite length_map. reflexivity. }
  split; [exact E|]. eexists. split; [exact E|]. split.
  - rewrite length_app, length_map, length_take.
    pose proof (Nat.le_min_r (length items) 5).
    destruct (Z.of_nat (length items) >? 5); cbn [length]; lia.
  - apply Forall_app. split.
    + apply Forall_forall. intros v Hv. apply list_elem_of_In in Hv.
      apply List.in_map_iff in Hv as (s & <- & _).
      destruct (truncate_str s 50 ltac:(lia)) as (t & -> & Hlen & _).
      cbn [logged_length]. split; [lia|now exists t].
    + destruct (Z.of_nat (length items) >? 5); [|constructor].
      constructor; [|constructor]. split; [vm_compute; lia|now eexists].
Qed.

Example truncate_for_logging_long_command :
  ProcessHandler.truncate_for_logging
    (VList (List.map VStr [py "a"; py "b"; py "c"; py "d"; py "e"; py "f"; py "g"])) 50 =
    VList (List.map VStr [py "a"; py "b"; py "c"; py "d"; py "e"; py "..."]).
Proof. reflexivity. Qed.

(** ** ProcessManager: input through the registry *)

(** X27.  For a registered id whose session is running, with its process
    alive and its stdin open, and a text [encode] accepts,
    [stdio_send_line] and [stdio_send_chars] return "success" and the
    process registered under the id has received the bytes: the text in
    UTF-8, with a newline added by [stdio_send_line] unless the text ends
    with one.  The buffer of the session and the other entries of the
    registry are untouched.  For a text that holds a surrogate both return
    the failure of the encoding, and the session registered under the id is
    the one that was: its process has received nothing. *)
Theorem stdio_send_reaches_process (m : ProcessManager.t) (pid : Z)
    (h : ProcessHandler.t) (p : Popen.t) (text : pystr) :
  Dict.get pid (ProcessManager.processes m) = Some h ->
  ProcessHandler.process h = Some p ->
  ProcessHandler.state h = py "running" ->
  Popen.stdin_closed p = false ->
  Popen.os p = Popen.Alive ->
  let received bytes (r : pystr * ProcessManager.t) :=
    fst r = py "success" /\
    (exists h', Dict.get pid (ProcessManager.processes (snd r)) = Some h' /\
       option_map Popen.stdin_data (ProcessHandler.process h') =
         Some (Popen.stdin_data p ++ bytes) /\
       ProcessHandler.buffer h' = ProcessHandler.buffer h /\
       ProcessHandler.state h' = py "running") /\
    (forall pid', pid' <> pid ->
       Dict.get pid' (ProcessManager.processes (snd r)) =
         Dict.get pid' (ProcessManager.processes m)) in
  let refused e (r : pystr * ProcessManager.t) :=
    fst r = py "failed: " ++ e /\
    (forall pid', Dict.get pid' (ProcessManager.processes (snd r)) =
                  Dict.get pid' (ProcessManager.processes m)) in
  (encodable text = true ->
   received (encode_utf8 text) (ProcessManager.stdio_send_chars pid text m) /\
   received (encode_utf8 text ++ (if endswith [10%N] text then [] else [10%N]))
            (ProcessManager.stdio_send_line pid text m)) /\
  (encodable text = false ->
   exists e, encode text = inl e /\
     refused e (ProcessManager.stdio_send_chars pid text m) /\
     refused e (ProcessManager.stdio_send_line pid text m)).
Proof.
  intros Hget Hp Hrun Hopen Halive received refused. subst received refused. cbn beta.
  assert (Hwrite : forall t, encodable t = true ->
            ProcessHandler.write_stdin t h =
              (py "success",
               ProcessHandler.set_process
                 (Some (Popen.set_stdin false (Popen.stdin_data p ++ encode_utf8 t) p)) h)).
  { intros t Ht. unfold ProcessHandler.write_stdin. rewrite Hp.
    rewrite bool_decide_eq_true_2 by exact Hrun. cbn [negb].
    rewrite (encode_encodable _ Ht).
    unfold Popen.stdin_write. now rewrite Hopen, Halive. }
  assert (Hfail : forall t e, encode t = inl e ->
            ProcessHandler.write_stdin t h = (py "failed: " ++ e, h)).
  { intros t e He. unfold ProcessHandler.write_stdin. rewrite Hp.
    rewrite bool_decide_eq_true_2 by exact Hrun. cbn [negb]. now rewrite He. }
  assert (Hsame : forall pid',
            Dict.get pid' (Dict.set pid h (ProcessManager.processes m)) =
            Dict.get pid' (ProcessManager.processes m)).
  { intros pid'. destruct (Z.eq_dec pid' pid) as [->|Hne].
    - rewrite Hget. apply dict_get_set_same.
    - now apply dict_get_set_other. }
  split.
  - intros Henc.
    assert (Hline : encodable (if endswith [10%N] text then text else text ++ [10%N])
                    = true).
    { destruct (endswith [10%N] text); [exact Henc|].
      rewrite encodable_app, Henc. reflexivity. }
    split.
    + unfold ProcessManager.stdio_send_chars.
      rewrite (call_registered _ pid _ _ m h Hget).
      unfold ProcessHandler.send_chars. rewrite (Hwrite _ Henc).
      cbn [fst snd ProcessManager.processes].
      split; [reflexivity|]. split.
      * eexists. split; [apply dict_get_set_same|]. now repeat split.
      * intros pid' Hne. now apply dict_get_set_other.
    + unfold ProcessManager.stdio_send_line.
      rewrite (call_registered _ pid _ _ m h Hget).
      unfold ProcessHandler.send_line. rewrite (Hwrite _ Hline).
      cbn [fst snd ProcessManager.processes].
      split; [reflexivity|]. split.
      * eexists. split; [apply dict_get_set_same|].
        split; [|now split].
        cbn [ProcessHandler.process ProcessHandler.set_process option_map
             Popen.stdin_data Popen.set_stdin].
        destruct (endswith [10%N] text);
          rewrite ?app_nil_r, ?encode_utf8_app; reflexivity.
      * intros pid' Hne. now apply dict_get_set_other.
  - intros Henc. destruct (encode_refused _ Henc) as [e He].
    exists e. split; [exact He|]. split.
    + unfold ProcessManager.stdio_send_chars.
      rewrite (call_registered _ pid _ _ m h Hget).
      unfold ProcessHandler.send_chars. rewrite (Hfail _ _ He).
      cbn [fst snd ProcessManager.processes]. split; [reflexivity|exact Hsame].
    + unfold ProcessManager.stdio_send_line.
      rewrite (call_registered _ pid _ _ m h Hget).
      unfold ProcessHandler.send_line.
      assert (Hl : encode (if endswith [10%N] text then text else text ++ [10%N])
                   = inl e)
        by (destruct (endswith [10%N] text); [exact He|now apply encode_newline]).
      rewrite (Hfail _ _ Hl).
      cbn [fst snd ProcessManager.processes]. split; [reflexivity|exact Hsame].
Qed.

Lemma stdio_send_reaches_process_witness :
  fst (ProcessManager.stdio_send_line 7 (py "hello")
         (Examples.manager [(7, Examples.sleeper 7 None)])) = py "success".
Proof.
  exact (proj1 (proj2 (proj1 (stdio_send_reaches_process
    (Examples.manager [(7, Examples.sleeper 7 None)]) 7 (Examples.sleeper 7 None)
    (Examples.sleeper_process 7 None) (py "hello")
    eq_refl eq_refl eq_refl eq_refl eq_refl) eq_refl))).
Defined.
